(** * The booking transaction of [app.js] ([POST /api/book])

    A shallow embedding of the guarded booking handler of [src/app.js]
    (lines 526-680): the per-slot gate [bookingLocks], the resolution chain
    slot -> schedule -> practitioner -> role -> organization -> patient, the
    conflict lookup, the transaction bundle and the reading of the
    transaction response.

    JavaScript values are modelled by [val]; every [await fetch(...)] is an
    interaction with the backend, so the handler is a finite interaction
    tree ([IO]) which is run either against a list of answers ([play]) or
    against a stateful backend ([serve]).

    The other handlers of the file - registration, login, password reset,
    the caller's patient record, the schedules of an organization, the
    slots of a schedule and the caller's appointments - are embedded the
    same way after the booking handler, and the last two parts of the
    development are about them and about how they fit the booking
    handler. *)

From stdpp Require Import gmap strings list.
From Stdlib Require Import ZArith Ascii DecimalString.

Open Scope Z_scope.

Set Warnings "-register-all".

(** ** JavaScript values *)

(** What [JSON.parse] can produce, plus [undefined].  Numbers are the
    integers (the handler only reads counts); an object is the list of its
    own properties in property order, each key occurring once. *)
Inductive val : Type :=
| Undefined
| Null
| Bool (b : bool)
| Num (n : Z)
| Str (s : string)
| Arr (items : list val)
| Obj (fields : list (string * val)).

(** What a [try] block can end with. *)
Inductive Exn : Type :=
| Error (message : string)   (* [throw new Error(message)] of the handler *)
| TypeError                  (* property of undefined/null, call of a non-function *)
| SyntaxError                (* [res.json()] on a body that is not JSON *)
| FetchError.                (* [fetch] rejected *)

(** The reply written to [res]. *)
Inductive Body : Type :=
| ErrorBody (error : string)                       (* [{ error: '...' }] *)
| CaughtBody (err : Exn)                           (* [{ error: err.message }] *)
| BookedBody (message : string) (appointmentId : val).

Record Reply : Type := mkReply { code : Z; body : Body }.

(** Outcome of a statement sequence inside [try]: it runs to its end,
    throws, or leaves the handler by [return res...]. *)
Inductive Outcome (A : Type) : Type :=
| Normal (a : A)
| Throw (e : Exn)
| Return (r : Reply).
Arguments Normal {A} a.
Arguments Throw {A} e.
Arguments Return {A} r.

Definition obind {A B} (o : Outcome A) (k : A -> Outcome B) : Outcome B :=
  match o with
  | Normal a => k a
  | Throw e => Throw e
  | Return r => Return r
  end.

(** *** Primitive operations of the language *)

(** [!!v] *)
Definition truthy (v : val) : bool :=
  match v with
  | Undefined | Null => false
  | Bool b => b
  | Num n => negb (Z.eqb n 0)
  | Str s => negb (String.eqb s "")
  | Arr _ | Obj _ => true
  end.

Fixpoint assoc (k : string) (fs : list (string * val)) : option val :=
  match fs with
  | [] => None
  | (k', v) :: fs' => if String.eqb k k' then Some v else assoc k fs'
  end.

(** [v.k] for the property names the handler reads ([schedule],
    [reference], [actor], [total], [entry], [resource], [organization],
    [id], [slot], [start], [end], [response], [status], [location]); none
    of them is a built-in property of a string, number, boolean or array. *)
Definition get (v : val) (k : string) : Outcome val :=
  match v with
  | Undefined | Null => Throw TypeError
  | Obj fs => Normal (default Undefined (assoc k fs))
  | _ => Normal Undefined
  end.

Definition first_char (s : string) : val :=
  match s with
  | EmptyString => Undefined
  | String c _ => Str (String c EmptyString)
  end.

(** [v[0]] *)
Definition get0 (v : val) : Outcome val :=
  match v with
  | Undefined | Null => Throw TypeError
  | Arr l => Normal (default Undefined (head l))
  | Obj fs => Normal (default Undefined (assoc "0" fs))
  | Str s => Normal (first_char s)
  | _ => Normal Undefined
  end.

(** [v?.k] *)
Definition get_opt (v : val) (k : string) : Outcome val :=
  match v with
  | Undefined | Null => Normal Undefined
  | _ => get v k
  end.

(** [`${v}`] *)
Fixpoint to_string (v : val) : string :=
  match v with
  | Undefined => "undefined"
  | Null => "null"
  | Bool true => "true"
  | Bool false => "false"
  | Num n => NilZero.string_of_int (Z.to_int n)
  | Str s => s
  | Arr l =>
      (fix join (l : list val) : string :=
         match l with
         | [] => ""
         | x :: r =>
             let sx := match x with Undefined | Null => "" | _ => to_string x end in
             match r with [] => sx | _ => sx +:+ "," +:+ join r end
         end) l
  | Obj _ => "[object Object]"
  end.

(** [s.split(c)] for a one-character separator. *)
Fixpoint split_go (c : ascii) (cur : string) (s : string) : list string :=
  match s with
  | EmptyString => [String.rev cur]
  | String a s' =>
      if Ascii.eqb a c then String.rev cur :: split_go c EmptyString s'
      else split_go c (String a cur) s'
  end.

Definition split (c : ascii) (s : string) : list string := split_go c EmptyString s.

(** [v.split('/')[1]]: a call of [split] on anything but a string is a
    [TypeError]. *)
Definition split_slash_1 (v : val) : Outcome val :=
  match v with
  | Str s => Normal (from_option Str Undefined (split "/"%char s !! 1%nat))
  | _ => Throw TypeError
  end.

(** [v.startsWith(p)] *)
Definition startsWith (v : val) (p : string) : Outcome bool :=
  match v with
  | Str s => Normal (String.prefix p s)
  | _ => Throw TypeError
  end.

(** [{ ...v }]: the own enumerable properties. *)
Fixpoint chars_from (i : nat) (s : string) : list (string * val) :=
  match s with
  | EmptyString => []
  | String c s' =>
      (NilZero.string_of_uint (Nat.to_uint i), Str (String c EmptyString))
        :: chars_from (S i) s'
  end.

Fixpoint items_from (i : nat) (l : list val) : list (string * val) :=
  match l with
  | [] => []
  | x :: l' => (NilZero.string_of_uint (Nat.to_uint i), x) :: items_from (S i) l'
  end.

Definition spread (v : val) : list (string * val) :=
  match v with
  | Obj fs => fs
  | Arr l => items_from 0 l
  | Str s => chars_from 0 s
  | _ => []
  end.

(** [{ ...o, k: v }]: an existing key keeps its place, a new one goes last. *)
Fixpoint set_field (k : string) (v : val) (fs : list (string * val))
  : list (string * val) :=
  match fs with
  | [] => [(k, v)]
  | (k', v') :: fs' =>
      if String.eqb k k' then (k, v) :: fs' else (k', v') :: set_field k v fs'
  end.

(** [encodeURIComponent] on a string held as its UTF-8 bytes: the
    unreserved characters stay, every other byte becomes [%XX]. *)
Definition unreserved (c : ascii) : bool :=
  let n := N_of_ascii c in
  ((65 <=? n) && (n <=? 90) || (97 <=? n) && (n <=? 122)
   || (48 <=? n) && (n <=? 57))%N
  || bool_decide (c ∈ ["-"; "_"; "."; "!"; "~"; "*"; "'"; "("; ")"]%char).

Definition hex_digit (n : N) : ascii :=
  default "0"%char (String.get (N.to_nat n) "0123456789ABCDEF").

Fixpoint encodeURIComponent (s : string) : string :=
  match s with
  | EmptyString => EmptyString
  | String c s' =>
      if unreserved c then String c (encodeURIComponent s')
      else
        let n := N_of_ascii c in
        String "%" (String (hex_digit (n / 16)) (String (hex_digit (n mod 16))
          (encodeURIComponent s')))
  end.

(** ** Interaction with the backend *)

(** The two shapes of [fetch] in the handler: [fetch(url)] and the
    [POST] of the transaction bundle ([JSON.stringify] of [bundle]). *)
Inductive Request : Type :=
| Get (url : string)
| PostBundle (url : string) (bundle : val).

(** What the handler reads of a response: [status] (through [ok]),
    [statusText] and the body, [None] when the body is not JSON. *)
Record Response : Type :=
  mkResponse { status : Z; statusText : string; payload : option val }.

Definition ok (r : Response) : bool := (200 <=? status r) && (status r <=? 299).

(** A computation that awaits the backend finitely often.  The answer to
    a [fetch] is [None] when the promise rejects. *)
Inductive IO (A : Type) : Type :=
| Pure (a : A)
| Fetch (rq : Request) (k : option Response -> IO A).
Arguments Pure {A} a.
Arguments Fetch {A} rq k.

Fixpoint io_bind {A B} (m : IO A) (k : A -> IO B) : IO B :=
  match m with
  | Pure a => k a
  | Fetch rq h => Fetch rq (fun r => io_bind (h r) k)
  end.

(** Statements of the [try] block: interaction plus throw/return. *)
Definition M (A : Type) : Type := IO (Outcome A).

Definition bind {A B} (m : M A) (k : A -> M B) : M B :=
  io_bind m (fun o =>
    match o with
    | Normal a => k a
    | Throw e => Pure (Throw e)
    | Return r => Pure (Return r)
    end).

Definition lift {A} (o : Outcome A) : M A := Pure o.
Definition unit {A} (a : A) : M A := Pure (Normal a).
Definition throw {A} (e : Exn) : M A := Pure (Throw e).
Definition return_ {A} (c : Z) (b : Body) : M A := Pure (Return (mkReply c b)).

(** [await fetch(...)] *)
Definition fetch (rq : Request) : M Response :=
  Fetch rq (fun r =>
    Pure (match r with Some x => Normal x | None => Throw FetchError end)).

(** [await res.json()] *)
Definition json (r : Response) : Outcome val :=
  match payload r with
  | Some v => Normal v
  | None => Throw SyntaxError
  end.

Declare Scope js_scope.
Delimit Scope js_scope with js.
Notation "'let!' x ':=' e 'in' k" := (bind e (fun x => k))
  (at level 10, x pattern, e at level 100, k at level 200, only parsing) : js_scope.
Notation "'let?' x ':=' e 'in' k" := (bind (lift e) (fun x => k))
  (at level 10, x pattern, e at level 100, k at level 200, only parsing) : js_scope.
Notation "o '.[' k ']'" := (obind o (fun v => get v k))
  (at level 1, left associativity, format "o .[ k ]") : js_scope.

(** [bundle.entry[0].resource] *)
Definition entry0_resource (bundle : val) : Outcome val :=
  ((obind (get bundle "entry") get0).["resource"])%js.

(** [prRoleBundle.entry[0].resource.organization?.reference] *)
Definition organization_reference (prRoleBundle : val) : Outcome val :=
  obind ((entry0_resource prRoleBundle).["organization"])%js
    (fun organization => get_opt organization "reference").

(** [oldAppointment.slot[0].reference], [schedule.actor[0].reference] *)
Definition first_reference (v : val) (k : string) : Outcome val :=
  ((obind (get v k) get0).["reference"])%js.


(** The backend's answers, in the order the handler awaits them; when the
    list runs out the [fetch] rejects.  The result comes with the requests
    made, in order, and the answers left over. *)
Fixpoint play {A} (p : IO A) (answers : list (option Response))
  : A * list Request * list (option Response) :=
  match p with
  | Pure a => (a, [], answers)
  | Fetch rq k =>
      let '(a, rqs, rest) := play (k (default None (head answers))) (tail answers) in
      (a, rq :: rqs, rest)
  end.

(** A run with one more request in front. *)
Definition sent {A} (rq : Request)
  (res : A * list Request * list (option Response))
  : A * list Request * list (option Response) :=
  let '(a, rqs, rest) := res in (a, rq :: rqs, rest).

(** The same against a backend with a state of its own. *)
Fixpoint run {A S} (serve : S -> Request -> option Response * S)
  (p : IO A) (s : S) : A * list Request * S :=
  match p with
  | Pure a => (a, [], s)
  | Fetch rq k =>
      let '(r, s') := serve s rq in
      let '(a, rqs, s'') := run serve (k r) s' in
      (a, rq :: rqs, s'')
  end.

(** The answers a backend gives along a run. *)
Fixpoint answers_of {A S} (serve : S -> Request -> option Response * S)
  (p : IO A) (s : S) : list (option Response) :=
  match p with
  | Pure _ => []
  | Fetch rq k => let '(r, s') := serve s rq in r :: answers_of serve (k r) s'
  end.

(** Runs [p] against a backend for as long as it only reads: what is left
    of [p] - done, or about to post - with the requests made and the
    backend's state.  It is how far a handler gets before another one
    takes its turn. *)
Fixpoint run_reads {A S} (serve : S -> Request -> option Response * S)
  (p : IO A) (s : S) : IO A * list Request * S :=
  match p with
  | Fetch (Get url) k =>
      let '(r, s') := serve s (Get url) in
      let '(p', rqs, s'') := run_reads serve (k r) s' in
      (p', Get url :: rqs, s'')
  | _ => (p, [], s)
  end.

(** The transaction bundles posted along a run. *)
Definition submitted (rqs : list Request) : list val :=
  omap (fun rq => match rq with PostBundle _ b => Some b | Get _ => None end) rqs.

(** ** The handler of [POST /api/book] *)

(** What the handler reads of the request: [req.body.slotId] ([None] when
    absent; the orchestrator's slot id is a string) and
    [req.cookies.token]. *)
Record BookRequest : Type := mkBookRequest { slotId : option string; token : val }.

(** The chain resolved by steps 3-5 of the handler from the fetched slot. *)
Record Resolved : Type := mkResolved {
  scheduleRef : val;
  actorRef : val;
  patientRef : string
}.

Section Handler.

Open Scope js_scope.

(** [process.env.FHIR_SERVER_BASE || '...'], [process.env.JWT_SECRET] *)
Variable FHIR_BASE : string.
Variable JWT_SECRET : string.

(** [jwt.verify(token, secret)]: the decoded payload, [None] when it
    throws. *)
Variable jwt_verify : val -> string -> option val.

(** Whether the number a string converts to is greater than zero. *)
Variable positive_numeral : string -> bool.

(** [v > 0] *)
Definition gt0 (v : val) : bool :=
  match v with
  | Num n => 0 <? n
  | Bool b => b
  | Str s => positive_numeral s
  | Arr _ => positive_numeral (to_string v)
  | Undefined | Null | Obj _ => false
  end.

(** [v === 0] *)
Definition is0 (v : val) : bool :=
  match v with
  | Num n => n =? 0
  | _ => false
  end.

(** Step 1: [jwt.verify(token, JWT_SECRET).id] inside its own
    [try]/[catch]. *)
Definition authenticate (tok : val) : Outcome val :=
  if negb (truthy tok) then Return (mkReply 401 (ErrorBody "未登入"))
  else
    match jwt_verify tok JWT_SECRET with
    | Some claims =>
        match get claims "id" with
        | Normal personId => Normal personId
        | _ => Return (mkReply 401 (ErrorBody "Token 驗證失敗"))
        end
    | None => Return (mkReply 401 (ErrorBody "Token 驗證失敗"))
    end.

(** Steps 3-5, from the fetched slot on. *)
Definition resolve_from_slot (personId : val) (newSlot : val) : M Resolved :=
  (* 3. Get the Schedule from the new Slot *)
  let? scheduleRef := (Normal newSlot).["schedule"].["reference"] in
  let! scheduleRes := fetch (Get (FHIR_BASE +:+ "/" +:+ to_string scheduleRef)) in
  if negb (ok scheduleRes)
  then return_ 404 (ErrorBody "找不到活動排程 (Schedule)") else
  let? schedule := json scheduleRes in
  let? actorRef := first_reference schedule "actor" in
  (* 4. Determine the Organization ID from the Practitioner *)
  let? isPractitioner := startsWith actorRef "Practitioner/" in
  if negb isPractitioner
  then throw (Error ("Schedule actor is not a Practitioner as expected: "
                       +:+ to_string actorRef)) else
  let prRoleUrl := FHIR_BASE +:+ "/PractitionerRole?practitioner="
                     +:+ encodeURIComponent (to_string actorRef) in
  let! prRoleRes := fetch (Get prRoleUrl) in
  if negb (ok prRoleRes)
  then throw (Error ("Could not fetch PractitionerRole for " +:+ to_string actorRef)) else
  let? prRoleBundle := json prRoleRes in
  let? prRoleTotal := get prRoleBundle "total" in
  if is0 prRoleTotal
  then throw (Error ("Cannot find PractitionerRole for actor " +:+ to_string actorRef)) else
  let? orgRef := organization_reference prRoleBundle in
  if negb (truthy orgRef)
  then throw (Error ("PractitionerRole for " +:+ to_string actorRef
                       +:+ " does not have an organization reference.")) else
  let? organizationId := split_slash_1 orgRef in
  (* 5. Find the correct, organization-specific Patient resource *)
  let personIdentifier := "http://example.org/fhir/person|"
                            +:+ encodeURIComponent (to_string personId) in
  let patientSearchUrl := FHIR_BASE +:+ "/Patient?identifier=" +:+ personIdentifier
                            +:+ "&organization=Organization/"
                            +:+ to_string organizationId in
  let! pSearchRes := fetch (Get patientSearchUrl) in
  if negb (ok pSearchRes)
  then throw (Error ("搜尋 Patient 時發生錯誤: " +:+ statusText pSearchRes)) else
  let? pSearchBundle := json pSearchRes in
  let? pTotal := get pSearchBundle "total" in
  if negb (truthy pTotal)
  then return_ 404 (ErrorBody "在此組織中找不到對應的 Patient 記錄") else
  let? patientId := (entry0_resource pSearchBundle).["id"] in
  unit (mkResolved scheduleRef actorRef ("Patient/" +:+ to_string patientId)).

(** Step 2, then the rest of the chain. *)
Definition resolve (slotId : string) (personId : val) : M (val * Resolved) :=
  let! newSlotRes := fetch (Get (FHIR_BASE +:+ "/Slot/" +:+ slotId)) in
  if negb (ok newSlotRes)
  then return_ 404 (ErrorBody "找不到指定的時段 (Slot)") else
  let? newSlot := json newSlotRes in
  let! r := resolve_from_slot personId newSlot in
  unit (newSlot, r).

(** Step 6: the lookup of a booked appointment of the patient on the
    schedule.  The response's [ok] is not looked at. *)
Definition existingApptUrl (r : Resolved) : string :=
  FHIR_BASE +:+ "/Appointment?patient=" +:+ encodeURIComponent (patientRef r)
    +:+ "&supporting-information=" +:+ encodeURIComponent (to_string (scheduleRef r))
    +:+ "&status=booked".

Definition find_existing (r : Resolved) : M val :=
  let! existingApptRes := fetch (Get (existingApptUrl r)) in
  lift (json existingApptRes).

(** The entries of the bundle. *)
Definition put_entry (resource : list (string * val)) (url : val) : val :=
  Obj [("resource", Obj resource);
       ("request", Obj [("method", Str "PUT"); ("url", url)])].

Definition delete_entry (url : string) : val :=
  Obj [("request", Obj [("method", Str "DELETE"); ("url", Str url)])].

Definition post_entry (resource : list (string * val)) (url : string) : val :=
  Obj [("resource", Obj resource);
       ("request", Obj [("method", Str "POST"); ("url", Str url)])].

(** Step 8: the operations that cancel an appointment found at step 6,
    with the message for the caller. *)
Definition cancel_existing (existingApptBundle : val) : M (list val * string) :=
  let? total := get existingApptBundle "total" in
  if gt0 total then
    let? oldAppointment := entry0_resource existingApptBundle in
    let? oldId := get oldAppointment "id" in
    let oldAppointmentRef := "Appointment/" +:+ to_string oldId in
    let? oldSlotRef := first_reference oldAppointment "slot" in
    let! freeOld :=
      if truthy oldSlotRef then
        let! oldSlotRes := fetch (Get (FHIR_BASE +:+ "/" +:+ to_string oldSlotRef)) in
        if ok oldSlotRes then
          let? oldSlot := json oldSlotRes in
          unit [put_entry (set_field "status" (Str "free") (spread oldSlot)) oldSlotRef]
        else unit []
      else unit [] in
    unit (freeOld ++ [delete_entry oldAppointmentRef], "預約已更新！")
  else unit ([], "預約成功！").

(** Step 9: the operations for the new booking. *)
Definition new_appointment (slotId : string) (r : Resolved) (start end_ : val)
  : list (string * val) :=
  [("resourceType", Str "Appointment");
   ("status", Str "booked");
   ("slot", Arr [Obj [("reference", Str ("Slot/" +:+ slotId))]]);
   ("supportingInformation", Arr [Obj [("reference", scheduleRef r)]]);
   ("start", start);
   ("end", end_);
   ("participant",
     Arr [Obj [("actor", Obj [("reference", Str (patientRef r))]);
               ("status", Str "accepted")];
          Obj [("actor", Obj [("reference", actorRef r)]);
               ("status", Str "accepted")]])].

Definition book_entries (slotId : string) (newSlot : val) (r : Resolved)
  : Outcome (list val) :=
  obind (get newSlot "start") (fun start =>
  obind (get newSlot "end") (fun end_ =>
  Normal
    [post_entry (new_appointment slotId r start end_) "Appointment";
     put_entry (set_field "status" (Str "busy") (spread newSlot))
               (Str ("Slot/" +:+ slotId))])).

Definition transactionBundle (entries : list val) : val :=
  Obj [("resourceType", Str "Bundle"); ("type", Str "transaction");
       ("entry", Arr entries)].

(** Step 10: the reading of the transaction response.
    [entry.find(e => e.response && e.response.status.startsWith('201'))] *)
Definition is_created (e : val) : Outcome bool :=
  obind (get e "response") (fun response =>
  if truthy response
  then obind (get response "status") (fun st => startsWith st "201")
  else Normal false).

Fixpoint find_created (entries : list val) : Outcome val :=
  match entries with
  | [] => Normal Undefined
  | e :: rest =>
      obind (is_created e) (fun hit => if hit then Normal e else find_created rest)
  end.

Definition array_find_created (v : val) : Outcome val :=
  match v with
  | Arr entries => find_created entries
  | _ => Throw TypeError
  end.

Definition read_result (message : string) (txResult : val) : Outcome Reply :=
  obind (obind (get txResult "entry") array_find_created) (fun newAppointmentEntry =>
  if negb (truthy newAppointmentEntry)
  then Throw (Error "交易成功，但無法在回應中找到新建立的 Appointment。")
  else
    obind (obind (Normal newAppointmentEntry).["response"].["location"] split_slash_1)
      (fun newAppointmentId =>
    Normal (mkReply 200 (BookedBody message newAppointmentId)))).

Definition execute (entries : list val) (message : string) : M Reply :=
  let! txRes := fetch (PostBundle FHIR_BASE (transactionBundle entries)) in
  if negb (ok txRes)
  then throw (Error ("FHIR 交易失敗: " +:+ statusText txRes)) else
  let? txResult := json txRes in
  lift (read_result message txResult).

(** Steps 6-10. *)
Definition book_resolved (slotId : string) (newSlot : val) (r : Resolved) : M Reply :=
  let! existingApptBundle := find_existing r in
  let! plan := cancel_existing existingApptBundle in
  let '(cancel, message) := plan in
  let? booking := book_entries slotId newSlot r in
  execute (cancel ++ booking) message.

(** The body of the [try] block. *)
Definition book_try (slotId : string) (tok : val) : M Reply :=
  let? personId := authenticate tok in
  let! chain := resolve slotId personId in
  let '(newSlot, r) := chain in
  book_resolved slotId newSlot r.

(** [catch (err) { res.status(500).json({ error: err.message }) }] *)
Definition settle (o : Outcome Reply) : Reply :=
  match o with
  | Normal r | Return r => r
  | Throw e => mkReply 500 (CaughtBody e)
  end.

(** The handler: the reply, and [bookingLocks] when it is done. *)
Definition book (bookingLocks : gmap string bool) (req : BookRequest)
  : IO (Reply * gmap string bool) :=
  match slotId req with
  | None => Pure (mkReply 400 (ErrorBody "缺少 slotId"), bookingLocks)
  | Some slotId =>
      if String.eqb slotId ""
      then Pure (mkReply 400 (ErrorBody "缺少 slotId"), bookingLocks)
      else if bool_decide (is_Some (bookingLocks !! slotId))
      then Pure (mkReply 409 (ErrorBody "此時段正在處理中，請稍候"), bookingLocks)
      else
        let held := <[slotId := true]> bookingLocks in
        io_bind (book_try slotId (token req)) (fun o =>
        Pure (settle o, delete slotId held))
  end.

End Handler.

(** ** A model backend

    The server behind [FHIR_BASE] is not part of the repository.  The
    model is a resource store keyed by reference (["Slot/s1"]), which reads
    [base/<reference>], answers the search URLs it has a route for, and
    applies a transaction bundle in full or not at all.  It stands for the
    external server in the scenarios below and gives the transaction its
    meaning; the theorems about the handler's requests and replies hold
    for every list of answers. *)

(** Reading a stored resource: a field, the items of an array, a string
    test. *)
Definition field (v : val) (k : string) : val :=
  match v with
  | Obj fs => default Undefined (assoc k fs)
  | _ => Undefined
  end.

Definition items (v : val) : list val :=
  match v with
  | Arr l => l
  | _ => []
  end.

Definition str_is (v : val) (s : string) : bool :=
  match v with
  | Str s' => String.eqb s' s
  | _ => false
  end.

(** A booked appointment of [patient] on [schedule]. *)
Definition is_booked_for (patient schedule : string) (a : val) : bool :=
  str_is (field a "resourceType") "Appointment"
  && str_is (field a "status") "booked"
  && existsb (fun p => str_is (field (field p "actor") "reference") patient)
       (items (field a "participant"))
  && existsb (fun s => str_is (field s "reference") schedule)
       (items (field a "supportingInformation")).

Definition booked_for (patient schedule : string) (st : gmap string val)
  : list (string * val) :=
  List.filter (fun kv => is_booked_for patient schedule (snd kv)) (map_to_list st).

(** How the model answers a search URL: with a fixed response, or with
    the booked appointments of the store. *)
Inductive Route : Type :=
| Static (r : Response)
| AppointmentSearch (patient schedule : string).

Record Backend : Type := mkBackend {
  store : gmap string val;
  routes : list (string * Route);
  next_id : Z
}.

Fixpoint route_of (url : string) (rs : list (string * Route)) : option Route :=
  match rs with
  | [] => None
  | (u, r) :: rs' => if String.eqb url u then Some r else route_of url rs'
  end.

Fixpoint strip_prefix (p s : string) : option string :=
  match p, s with
  | EmptyString, _ => Some s
  | String a p', String b s' => if Ascii.eqb a b then strip_prefix p' s' else None
  | String _ _, EmptyString => None
  end.

(** Modelled from the spec: a search answers with the list of the
    records found and their number. *)
Definition searchset (found : list val) : val :=
  Obj [("resourceType", Str "Bundle"); ("type", Str "searchset");
       ("total", Num (Z.of_nat (length found)));
       ("entry", Arr (map (fun r => Obj [("resource", r)]) found))].

Definition outcome_body : val := Obj [("resourceType", Str "OperationOutcome")].

(** Modelled from the spec: read by reference, and search of the
    reservations filtered by (patient reference, schedule reference,
    status = booked); the other searches are answered from the routes. *)
Definition serve_get (base : string) (b : Backend) (url : string) : Response :=
  match route_of url (routes b) with
  | Some (Static r) => r
  | Some (AppointmentSearch p s) =>
      mkResponse 200 "OK" (Some (searchset (map snd (booked_for p s (store b)))))
  | None =>
      match mbind (fun key => store b !! key) (strip_prefix (base +:+ "/") url) with
      | Some resource => mkResponse 200 "OK" (Some resource)
      | None => mkResponse 404 "Not Found" (Some outcome_body)
      end
  end.

Definition result_entry (st : string) (location : val) : val :=
  Obj [("response", Obj [("status", Str st); ("location", location)])].

(** Modelled from the spec: one operation of a transaction - delete,
    update or create, each with its outcome, the creation carrying a
    status and the location of the new record; [None] when the operation
    is malformed. *)
Definition apply_entry (acc : gmap string val * Z * list val) (e : val)
  : option (gmap string val * Z * list val) :=
  let '(st, next, results) := acc in
  let request := field e "request" in
  match field request "url" with
  | Str url =>
      if str_is (field request "method") "DELETE" then
        Some (delete url st, next, results ++ [result_entry "204 No Content" Undefined])
      else if str_is (field request "method") "PUT" then
        Some (<[url := field e "resource"]> st, next,
              results ++ [result_entry "200 OK" (Str (url +:+ "/_history/2"))])
      else if str_is (field request "method") "POST" then
        let id := to_string (Num next) in
        let key := url +:+ "/" +:+ id in
        Some (<[key := Obj (set_field "id" (Str id) (spread (field e "resource")))]> st,
              next + 1,
              results ++ [result_entry "201 Created" (Str (key +:+ "/_history/1"))])
      else None
  | _ => None
  end.

(** Modelled from the spec: the operations are applied in order, all of
    them or none. *)
Fixpoint apply_entries (acc : gmap string val * Z * list val) (es : list val)
  : option (gmap string val * Z * list val) :=
  match es with
  | [] => Some acc
  | e :: es' =>
      match apply_entry acc e with
      | Some acc' => apply_entries acc' es'
      | None => None
      end
  end.

(** Modelled from the spec: the backend as a whole; reads leave the store
    as it is, a transaction that applies replaces it. *)
Definition serve (base : string) (b : Backend) (rq : Request)
  : option Response * Backend :=
  match rq with
  | Get url => (Some (serve_get base b url), b)
  | PostBundle url bundle =>
      if String.eqb url base then
        match apply_entries (store b, next_id b, []) (items (field bundle "entry")) with
        | Some (st, next, results) =>
            (Some (mkResponse 200 "OK"
                     (Some (Obj [("resourceType", Str "Bundle");
                                 ("type", Str "transaction-response");
                                 ("entry", Arr results)]))),
             mkBackend st (routes b) next)
        | None => (Some (mkResponse 400 "Bad Request" (Some outcome_body)), b)
        end
      else (Some (mkResponse 404 "Not Found" (Some outcome_body)), b)
  end.

(** *** A clinic with one schedule, two slots and one patient *)

Module Clinic.

Definition base : string := "http://fhir.test/fhir".
Definition secret : string := "s3cret".

Definition verify (tok : val) (key : string) : option val :=
  if str_is tok "alice.jwt" && String.eqb key secret
  then Some (Obj [("id", Str "person-1")])
  else None.

Definition numeral (s : string) : bool := false.

Definition slot (id st start_ end_ : string) : val :=
  Obj [("resourceType", Str "Slot"); ("id", Str id);
       ("schedule", Obj [("reference", Str "Schedule/sch1")]);
       ("status", Str st); ("start", Str start_); ("end", Str end_)].

Definition schedule : val :=
  Obj [("resourceType", Str "Schedule"); ("id", Str "sch1");
       ("actor", Arr [Obj [("reference", Str "Practitioner/dr1")]])].

Definition appointment (id slotRef patient : string) : val :=
  Obj [("resourceType", Str "Appointment"); ("id", Str id);
       ("status", Str "booked");
       ("slot", Arr [Obj [("reference", Str slotRef)]]);
       ("supportingInformation", Arr [Obj [("reference", Str "Schedule/sch1")]]);
       ("participant",
         Arr [Obj [("actor", Obj [("reference", Str patient)]);
                   ("status", Str "accepted")];
              Obj [("actor", Obj [("reference", Str "Practitioner/dr1")]);
                   ("status", Str "accepted")]])].

Definition role_url : string :=
  base +:+ "/PractitionerRole?practitioner=Practitioner%2Fdr1".
Definition patient_url : string :=
  base +:+ "/Patient?identifier=http://example.org/fhir/person|person-1"
       +:+ "&organization=Organization/org1".
Definition conflict_url : string :=
  base +:+ "/Appointment?patient=Patient%2Fp1"
       +:+ "&supporting-information=Schedule%2Fsch1&status=booked".

Definition role_answer : Response :=
  mkResponse 200 "OK" (Some (searchset
    [Obj [("resourceType", Str "PractitionerRole");
          ("practitioner", Obj [("reference", Str "Practitioner/dr1")]);
          ("organization", Obj [("reference", Str "Organization/org1")])]])).

Definition patient_answer : Response :=
  mkResponse 200 "OK" (Some (searchset
    [Obj [("resourceType", Str "Patient"); ("id", Str "p1")]])).

(** Alice (patient [p1]) holds appointment [a1] on slot [s1]; slot [s2]
    is free. *)
Definition resources : gmap string val :=
  <["Slot/s1" := slot "s1" "busy" "2025-08-05T09:00:00Z" "2025-08-05T09:30:00Z"]>
  (<["Slot/s2" := slot "s2" "free" "2025-08-05T09:30:00Z" "2025-08-05T10:00:00Z"]>
  (<["Schedule/sch1" := schedule]>
  (<["Appointment/a1" := appointment "a1" "Slot/s1" "Patient/p1"]> ∅))).

Definition healthy : Backend :=
  mkBackend resources
    [(role_url, Static role_answer); (patient_url, Static patient_answer);
     (conflict_url, AppointmentSearch "Patient/p1" "Schedule/sch1")]
    100.

(** The same clinic while the appointment search answers with a server
    error. *)
Definition search_down : Backend :=
  mkBackend resources
    [(role_url, Static role_answer); (patient_url, Static patient_answer);
     (conflict_url,
      Static (mkResponse 500 "Internal Server Error" (Some outcome_body)))]
    100.

(** The clinic before Alice booked anything. *)
Definition first_visit : Backend :=
  mkBackend (delete "Appointment/a1" resources) (routes healthy) 100.

(** The clinic after slot [s1] was removed while [a1] still names it. *)
Definition old_slot_gone : Backend :=
  mkBackend (delete "Slot/s1" resources) (routes healthy) 100.

(** The clinic when no role binding names the practitioner. *)
Definition no_role : Backend :=
  mkBackend resources
    [(role_url, Static (mkResponse 200 "OK" (Some (searchset []))));
     (patient_url, Static patient_answer);
     (conflict_url, AppointmentSearch "Patient/p1" "Schedule/sch1")]
    100.

(** The clinic when slot [s2] is already busy with Bob's appointment. *)
Definition taken_by_bob : Backend :=
  mkBackend
    (<["Slot/s2" := slot "s2" "busy" "2025-08-05T09:30:00Z" "2025-08-05T10:00:00Z"]>
     (<["Appointment/b1" := appointment "b1" "Slot/s2" "Patient/p2"]> resources))
    (routes healthy) 100.

(** The clinic when the schedule is attached to a location. *)
Definition room_schedule : Backend :=
  mkBackend
    (<["Schedule/sch1" :=
         Obj [("resourceType", Str "Schedule"); ("id", Str "sch1");
              ("actor", Arr [Obj [("reference", Str "Location/room1")]])]]> resources)
    (routes healthy) 100.

Definition alice_books (slotId : string) : BookRequest :=
  mkBookRequest (Some slotId) (Str "alice.jwt").

Definition handler (locks : gmap string bool) (rq : BookRequest)
  : IO (Reply * gmap string bool) :=
  book base secret verify numeral locks rq.

Definition book_on (b : Backend) (rq : BookRequest) :=
  run (serve base) (handler ∅ rq) b.

Definition answers_on (b : Backend) (rq : BookRequest) : list (option Response) :=
  answers_of (serve base) (handler ∅ rq) b.

(** The run of the handler on the answers the backend gives. *)
Definition replay (b : Backend) (rq : BookRequest)
  : Reply * gmap string bool * list Request * list (option Response) :=
  play (handler ∅ rq) (answers_on b rq).



End Clinic.

(** ** Vocabulary of the statements *)

(** The handler awaits the backend in a fixed order: slot, schedule, role
    binding, patient, appointment search, then the old slot (when one is
    to be freed) and the transaction.  [answer k answers] is the response
    to fetch number [k], counted from 0, when the handler gets that far,
    and [asked k rqs] says that it did. *)
Definition asked (k : nat) (rqs : list Request) : Prop := (k < length rqs)%nat.

Definition answer (k : nat) (answers : list (option Response)) : option Response :=
  mjoin (answers !! k).

Definition slot_not_found (answers : list (option Response)) (rqs : list Request) : Prop :=
  asked 0 rqs /\ exists r, answer 0 answers = Some r /\ ok r = false.

Definition schedule_not_found (answers : list (option Response)) (rqs : list Request) : Prop :=
  asked 1 rqs /\ exists r, answer 1 answers = Some r /\ ok r = false.

Definition role_not_found (answers : list (option Response)) (rqs : list Request) : Prop :=
  asked 2 rqs /\
  exists r bundle, answer 2 answers = Some r /\ ok r = true /\
    json r = Normal bundle /\ get bundle "total" = Normal (Num 0).

Definition organization_missing (answers : list (option Response)) (rqs : list Request) : Prop :=
  asked 2 rqs /\
  exists r bundle orgRef, answer 2 answers = Some r /\ ok r = true /\
    json r = Normal bundle /\ organization_reference bundle = Normal orgRef /\
    truthy orgRef = false.

Definition patient_not_registered (answers : list (option Response)) (rqs : list Request) : Prop :=
  asked 3 rqs /\
  exists r bundle total, answer 3 answers = Some r /\ ok r = true /\
    json r = Normal bundle /\ get bundle "total" = Normal total /\
    truthy total = false.

(** The appointment search found a prior booking: [existingApptBundle.total > 0]. *)
Definition conflict_found (positive_numeral : string -> bool)
  (answers : list (option Response)) (existing : val) : Prop :=
  exists r total, answer 4 answers = Some r /\ json r = Normal existing /\
    get existing "total" = Normal total /\ gt0 positive_numeral total = true.

(** The answers resolve the chain to the slot [newSlot] and to [r],
    leaving [rest]. *)
Inductive resolves (answers : list (option Response)) (newSlot : val) (r : Resolved)
  (rest : list (option Response)) : Prop :=
| resolves_chain (slotRes scheduleRes prRoleRes pSearchRes : Response)
    (schedule prRoleBundle prRoleTotal orgRef pSearchBundle pTotal patientId : val) :
    answers = Some slotRes :: Some scheduleRes :: Some prRoleRes :: Some pSearchRes :: rest ->
    ok slotRes = true -> json slotRes = Normal newSlot ->
    obind (get newSlot "schedule") (fun v => get v "reference") = Normal (scheduleRef r) ->
    ok scheduleRes = true -> json scheduleRes = Normal schedule ->
    first_reference schedule "actor" = Normal (actorRef r) ->
    startsWith (actorRef r) "Practitioner/" = Normal true ->
    ok prRoleRes = true -> json prRoleRes = Normal prRoleBundle ->
    get prRoleBundle "total" = Normal prRoleTotal -> is0 prRoleTotal = false ->
    organization_reference prRoleBundle = Normal orgRef -> truthy orgRef = true ->
    ok pSearchRes = true -> json pSearchRes = Normal pSearchBundle ->
    get pSearchBundle "total" = Normal pTotal -> truthy pTotal = true ->
    obind (entry0_resource pSearchBundle) (fun v => get v "id") = Normal patientId ->
    patientRef r = "Patient/" +:+ to_string patientId ->
    resolves answers newSlot r rest.

(** The slot answer with another [status]. *)
Definition with_status (st : val) (r : Response) : Response :=
  mkResponse (status r) (statusText r)
    match payload r with
    | Some (Obj fs) => Some (Obj (set_field "status" st fs))
    | p => p
    end.

(** An operation that sets a resource's status to free. *)
Definition is_free_update (e : val) : bool :=
  str_is (field (field e "request") "method") "PUT"
  && str_is (field (field e "resource") "status") "free".

(** The identifiers of the stored appointments are strings, and an
    appointment is stored under [Appointment/<id>]. *)
Definition appointment_keys (patient schedule : string) (st : gmap string val) : Prop :=
  forall k v, st !! k = Some v -> is_booked_for patient schedule v = true ->
    exists id, field v "id" = Str id /\ k = "Appointment/" +:+ id.

(** No key of the gate is the empty string: the handler only ever sets a
    key that passed [!slotId]. *)
Definition gate_wf (bookingLocks : gmap string bool) : Prop :=
  bookingLocks !! "" = None.

(** ** The other handlers of [app.js]

    Registration, login, password reset, the caller's patient record, the
    schedules of an organization, the slots of a schedule and the
    caller's appointments.  They answer with JSON of many shapes, so
    their reply carries a [val]; every [return res...] of theirs is the
    value of the statements before it, and an exception ends in the
    handler's [catch] when it has one.  The property names they read
    ([purpose], [identifier], [system], [value], [managingOrganization],
    [practitioner], [supportingInformation], [comment]) are, like those
    of the booking handler, no built-in property of a string, number,
    boolean or array, so that [get] reads them. *)

(** Where the [detail] of an error reply comes from: the message of an
    exception of the handler or of a library, or of what [jwt.verify]
    threw. *)
Inductive Detail : Type :=
| MessageOf (e : Exn)
| VerifyMessage.

(** The JSON written to [res]. *)
Inductive Sent : Type :=
| Json (v : val)                               (* [res.json(v)] *)
| Failure (error : string) (detail : Detail)   (* [{ error: '...', detail: err.message }] *)
| Caught (e : Exn)                             (* [{ error: err.message }] *)
| TextOf (r : Response).                       (* [{ error: await r.text() }] *)

(** The reply: the status, the [token] cookie when [res.cookie] set one,
    and the body. *)
Record HttpReply : Type :=
  mkHttp { http_status : Z; http_cookie : option string; http_body : Sent }.

Definition json_reply (c : Z) (v : val) : HttpReply := mkHttp c None (Json v).

(** [res.status(c).json({ error: message })] *)
Definition error_reply (c : Z) (message : string) : HttpReply :=
  json_reply c (Obj [("error", Str message)]).

(** [res.json({ message })] *)
Definition message_reply (message : string) : HttpReply :=
  json_reply 200 (Obj [("message", Str message)]).

(** The replies of the authentication step, which these handlers share
    with the booking handler, as JSON. *)
Definition of_reply (r : Reply) : HttpReply :=
  mkHttp (code r) None
    match body r with
    | ErrorBody e => Json (Obj [("error", Str e)])
    | CaughtBody e => Caught e
    | BookedBody m id => Json (Obj [("message", Str m); ("appointmentId", id)])
    end.

(** [try { ... } catch (err) { res.status(...).json(...) }] *)
Definition respond (on_error : Exn -> HttpReply) (o : Outcome HttpReply) : HttpReply :=
  match o with
  | Normal r => r
  | Return r => of_reply r
  | Throw e => on_error e
  end.

(** [a || b] *)
Definition or_else (a b : val) : val := if truthy a then a else b.

(** A call into a library: its value, or what it threw or rejected with. *)
Definition settled {A} (x : Exn + A) : Outcome A :=
  match x with
  | inl e => Throw e
  | inr a => Normal a
  end.

(** [await fetch(...)] inside a [try] of its own: [None] when it rejected. *)
Definition try_fetch (rq : Request) : M (option Response) :=
  Fetch rq (fun r => Pure (Normal r)).

(** [a === b] where an array or object on one side is never the one on
    the other (they come from different parses). *)
Definition strict_equal (a b : val) : bool :=
  match a, b with
  | Undefined, Undefined | Null, Null => true
  | Bool x, Bool y => Bool.eqb x y
  | Num x, Num y => x =? y
  | Str x, Str y => String.eqb x y
  | _, _ => false
  end.

(** [l.map(f)] with a callback that may throw. *)
Fixpoint map_array {A} (f : val -> Outcome A) (l : list val) : Outcome (list A) :=
  match l with
  | [] => Normal []
  | x :: l' =>
      obind (f x) (fun y => obind (map_array f l') (fun ys => Normal (y :: ys)))
  end.

(** The receiver of [(v || []).map(...)], [.filter(...)] or [.forEach(...)]:
    a truthy [v] that is not an array has no such method. *)
Definition array_or_empty (v : val) : Outcome (list val) :=
  if truthy v
  then match v with Arr l => Normal l | _ => Throw TypeError end
  else Normal [].

(** [l.filter(Boolean)] *)
Definition filter_truthy (l : list val) : list val := List.filter truthy l.

Definition EMAIL_SYSTEM : string := "http://example.org/fhir/email".
Definition PASSWORD_SYSTEM : string := "http://example.org/fhir/password".

(** [identifier.find(i => i.system === system)] *)
Fixpoint find_system (system : string) (l : list val) : Outcome val :=
  match l with
  | [] => Normal Undefined
  | i :: l' =>
      obind (get i "system") (fun s =>
      if str_is s system then Normal i else find_system system l')
  end.

Definition array_find_system (system : string) (identifier : val) : Outcome val :=
  match identifier with
  | Arr l => find_system system l
  | _ => Throw TypeError
  end.

(** [identifier.filter(i => i.system !== system)] *)
Fixpoint filter_other_systems (system : string) (l : list val) : Outcome (list val) :=
  match l with
  | [] => Normal []
  | i :: l' =>
      obind (get i "system") (fun s =>
      obind (filter_other_systems system l') (fun kept =>
      Normal (if str_is s system then kept else i :: kept)))
  end.

(** [POST /api/reset-password], step 3 (lines 244-249): the password
    entry of [person.identifier] is replaced by one with the new hash.
    The handler then writes the person back with a [PUT]. *)
Definition reset_identifier (person : val) (hash : val) : Outcome (list val) :=
  obind (get person "identifier") (fun identifier =>
  obind (array_or_empty identifier) (fun entries =>
  obind (filter_other_systems PASSWORD_SYSTEM entries) (fun kept =>
  Normal (kept ++ [Obj [("system", Str PASSWORD_SYSTEM); ("value", hash)]])))).

(** [userRegisteredOrgIds] of [GET /api/schedules]:
    [entry.resource?.managingOrganization?.reference], its second segment
    when truthy, [null] otherwise, the [null]s filtered out. *)
Definition registered_org (entry : val) : Outcome val :=
  obind (get entry "resource") (fun resource =>
  obind (get_opt resource "managingOrganization") (fun managingOrganization =>
  obind (get_opt managingOrganization "reference") (fun orgRef =>
  if truthy orgRef then split_slash_1 orgRef else Normal Null))).

Definition is_null (v : val) : bool :=
  match v with
  | Null => true
  | _ => false
  end.

Definition registered_org_ids (entries : list val) : Outcome (list val) :=
  obind (map_array registered_org entries) (fun ids =>
  Normal (List.filter (fun id => negb (is_null id)) ids)).

(** [l.includes(v)] *)
Definition includes (l : list val) (v : val) : bool := existsb (strict_equal v) l.

(** [e.resource.practitioner?.reference] *)
Definition practitioner_reference (e : val) : Outcome val :=
  obind (obind (get e "resource") (fun resource => get resource "practitioner"))
    (fun practitioner => get_opt practitioner "reference").

(** [scheduleBundle.entry?.map(e => e.resource) || []] *)
Definition schedule_resources (entry : val) : Outcome (list val) :=
  match entry with
  | Undefined | Null => Normal []
  | Arr l => map_array (fun e => get e "resource") l
  | _ => Throw TypeError
  end.

(** One item of the list of [GET /api/slots]. *)
Definition slot_item (e : val) : Outcome val :=
  obind (get e "resource") (fun resource =>
  obind (get resource "id") (fun id =>
  obind (get resource "start") (fun start =>
  obind (get resource "end") (fun end_ =>
  obind (get resource "status") (fun st =>
  Normal (Obj [("id", id); ("start", start); ("end", end_); ("status", st)])))))).

(** The receiver of [v.map(...)]: anything but an array has no such
    method. *)
Definition array_of (v : val) : Outcome (list val) :=
  match v with
  | Arr l => Normal l
  | _ => Throw TypeError
  end.

(** [v?.[0]] *)
Definition get0_opt (v : val) : Outcome val :=
  match v with
  | Undefined | Null => Normal Undefined
  | _ => get0 v
  end.

(** [v.length === 0] *)
Definition length_is_0 (v : val) : bool :=
  match v with
  | Arr l => match l with [] => true | _ => false end
  | Str s => String.eqb s ""
  | Obj fs => is0 (default Undefined (assoc "length" fs))
  | _ => false
  end.

(** [[...new Set(l)]]: the first occurrence of each value, in order. *)
Fixpoint dedupe (seen l : list val) : list val :=
  match l with
  | [] => []
  | x :: l' =>
      if existsb (strict_equal x) seen then dedupe seen l'
      else x :: dedupe (x :: seen) l'
  end.

(** A [Map] as the list of its [set]s, in order; [names.get(key)] is what
    the last [set] of the key put there. *)
Definition map_get (names : list (val * val)) (key : val) : val :=
  fold_left (fun found kv => if strict_equal key (fst kv) then snd kv else found)
    names Undefined.

(** [GET /api/appointments]: [`Patient/${e.resource.id}`] *)
Definition patient_reference (e : val) : Outcome val :=
  obind (obind (get e "resource") (fun resource => get resource "id"))
    (fun id => Normal (Str ("Patient/" +:+ to_string id))).

(** [e.resource.supportingInformation?.[0]?.reference] *)
Definition schedule_reference (e : val) : Outcome val :=
  obind (obind (obind (get e "resource")
    (fun resource => get resource "supportingInformation")) get0_opt)
    (fun first => get_opt first "reference").

(** [scheduleNames.set(e.resource.id, e.resource.comment || '（無描述）')] *)
Definition schedule_name (e : val) : Outcome (val * val) :=
  obind (get e "resource") (fun resource =>
  obind (get resource "id") (fun id =>
  obind (get resource "comment") (fun comment =>
  Normal (id, or_else comment (Str "（無描述）"))))).

(** One item of the list of [GET /api/appointments]. *)
Definition appointment_item (scheduleNames : list (val * val)) (e : val) : Outcome val :=
  obind (get e "resource") (fun appt =>
  obind (obind (obind (obind (get appt "supportingInformation") get0_opt)
           (fun first => get_opt first "reference"))
           (fun reference =>
              match reference with
              | Undefined | Null => Normal Undefined
              | _ => split_slash_1 reference
              end))
    (fun segment =>
  let scheduleId := or_else segment (Str "") in
  obind (get appt "id") (fun id =>
  obind (get appt "start") (fun start =>
  obind (get appt "end") (fun end_ =>
  obind (get appt "status") (fun st =>
  Normal (Obj [("appointmentId", id);
               ("scheduleId", scheduleId);
               ("scheduleName",
                 or_else (map_get scheduleNames scheduleId) (Str "（無法載入名稱）"));
               ("start", start); ("end", end_); ("status", st)]))))))).

(** An identifier made of the characters [encodeURIComponent] leaves
    alone (letters, digits and [-_.!~*'()]), as the ids the backend
    assigns are. *)
Fixpoint all_unreserved (s : string) : bool :=
  match s with
  | EmptyString => true
  | String c s' => unreserved c && all_unreserved s'
  end.

Section Accounts.

Open Scope js_scope.

Variable FHIR_BASE : string.
Variable JWT_SECRET : string.
Variable jwt_verify : val -> string -> option val.
Variable positive_numeral : string -> bool.

(** [jwt.sign(payload, secret, { expiresIn })]: the token. *)
Variable jwt_sign : val -> string -> string -> Exn + string.

(** [await bcrypt.hash(password, 10)] and [await bcrypt.compare(password, hash)]
    as they turn out in the run at hand. *)
Variable bcrypt_hash : val -> Exn + string.
Variable bcrypt_compare : val -> val -> Exn + bool.

(** [await sendResetEmail(email, resetLink)] of [./sendResetEmail.js]:
    whether the mail went out. *)
Variable sendResetEmail : val -> string -> Exn + ().

(** [await res.text()] *)
Variable response_text : Response -> string.

(** The search of a person by email, as [register], [login] and
    [request-reset] write it. *)
Definition person_search_url (email : val) : string :=
  FHIR_BASE +:+ "/Person?identifier=" +:+ encodeURIComponent EMAIL_SYSTEM
    +:+ "|" +:+ encodeURIComponent (to_string email).

(** *** [POST /api/register] *)

Definition new_person (name email : val) (hashedPassword : string) : val :=
  Obj [("resourceType", Str "Person");
       ("name", Arr [Obj [("text", name)]]);
       ("identifier",
         Arr [Obj [("system", Str EMAIL_SYSTEM); ("value", email)];
              Obj [("system", Str PASSWORD_SYSTEM); ("value", Str hashedPassword)]]);
       ("telecom",
         Arr [Obj [("system", Str "email"); ("value", email); ("use", Str "home")]])].

Definition register_try (name email password : val) : M HttpReply :=
  (* 1: is the email taken? *)
  let! checkRes := fetch (Get (person_search_url email)) in
  let? checkData := json checkRes in
  let? total := get checkData "total" in
  if gt0 positive_numeral total
  then unit (error_reply 409 "此 Email 已被註冊") else
  (* 2: create the Person *)
  let? hashedPassword := settled (bcrypt_hash password) in
  let! createRes :=
    fetch (PostBundle (FHIR_BASE +:+ "/Person") (new_person name email hashedPassword)) in
  if negb (ok createRes)
  then throw (Error ("FHIR Server 錯誤: " +:+ to_string (Num (status createRes))
                       +:+ " " +:+ response_text createRes)) else
  let? newPerson := json createRes in
  let? id := get newPerson "id" in
  (* 3: the post-registration token *)
  let? postRegistrationToken :=
    settled (jwt_sign (Obj [("id", id); ("purpose", Str "post-registration")])
               JWT_SECRET "5m") in
  unit (json_reply 201
          (Obj [("message", Str "註冊成功"); ("personId", id);
                ("postRegistrationToken", Str postRegistrationToken)])).

Definition register (name email password : val) : IO HttpReply :=
  if negb (truthy name) || negb (truthy email) || negb (truthy password)
  then Pure (error_reply 400 "姓名、Email 和密碼皆為必填")
  else
    io_bind (register_try name email password) (fun o =>
    Pure (respond
            (fun e => mkHttp 500 None (Failure "註冊過程中發生內部錯誤" (MessageOf e))) o)).

(** *** [POST /api/login] *)

(** [res.cookie('token', loginToken, ...); res.json({ message })] *)
Definition logged_in (loginToken : string) (message : string) : HttpReply :=
  mkHttp 200 (Some loginToken) (Json (Obj [("message", Str message)])).

(** Path A: the post-registration token, inside its own [try]. *)
Definition login_by_token (postRegistrationToken : val) : HttpReply :=
  match jwt_verify postRegistrationToken JWT_SECRET with
  | None => mkHttp 401 None (Failure "註冊後權杖無效或已過期" VerifyMessage)
  | Some payload =>
      respond
        (fun jwtError =>
           mkHttp 401 None (Failure "註冊後權杖無效或已過期" (MessageOf jwtError)))
        (obind (get payload "purpose") (fun purpose =>
         if negb (str_is purpose "post-registration")
         then Normal (error_reply 401 "權杖用途不符")
         else
           obind (get payload "id") (fun id =>
           obind (settled (jwt_sign (Obj [("id", id)]) JWT_SECRET "1h")) (fun loginToken =>
           Normal (logged_in loginToken "註冊後自動登入成功")))))
  end.

(** Path B: email and password. *)
Definition login_by_password (email password : val) : M HttpReply :=
  if negb (truthy email) || negb (truthy password)
  then unit (error_reply 400 "請提供 Email 和密碼") else
  let! searchRes := fetch (Get (person_search_url email)) in
  let? searchData := json searchRes in
  let? total := get searchData "total" in
  if is0 total
  then unit (error_reply 401 "Email 或密碼錯誤") else
  let? person := entry0_resource searchData in
  let? hashEntry := obind (get person "identifier") (array_find_system PASSWORD_SYSTEM) in
  if negb (truthy hashEntry)
  then unit (error_reply 500 "使用者帳號設定不完整，缺少密碼資訊") else
  let? hash := get hashEntry "value" in
  let? isPasswordCorrect := settled (bcrypt_compare password hash) in
  if negb isPasswordCorrect
  then unit (error_reply 401 "Email 或密碼錯誤") else
  let? id := get person "id" in
  let? loginToken := settled (jwt_sign (Obj [("id", id)]) JWT_SECRET "1h") in
  unit (logged_in loginToken "登入成功").

Definition login (email password postRegistrationToken : val) : IO HttpReply :=
  if truthy postRegistrationToken
  then Pure (login_by_token postRegistrationToken)
  else
    io_bind (login_by_password email password) (fun o =>
    Pure (respond
            (fun e => mkHttp 500 None (Failure "登入過程中發生內部錯誤" (MessageOf e))) o)).

(** *** [POST /api/request-reset] *)

Definition reset_requested : HttpReply :=
  message_reply "若此 Email 已註冊，您將會收到一封重設密碼的郵件".

Definition request_reset_try (email : val) : M HttpReply :=
  let! searchRes := fetch (Get (person_search_url email)) in
  let? searchData := json searchRes in
  let? total := get searchData "total" in
  if is0 total then unit reset_requested else
  let? personId := (entry0_resource searchData).["id"] in
  let? resetToken :=
    settled (jwt_sign (Obj [("id", personId); ("purpose", Str "password-reset")])
               JWT_SECRET "15m") in
  let resetLink := "https://myfhirbaser5.ddns.net/reset.html?token=" +:+ resetToken in
  let? _ := settled (sendResetEmail email resetLink) in
  unit reset_requested.

Definition request_reset (email : val) : IO HttpReply :=
  if negb (truthy email) then Pure (error_reply 400 "請輸入 Email")
  else
    io_bind (request_reset_try email) (fun o =>
    Pure (respond
            (fun e => mkHttp 500 None (Failure "請求重設密碼失敗" (MessageOf e))) o)).

(** *** [GET /api/patient] *)

(** The search of the caller's patient records, within an organization
    when one is given. *)
Definition patient_url (personId organizationId : val) : string :=
  FHIR_BASE +:+ "/Patient?identifier=http://example.org/fhir/person|"
    +:+ encodeURIComponent (to_string personId)
    +:+ (if truthy organizationId
         then "&organization=Organization/" +:+ encodeURIComponent (to_string organizationId)
         else "").

(** [tok] is [req.cookies.token]; the other two are
    [req.query.organizationId] and [req.query.managingOrganization].  The
    handler has no [try] around its statements: an exception leaves it
    without a reply. *)
Definition get_patient (tok queryOrganizationId queryManagingOrganization : val)
  : M HttpReply :=
  if negb (truthy tok) then unit (error_reply 401 "未登入") else
  match jwt_verify tok JWT_SECRET with
  | None => unit (error_reply 401 "Token 驗證失敗")
  | Some payload =>
      let? personId := get payload "id" in
      let organizationId := or_else queryOrganizationId queryManagingOrganization in
      let! fetched := try_fetch (Get (patient_url personId organizationId)) in
      match fetched with
      | None => unit (error_reply 502 "FHIR 伺服器無法連線")
      | Some fhirRes =>
          if negb (ok fhirRes)
          then unit (error_reply 502 ("FHIR 錯誤 " +:+ to_string (Num (status fhirRes)))) else
          let? bundle := json fhirRes in
          let? total := get bundle "total" in
          if negb (truthy total)
          then unit (error_reply 404
                       (if truthy organizationId
                        then "此組織尚未註冊 Patient" else "尚未建立任何 Patient")) else
          let? patient := entry0_resource bundle in
          let? patientId := get patient "id" in
          let? orgRef :=
            obind (get patient "managingOrganization")
              (fun managingOrganization => get_opt managingOrganization "reference") in
          unit (json_reply 200
                  (Obj [("patientId", patientId); ("orgRef", or_else orgRef Null)]))
      end
  end.

(** *** [POST /api/patient] *)

Definition new_patient (pid organizationId email : val) : val :=
  Obj [("resourceType", Str "Patient");
       ("identifier",
         Arr [Obj [("system", Str "http://example.org/fhir/person"); ("value", pid)];
              Obj [("system", Str EMAIL_SYSTEM); ("value", email)]]);
       ("managingOrganization",
         Obj [("reference", Str ("Organization/" +:+ to_string organizationId))])].

(** [organizationId] and [email] are those of [req.body].  The Patient
    is posted as the transaction bundle is, with the same headers.  This
    handler has no [try] either. *)
Definition post_patient (tok organizationId email : val) : M HttpReply :=
  let? pid := authenticate JWT_SECRET jwt_verify tok in
  if negb (truthy organizationId) || negb (truthy email)
  then unit (error_reply 400 "缺少參數") else
  (* no second record for the same person and organization *)
  let chkUrl :=
    FHIR_BASE +:+ "/Patient?identifier=http://example.org/fhir/person|"
      +:+ encodeURIComponent (to_string pid)
      +:+ "&organization=Organization/" +:+ encodeURIComponent (to_string organizationId) in
  let! chkRes := fetch (Get chkUrl) in
  let? chk := json chkRes in
  let? total := get chk "total" in
  if gt0 positive_numeral total
  then unit (error_reply 409 "已在此組織註冊") else
  let! r2 :=
    fetch (PostBundle (FHIR_BASE +:+ "/Patient") (new_patient pid organizationId email)) in
  if negb (ok r2) then unit (mkHttp (status r2) None (TextOf r2)) else
  let? np := json r2 in
  let? id := get np "id" in
  unit (json_reply 200 (Obj [("patientId", id)])).

(** *** [GET /api/schedules], up to the list of schedules

    Part 1 (authorization) and step A of part 2 (lines 398-449): either
    the handler's reply, when it ends there, or the schedules whose
    slots step B goes on to fetch. *)
Definition schedules_of_organization (selectedOrgId tok : val)
  : M (HttpReply + list val) :=
  if negb (truthy selectedOrgId)
  then unit (inl (error_reply 400 "請在請求中提供 organizationId 參數")) else
  let? personId := authenticate JWT_SECRET jwt_verify tok in
  let patientSearchUrl :=
    FHIR_BASE +:+ "/Patient?identifier=http://example.org/fhir/person|"
      +:+ encodeURIComponent (to_string personId) in
  let! patientRes := fetch (Get patientSearchUrl) in
  if negb (ok patientRes)
  then throw (Error ("Patient search failed: " +:+ to_string (Num (status patientRes)))) else
  let? patientBundle := json patientRes in
  let? userRegisteredOrgIds :=
    obind (obind (get patientBundle "entry") array_or_empty) registered_org_ids in
  if negb (includes userRegisteredOrgIds selectedOrgId)
  then unit (inl (json_reply 200 (Obj [("schedules", Arr [])]))) else
  (* step A: the schedules of the organization and of its practitioners *)
  let prUrl :=
    FHIR_BASE +:+ "/PractitionerRole?organization=Organization/"
      +:+ to_string selectedOrgId in
  let! prRes := fetch (Get prUrl) in
  let? prBundle :=
    if ok prRes then json prRes else Normal (Obj [("entry", Arr [])]) in
  let? practitionerRefs :=
    obind (obind (obind (get prBundle "entry") array_or_empty)
             (map_array practitioner_reference))
      (fun refs => Normal (filter_truthy refs)) in
  let actorSearchParams :=
    Str ("Organization/" +:+ to_string selectedOrgId) :: practitionerRefs in
  let scheduleSearchUrl :=
    FHIR_BASE +:+ "/Schedule?actor=" +:+ to_string (Arr actorSearchParams) in
  let! scheduleRes := fetch (Get scheduleSearchUrl) in
  let? scheduleBundle :=
    if ok scheduleRes then json scheduleRes else Normal (Obj [("entry", Arr [])]) in
  let? schedules := obind (get scheduleBundle "entry") schedule_resources in
  match schedules with
  | [] => unit (inl (json_reply 200 (Obj [("schedules", Arr [])])))
  | _ => unit (inr schedules)
  end.

(** *** [GET /api/slots] *)

(** [tok] is [req.cookies.token], [scheduleId] is [req.query.scheduleId]. *)
Definition get_slots_try (tok scheduleId : val) : M HttpReply :=
  if negb (truthy tok) then unit (error_reply 401 "未登入") else
  match jwt_verify tok JWT_SECRET with
  | None => unit (error_reply 401 "Token 驗證失敗")
  | Some _ =>
      if negb (truthy scheduleId) then unit (error_reply 400 "請提供 scheduleId") else
      let slotUrl :=
        FHIR_BASE +:+ "/Slot?schedule=Schedule/"
          +:+ encodeURIComponent (to_string scheduleId) in
      let! slotRes := fetch (Get slotUrl) in
      if negb (ok slotRes)
      then unit (error_reply 502 ("FHIR 錯誤 " +:+ to_string (Num (status slotRes)))) else
      let? slotBundle := json slotRes in
      let? slots :=
        obind (obind (get slotBundle "entry") array_or_empty) (map_array slot_item) in
      unit (json_reply 200 (Obj [("slots", Arr slots)]))
  end.

Definition get_slots (tok scheduleId : val) : IO HttpReply :=
  io_bind (get_slots_try tok scheduleId) (fun o =>
  Pure (respond (fun e => mkHttp 500 None (Caught e)) o)).

(** *** [GET /api/appointments] *)

Definition get_appointments_try (tok : val) : M HttpReply :=
  let? personId := authenticate JWT_SECRET jwt_verify tok in
  (* 2: the patient records of the person *)
  let! pSearchRes :=
    fetch (Get (FHIR_BASE +:+ "/Patient?identifier=http://example.org/fhir/person|"
                  +:+ encodeURIComponent (to_string personId))) in
  let? pSearchBundle := json pSearchRes in
  let? pTotal := get pSearchBundle "total" in
  if negb (truthy pTotal) then unit (json_reply 200 (Arr [])) else
  (* 3, 4: their appointments *)
  let? patientRefs :=
    obind (obind (get pSearchBundle "entry") array_of) (map_array patient_reference) in
  let url :=
    FHIR_BASE +:+ "/Appointment?patient=" +:+ to_string (Arr patientRefs)
      +:+ "&_count=50&_sort=-date" in
  let! aRes := fetch (Get url) in
  if negb (ok aRes)
  then throw (Error ("FHIR Appointment 取回錯誤 " +:+ to_string (Num (status aRes)))) else
  let? aBundle := json aRes in
  let? entry := get aBundle "entry" in
  let entries := or_else entry (Arr []) in
  if length_is_0 entries then unit (json_reply 200 (Arr [])) else
  (* 5: the names of their schedules *)
  let? entryList := array_of entries in
  let? scheduleIdList :=
    obind (obind (map_array schedule_reference entryList)
             (fun refs => map_array split_slash_1 (filter_truthy refs)))
      (fun ids => Normal (dedupe [] ids)) in
  let scheduleIds := to_string (Arr scheduleIdList) in
  let! scheduleNames :=
    if truthy (Str scheduleIds) then
      let! schRes := fetch (Get (FHIR_BASE +:+ "/Schedule?_id=" +:+ scheduleIds)) in
      if ok schRes then
        let? schBundle := json schRes in
        lift (obind (obind (get schBundle "entry") array_or_empty)
                (map_array schedule_name))
      else unit []
    else unit [] in
  (* 6: the list *)
  let? list := map_array (appointment_item scheduleNames) entryList in
  unit (json_reply 200 (Arr list)).

Definition get_appointments (tok : val) : IO HttpReply :=
  io_bind (get_appointments_try tok) (fun o =>
  Pure (respond (fun e => mkHttp 500 None (Caught e)) o)).

End Accounts.

(** *** An account service for the scenarios

    Stand-ins for [jsonwebtoken], [bcryptjs] and the mail module: a token
    spells out the person, the purpose and the lifetime it was signed
    for, and a hash is the password behind a marker. *)

Module Portal.

Definition sign (payload : val) (key expiresIn : string) : Exn + string :=
  inr (to_string (field payload "id") +:+ "." +:+ to_string (field payload "purpose")
         +:+ "." +:+ expiresIn).

Definition verify (tok : val) (key : string) : option val :=
  if negb (String.eqb key Clinic.secret) then None
  else if str_is tok "person-9.post-registration.5m"
  then Some (Obj [("id", Str "person-9"); ("purpose", Str "post-registration")])
  else if str_is tok "person-1.password-reset.15m"
  then Some (Obj [("id", Str "person-1"); ("purpose", Str "password-reset")])
  else if str_is tok "person-2.undefined.1h"
  then Some (Obj [("id", Str "person-2")])
  else Clinic.verify tok key.

Definition hash (password : val) : Exn + string := inr ("$2a$10$" +:+ to_string password).

Definition compare (password hashed : val) : Exn + bool :=
  inr (str_is hashed ("$2a$10$" +:+ to_string password)).

Definition send_mail (email : val) (resetLink : string) : Exn + () := inr ().

Definition text (r : Response) : string := "".

(** Alice's person record, with the hash of her password. *)
Definition alice : val :=
  Obj [("resourceType", Str "Person"); ("id", Str "person-1");
       ("identifier",
         Arr [Obj [("system", Str EMAIL_SYSTEM); ("value", Str "alice@example.org")];
              Obj [("system", Str PASSWORD_SYSTEM); ("value", Str "$2a$10$correct horse")]])].

(** Her patient record at the clinic's organization. *)
Definition alice_patient : val :=
  Obj [("resourceType", Str "Patient"); ("id", Str "p1");
       ("managingOrganization", Obj [("reference", Str "Organization/org1")])].

(** A search answered with the records found. *)
Definition found (records : list val) : option Response :=
  Some (mkResponse 200 "OK" (Some (searchset records))).

(** A record created. *)
Definition created (record : val) : option Response :=
  Some (mkResponse 201 "Created" (Some record)).

(** Her patient record as [POST /api/patient] posts it, with the id the
    backend gave it. *)
Definition alice_registration : val :=
  Obj (spread (new_patient (Str "person-1") (Str "org1") (Str "alice@example.org"))
         ++ [("id", Str "p1")]).

(** Carol's person record as [POST /api/register] posts it, with the id
    the backend gave it. *)
Definition carol : val :=
  Obj (spread (new_person (Str "Carol") (Str "carol@example.org") "$2a$10$tr0ub4dor")
         ++ [("id", Str "person-9")]).

(** The appointment that Alice's booking of [s2] left in the store. *)
Definition alice_booking : Resolved :=
  mkResolved (Str "Schedule/sch1") (Str "Practitioner/dr1") "Patient/p1".

Definition alice_appointment : val :=
  Obj (set_field "id" (Str "100")
         (new_appointment "s2" alice_booking
            (Str "2025-08-05T09:30:00Z") (Str "2025-08-05T10:00:00Z"))).

Definition morning_clinic : val :=
  Obj [("resourceType", Str "Schedule"); ("id", Str "sch1");
       ("comment", Str "Morning clinic")].

Definition login_handler (email password postRegistrationToken : val) : IO HttpReply :=
  login Clinic.base Clinic.secret verify sign compare
    email password postRegistrationToken.

Definition register_handler (name email password : val) : IO HttpReply :=
  register Clinic.base Clinic.secret Clinic.numeral sign hash text
    name email password.

Definition reset_handler (email : val) : IO HttpReply :=
  request_reset Clinic.base Clinic.secret sign send_mail email.

End Portal.

(** * Properties *)

(** ** The primitives on examples *)

Example encodeURIComponent_reference :
  encodeURIComponent "Patient/12" = "Patient%2F12".
Proof. reflexivity. Qed.

Example split_location :
  split_slash_1 (Str "Appointment/100/_history/1") = Normal (Str "100").
Proof. reflexivity. Qed.

Example split_without_slash : split_slash_1 (Str "org1") = Normal Undefined.
Proof. reflexivity. Qed.

Example to_string_array :
  to_string (Arr [Num 1; Null; Arr [Str "a"; Str "b"]; Obj []]) = "1,,a,b,[object Object]".
Proof. reflexivity. Qed.

Example spread_overrides_status :
  set_field "status" (Str "busy") (spread (Obj [("id", Str "s1"); ("status", Str "free")]))
  = [("id", Str "s1"); ("status", Str "busy")].
Proof. reflexivity. Qed.

Example undefined_total_is_not_positive (numeral : string -> bool) :
  obind (get (Obj [("resourceType", Str "OperationOutcome")]) "total")
    (fun total => Normal (gt0 numeral total)) = Normal false.
Proof. reflexivity. Qed.

(** ** Running interaction trees *)

Lemma sent_inv {A} rq (res : A * list Request * list (option Response)) a rqs rest :
  sent rq res = (a, rqs, rest) ->
  exists rqs', rqs = rq :: rqs' /\ res = (a, rqs', rest).
Proof.
  destruct res as [[a' rqs'] rest']. simpl. intros [= -> <- ->]. eauto.
Qed.

Lemma play_fetch_nil {A} rq (k : Response -> M A) :
  play (bind (fetch rq) k) [] = (Throw FetchError, [rq], []).
Proof. reflexivity. Qed.

Lemma play_fetch_none {A} rq (k : Response -> M A) t :
  play (bind (fetch rq) k) (None :: t) = (Throw FetchError, [rq], t).
Proof. reflexivity. Qed.

Lemma play_fetch_some {A} rq (k : Response -> M A) r t :
  play (bind (fetch rq) k) (Some r :: t) = sent rq (play (k r) t).
Proof. reflexivity. Qed.

Lemma play_lift {A B} (o : Outcome A) (k : A -> M B) answers :
  play (bind (lift o) k) answers =
  match o with
  | Normal a => play (k a) answers
  | Throw e => (Throw e, [], answers)
  | Return r => (Return r, [], answers)
  end.
Proof. destruct o; reflexivity. Qed.

Lemma play_unit {A B} (a : A) (k : A -> M B) answers :
  play (bind (unit a) k) answers = play (k a) answers.
Proof. reflexivity. Qed.

Lemma play_io_bind {A B} (m : IO A) (k : A -> IO B) answers :
  play (io_bind m k) answers =
  let '(a, rqs, rest) := play m answers in
  let '(b, rqs', rest') := play (k a) rest in
  (b, rqs ++ rqs', rest').
Proof.
  revert answers. induction m as [a | rq h IH]; intros answers; simpl.
  - destruct (play (k a) answers) as [[b rqs'] rest']. reflexivity.
  - rewrite IH. destruct (play (h _) _) as [[a rqs] rest].
    destruct (play (k a) rest) as [[b rqs'] rest']. reflexivity.
Qed.

Lemma play_bind {A B} (m : M A) (k : A -> M B) answers :
  play (bind m k) answers =
  let '(o, rqs, rest) := play m answers in
  match o with
  | Normal a => let '(b, rqs', rest') := play (k a) rest in (b, rqs ++ rqs', rest')
  | Throw e => (Throw e, rqs, rest)
  | Return r => (Return r, rqs, rest)
  end.
Proof.
  unfold bind. rewrite play_io_bind.
  destruct (play m answers) as [[[a | e | r] rqs] rest]; simpl;
    rewrite ?app_nil_r; reflexivity.
Qed.

Lemma play_bind_assoc {A B C} (m : M A) (f : A -> M B) (g : B -> M C) answers :
  play (bind (bind m f) g) answers = play (bind m (fun x => bind (f x) g)) answers.
Proof.
  rewrite !play_bind.
  destruct (play m answers) as [[[a | e | r] rqs] rest]; try reflexivity.
  rewrite play_bind.
  destruct (play (f a) rest) as [[[b | e | r] rqs'] rest']; try reflexivity.
  destruct (play (g b) rest') as [[c rqs''] rest'']. rewrite app_assoc. reflexivity.
Qed.

(** A backend with a state of its own gives the run that its answers
    give. *)
Lemma run_play {A S} (srv : S -> Request -> option Response * S) (p : IO A) s :
  play p (answers_of srv p s) = ((run srv p s).1, []).
Proof.
  revert s. induction p as [a | rq k IH]; intros s; simpl; [reflexivity |].
  destruct (srv s rq) as [r s']. specialize (IH r s'). simpl.
  destruct (run srv (k r) s') as [[a rqs] s'']. simpl in *. rewrite IH. reflexivity.
Qed.

Lemma submitted_app rqs rqs' : submitted (rqs ++ rqs') = submitted rqs ++ submitted rqs'.
Proof. apply omap_app. Qed.

Lemma answer_cons_S k a answers : answer (S k) (a :: answers) = answer k answers.
Proof. reflexivity. Qed.

Lemma answer_0 r answers : answer 0 (Some r :: answers) = Some r.
Proof. reflexivity. Qed.

Arguments String.append : simpl never.
Arguments to_string : simpl never.
Arguments encodeURIComponent : simpl never.

(** One step of the handler under [play], on a hypothesis
    [H : play p answers = (o, rqs, rest)]. *)
Ltac exec1 H :=
  lazymatch type of H with
  | play (bind (lift ?o) _) _ = _ =>
      rewrite play_lift in H;
      let E := fresh "E" in destruct o eqn:E
  | play (bind (unit _) _) _ = _ => rewrite play_unit in H
  | play (bind (fetch _) _) ?answers = _ =>
      let r := fresh "r" in
      destruct answers as [| [r |] answers];
      [ rewrite play_fetch_nil in H
      | rewrite play_fetch_some in H;
        let rqs := fresh "rqs" in
        apply sent_inv in H as (rqs & -> & H)
      | rewrite play_fetch_none in H ]
  | play (bind (bind _ _) _) _ = _ => rewrite play_bind_assoc in H
  | play (bind (if negb ?b then _ else _) _) _ = _ =>
      let E := fresh "E" in destruct b eqn:E; cbn [negb] in H
  | play (bind (if ?b then _ else _) _) _ = _ =>
      let E := fresh "E" in destruct b eqn:E
  | play (if negb ?b then _ else _) _ = _ =>
      let E := fresh "E" in destruct b eqn:E; cbn [negb] in H
  | play (if ?b then _ else _) _ = _ =>
      let E := fresh "E" in destruct b eqn:E
  | play (let x := _ in _) _ = _ => cbv zeta in H
  | play (bind (let x := _ in _) _) _ = _ => cbv zeta in H
  end.

Ltac exec H := repeat exec1 H; cbn [play throw return_ unit lift] in H.

(** Closes the paths of a run that contradict what is assumed of it. *)
Ltac absurd_path :=
  solve [ lia | discriminate | congruence | cbn in *; congruence ].

(** Hypotheses about [asked] and [answer] after the answers were split. *)
Ltac positions :=
  unfold asked in *; cbn [length] in *;
  repeat match goal with
  | H : answer _ [] = Some _ |- _ => discriminate H
  | H : answer 0 (None :: _) = Some _ |- _ => discriminate H
  | H : answer 0 (Some _ :: _) = Some _ |- _ =>
      rewrite answer_0 in H; injection H as <-
  | H : answer (S _) (_ :: _) = Some _ |- _ => rewrite answer_cons_S in H
  end.

(** Two readings of the same expression gave the same value. *)
Ltac same_reads :=
  repeat match goal with
  | H1 : ?x = ?a, H2 : ?x = ?b |- _ =>
      tryif constr_eq H1 H2 then fail else (rewrite H1 in H2; simplify_eq)
  end.

Section Properties.

Variable FHIR_BASE : string.
Variable JWT_SECRET : string.
Variable jwt_verify : val -> string -> option val.
Variable positive_numeral : string -> bool.

Local Abbreviation book_try' := (book_try FHIR_BASE JWT_SECRET jwt_verify positive_numeral).
Local Abbreviation book' := (book FHIR_BASE JWT_SECRET jwt_verify positive_numeral).

(** ** The resolution chain (steps 2-5) *)

(** The chain only reads; when it completes, the four answers were all
    found and usable. *)
Lemma resolve_inv slotId personId answers o rqs rest :
  play (resolve FHIR_BASE slotId personId) answers = (o, rqs, rest) ->
  submitted rqs = [] /\ (length rqs <= 4)%nat /\
  match o with
  | Normal (newSlot, r) => resolves answers newSlot r rest /\ length rqs = 4%nat
  | _ => True
  end.
Proof.
  unfold resolve, resolve_from_slot. intros H. exec H.
  all: injection H as <- <- <-; cbn [length];
    (split; [reflexivity | split; [lia |]]); try exact I.
  split; [| reflexivity].
  econstructor; cbn [scheduleRef actorRef patientRef]; eauto.
Qed.

Ltac resolve_paths H :=
  unfold resolve, resolve_from_slot in H; exec H;
  injection H as <- <- <-; positions; same_reads;
  try absurd_path.

Lemma resolve_slot_not_found slotId personId answers o rqs rest :
  play (resolve FHIR_BASE slotId personId) answers = (o, rqs, rest) ->
  slot_not_found answers rqs ->
  o = Return (mkReply 404 (ErrorBody "找不到指定的時段 (Slot)")).
Proof.
  intros H (Hask & r & Ha & Hok). resolve_paths H.
Qed.

Lemma resolve_schedule_not_found slotId personId answers o rqs rest :
  play (resolve FHIR_BASE slotId personId) answers = (o, rqs, rest) ->
  schedule_not_found answers rqs ->
  o = Return (mkReply 404 (ErrorBody "找不到活動排程 (Schedule)")).
Proof.
  intros H (Hask & r & Ha & Hok). resolve_paths H.
Qed.

Lemma resolve_role_not_found slotId personId answers o rqs rest :
  play (resolve FHIR_BASE slotId personId) answers = (o, rqs, rest) ->
  role_not_found answers rqs ->
  exists actor,
    o = Throw (Error ("Cannot find PractitionerRole for actor " +:+ actor)).
Proof.
  intros H (Hask & r & bundle & Ha & Hok & Hj & Ht). resolve_paths H. eauto.
Qed.

Lemma resolve_patient_not_registered slotId personId answers o rqs rest :
  play (resolve FHIR_BASE slotId personId) answers = (o, rqs, rest) ->
  patient_not_registered answers rqs ->
  o = Return (mkReply 404 (ErrorBody "在此組織中找不到對應的 Patient 記錄")).
Proof.
  intros H (Hask & r & bundle & total & Ha & Hok & Hj & Ht & Hf).
  resolve_paths H.
Qed.

Lemma resolve_unsupported_actor slotId personId answers o rqs rest r schedule actor :
  play (resolve FHIR_BASE slotId personId) answers = (o, rqs, rest) ->
  asked 1 rqs -> answer 1 answers = Some r -> ok r = true ->
  json r = Normal schedule -> first_reference schedule "actor" = Normal actor ->
  startsWith actor "Practitioner/" <> Normal true ->
  length rqs = 2%nat /\
  exists e, o = Throw e /\
    forall s, actor = Str s ->
      e = Error ("Schedule actor is not a Practitioner as expected: " +:+ s).
Proof.
  intros H Hask Ha Hok Hj Hact Hsw. resolve_paths H.
  - split; [reflexivity |]. eexists; split; [reflexivity |].
    intros s ->. reflexivity.
  - split; [reflexivity |]. eexists; split; [reflexivity |].
    intros s ->. discriminate.
  - destruct actor; discriminate.
Qed.

(** ** Steps 6-10 *)

(** Every run consumes one answer per request. *)
Lemma play_consumes {A} (p : IO A) answers a rqs rest :
  play p answers = (a, rqs, rest) -> rest = drop (length rqs) answers.
Proof.
  revert answers rqs. induction p as [x | rq k IH]; intros answers rqs; simpl.
  - intros [= <- <- <-]. reflexivity.
  - intros H. apply sent_inv in H as (rqs' & -> & H). apply IH in H as ->.
    destruct answers; simpl; [by rewrite drop_nil | reflexivity].
Qed.

(** Step 8 only reads, and at most once. *)
Lemma cancel_existing_reads existing answers o rqs rest :
  play (cancel_existing FHIR_BASE positive_numeral existing) answers = (o, rqs, rest) ->
  submitted rqs = [] /\ (length rqs <= 1)%nat.
Proof.
  unfold cancel_existing. intros H. exec H.
  all: injection H as <- <- <-; cbn; split; (reflexivity || lia).
Qed.

(** Step 10 posts the bundle once and reads the answer to it. *)
Lemma execute_inv entries message answers o rqs rest :
  play (execute FHIR_BASE entries message) answers = (o, rqs, rest) ->
  rqs = [PostBundle FHIR_BASE (transactionBundle entries)] /\
  rest = tail answers /\
  o = match answers with
      | Some txRes :: _ =>
          if ok txRes then obind (json txRes) (read_result message)
          else Throw (Error ("FHIR 交易失敗: " +:+ statusText txRes))
      | _ => Throw FetchError
      end.
Proof.
  unfold execute. intros H. exec H.
  all: injection H as <- <- <-; cbn [tail]; rewrite ?E, ?E0; done.
Qed.

Lemma authenticate_cases tok :
  (exists personId, authenticate JWT_SECRET jwt_verify tok = Normal personId) \/
  (exists reply, authenticate JWT_SECRET jwt_verify tok = Return reply /\ code reply = 401).
Proof.
  unfold authenticate. destruct (truthy tok); cbn [negb]; [| eauto].
  destruct (jwt_verify tok JWT_SECRET); [| eauto].
  destruct (get v "id"); eauto.
Qed.

Lemma book_try_inv slotId tok answers o rqs rest :
  play (book_try' slotId tok) answers = (o, rqs, rest) ->
  (exists reply, authenticate JWT_SECRET jwt_verify tok = Return reply /\
     code reply = 401 /\ o = Return reply /\ rqs = []) \/
  (exists personId o1 rqs1 rest1,
     authenticate JWT_SECRET jwt_verify tok = Normal personId /\
     play (resolve FHIR_BASE slotId personId) answers = (o1, rqs1, rest1) /\
     match o1 with
     | Normal (newSlot, r) =>
         exists rqs2,
           play (book_resolved FHIR_BASE positive_numeral slotId newSlot r) rest1
             = (o, rqs2, rest) /\ rqs = rqs1 ++ rqs2
     | Throw e => o = Throw e /\ rqs = rqs1
     | Return reply => o = Return reply /\ rqs = rqs1
     end).
Proof.
  unfold book_try. intros H. rewrite play_lift in H.
  destruct (authenticate_cases tok) as [[personId Ha] | (reply & Ha & Hc)];
    rewrite Ha in H.
  - right. rewrite play_bind in H.
    destruct (play (resolve FHIR_BASE slotId personId) answers)
      as [[[[newSlot r] | e | reply] rqs1] rest1] eqn:Hr.
    + destruct (play (book_resolved _ _ _ newSlot r) rest1) as [[o2 rqs2] rest2] eqn:Hb.
      injection H as <- <- <-. exists personId, (Normal (newSlot, r)), rqs1, rest1. eauto.
    + injection H as <- <- <-. exists personId, (Throw e), rqs1, rest1. eauto.
    + injection H as <- <- <-. exists personId, (Return reply), rqs1, rest1. eauto.
  - left. injection H as <- <- <-. eauto.
Qed.

(** A bundle is posted only at the end of steps 6-10, after the
    appointment search was read and step 8 planned the cancellation. *)
Lemma book_resolved_inv slotId newSlot r answers o rqs rest :
  play (book_resolved FHIR_BASE positive_numeral slotId newSlot r) answers
    = (o, rqs, rest) ->
  submitted rqs = [] \/
  exists conflictRes answers0 existing cancel message rqs_c answers1 booking,
    answers = Some conflictRes :: answers0 /\
    json conflictRes = Normal existing /\
    play (cancel_existing FHIR_BASE positive_numeral existing) answers0
      = (Normal (cancel, message), rqs_c, answers1) /\
    book_entries slotId newSlot r = Normal booking /\
    rqs = Get (existingApptUrl FHIR_BASE r) :: rqs_c
            ++ [PostBundle FHIR_BASE (transactionBundle (cancel ++ booking))] /\
    play (execute FHIR_BASE (cancel ++ booking) message) answers1
      = (o, [PostBundle FHIR_BASE (transactionBundle (cancel ++ booking))], rest).
Proof.
  unfold book_resolved, find_existing. intros H. exec H.
  all: try (injection H as <- <- <-; left; reflexivity).
  rewrite play_bind in H.
  destruct (play (cancel_existing _ _ a) answers)
    as [[[[cancel message] | e | reply] rqs_c] answers1] eqn:Hc;
    pose proof (cancel_existing_reads _ _ _ _ _ Hc) as [Hs _].
  2,3: injection H as <- <- <-; left; exact Hs.
  rewrite play_lift in H.
  destruct (book_entries slotId newSlot r) as [booking | e | reply] eqn:Hb.
  2,3: injection H as <- <- <-; left; rewrite app_nil_r; exact Hs.
  destruct (play (execute _ _ _) answers1) as [[o2 rqs2] rest2] eqn:He.
  injection H as <- <- <-.
  pose proof (execute_inv _ _ _ _ _ _ He) as (-> & _ & _).
  right. exists r0, answers, a, cancel, message, rqs_c, answers1, booking. eauto 10.
Qed.

(** ** The whole [try] block *)

(** A posted bundle means: the caller was authenticated, the chain was
    resolved, the appointment search was read, and the bundle holds the
    cancellation followed by the new booking.  Nothing else is posted. *)
Lemma book_try_submission slotId tok answers o rqs rest :
  play (book_try' slotId tok) answers = (o, rqs, rest) ->
  submitted rqs <> [] ->
  exists personId newSlot r conflictRes answers0 existing cancel message rqs_c
         answers1 booking,
    authenticate JWT_SECRET jwt_verify tok = Normal personId /\
    resolves answers newSlot r (Some conflictRes :: answers0) /\
    json conflictRes = Normal existing /\
    play (cancel_existing FHIR_BASE positive_numeral existing) answers0
      = (Normal (cancel, message), rqs_c, answers1) /\
    book_entries slotId newSlot r = Normal booking /\
    submitted rqs = [transactionBundle (cancel ++ booking)] /\
    length rqs = (6 + length rqs_c)%nat /\
    play (execute FHIR_BASE (cancel ++ booking) message) answers1
      = (o, [PostBundle FHIR_BASE (transactionBundle (cancel ++ booking))], rest).
Proof.
  intros H Hsub.
  apply book_try_inv in H as [(reply & _ & _ & _ & ->) | (personId & o1 & rqs1 & rest1 & Ha & Hr & H)];
    [done |].
  apply resolve_inv in Hr as (Hs1 & _ & Hr).
  destruct o1 as [[newSlot r] | e | reply]; [| destruct H as [_ ->]; done ..].
  destruct Hr as [Hr Hlen]. destruct H as (rqs2 & H & ->).
  apply book_resolved_inv in H
    as [Hs2 | (conflictRes & answers0 & existing & cancel & message & rqs_c
               & answers1 & booking & -> & Hj & Hc & Hb & -> & He)].
  { rewrite submitted_app, Hs1, Hs2 in Hsub. done. }
  exists personId, newSlot, r, conflictRes, answers0, existing, cancel, message,
    rqs_c, answers1, booking.
  repeat (split; [eassumption || reflexivity |]).
  pose proof (cancel_existing_reads _ _ _ _ _ Hc) as [Hsc _].
  split; [| split; [| exact He]].
  - rewrite submitted_app, Hs1. cbn [app].
    change (submitted (Get ?u :: ?l)) with (submitted l).
    rewrite submitted_app, Hsc. reflexivity.
  - rewrite length_app, Hlen. cbn [length]. rewrite length_app. cbn [length]. lia.
Qed.

(** The gate around the [try] block. *)
Lemma play_book_gate bookingLocks req slotId' answers :
  slotId req = Some slotId' -> slotId' <> "" -> bookingLocks !! slotId' = None ->
  play (book' bookingLocks req) answers =
  let '(o, rqs, rest) := play (book_try' slotId' (token req)) answers in
  ((settle o, delete slotId' (<[slotId' := true]> bookingLocks)), rqs, rest).
Proof.
  intros Hid Hne Hfree. unfold book. rewrite Hid.
  destruct (String.eqb_spec slotId' "") as [-> | _]; [done |].
  rewrite bool_decide_eq_false_2 by (rewrite Hfree; apply is_Some_None).
  rewrite play_io_bind.
  destruct (play (book_try' slotId' (token req)) answers) as [[o rqs] rest].
  cbn [play]. rewrite app_nil_r. reflexivity.
Qed.

(** Either the handler answers before the gate is taken (400, 409) and
    nothing happens, or it takes the gate, runs the [try] block and gives
    the gate back. *)
Lemma book_inv bookingLocks req answers reply locks' rqs rest :
  play (book' bookingLocks req) answers = (reply, locks', rqs, rest) ->
  (rqs = [] /\ rest = answers /\ locks' = bookingLocks /\
   (code reply = 400 \/ code reply = 409)) \/
  (exists slotId' o,
     slotId req = Some slotId' /\ slotId' <> "" /\ bookingLocks !! slotId' = None /\
     play (book_try' slotId' (token req)) answers = (o, rqs, rest) /\
     reply = settle o /\
     locks' = delete slotId' (<[slotId' := true]> bookingLocks)).
Proof.
  intros H. destruct (slotId req) as [slotId' |] eqn:Hid.
  - destruct (decide (slotId' = "")) as [-> | Hne].
    { unfold book in H. rewrite Hid in H. injection H as <- <- <- <-.
      left. eauto. }
    destruct (bookingLocks !! slotId') as [held |] eqn:Hheld.
    + unfold book in H. rewrite Hid in H.
      rewrite (proj2 (String.eqb_neq slotId' "") Hne) in H.
      rewrite bool_decide_eq_true_2 in H by (rewrite Hheld; eauto).
      injection H as <- <- <- <-. left. eauto.
    + rewrite (play_book_gate _ _ slotId') in H by done.
      destruct (play (book_try' slotId' (token req)) answers) as [[o rqs0] rest0] eqn:Ht.
      injection H as <- <- <- <-. right. exists slotId', o. eauto 10.
  - unfold book in H. rewrite Hid in H. injection H as <- <- <- <-. left. eauto.
Qed.

(** The handler keeps the gate free of the empty key. *)
Lemma book_keeps_gate_wf bookingLocks req answers reply locks' rqs rest :
  gate_wf bookingLocks ->
  play (book' bookingLocks req) answers = (reply, locks', rqs, rest) ->
  gate_wf locks'.
Proof.
  intros Hwf H.
  apply book_inv in H as [(_ & _ & -> & _) | (id & o & _ & Hne & _ & _ & _ & ->)];
    [exact Hwf |].
  unfold gate_wf. rewrite delete_insert_eq, lookup_delete_ne by done. exact Hwf.
Qed.

(** ** The gate *)

Lemma book_gives_gate_back bookingLocks req slotId' answers reply locks' rqs rest :
  slotId req = Some slotId' -> slotId' <> "" -> bookingLocks !! slotId' = None ->
  play (book' bookingLocks req) answers = (reply, locks', rqs, rest) ->
  locks' = delete slotId' (<[slotId' := true]> bookingLocks).
Proof.
  intros Hid Hne Hfree H. rewrite (play_book_gate _ _ slotId') in H by done.
  destruct (play (book_try' slotId' (token req)) answers) as [[o rqs0] rest0].
  by injection H as <- <- <- <-.
Qed.

(** C7: on every exit path of the guarded operation - whatever the backend
    answers, whether the [try] block completes, returns early or throws -
    the gate entry of the slot id is deleted before the handler is done;
    the gate is then as it was before the attempt. *)
Theorem gate_released_on_every_exit bookingLocks req slotId' answers reply locks' rqs rest :
  slotId req = Some slotId' -> slotId' <> "" -> bookingLocks !! slotId' = None ->
  play (book' bookingLocks req) answers = (reply, locks', rqs, rest) ->
  locks' !! slotId' = None /\ locks' = bookingLocks.
Proof.
  intros Hid Hne Hfree H.
  rewrite (book_gives_gate_back _ _ _ _ _ _ _ _ Hid Hne Hfree H), delete_insert_eq.
  split; [apply lookup_delete_eq | by apply delete_id].
Qed.

(** C8: when the gate key of the slot id is already held, the handler
    answers 409 at once: the gate is unchanged and no request is made to
    the backend (no answer is consumed). *)
Theorem held_slot_rejected_busy bookingLocks req slotId' answers :
  gate_wf bookingLocks ->
  slotId req = Some slotId' -> is_Some (bookingLocks !! slotId') ->
  play (book' bookingLocks req) answers =
  ((mkReply 409 (ErrorBody "此時段正在處理中，請稍候"), bookingLocks), [], answers).
Proof.
  intros Hwf Hid Hheld. unfold book. rewrite Hid.
  destruct (String.eqb_spec slotId' "") as [-> | _].
  { rewrite Hwf in Hheld. by destruct Hheld. }
  rewrite bool_decide_eq_true_2 by done. reflexivity.
Qed.

(** ** Resolution failures *)

Lemma resolves_excludes_failure answers newSlot r rest rqs :
  resolves answers newSlot r rest ->
  slot_not_found answers rqs \/ schedule_not_found answers rqs \/
  role_not_found answers rqs \/ organization_missing answers rqs \/
  patient_not_registered answers rqs ->
  False.
Proof.
  intros [] Hfail. subst answers.
  destruct Hfail as [(_ & x & Ha & Hok) | [(_ & x & Ha & Hok)
    | [(_ & x & bundle & Ha & Hok & Hj & Ht) | [(_ & x & bundle & orgRef' & Ha & Hok & Hj & Ho & Ht)
    | (_ & x & bundle & total & Ha & Hok & Hj & Ht & Hf)]]]];
    positions; same_reads; absurd_path.
Qed.

(** C2: when a resolution step fails - slot, schedule or role binding not
    found, organization reference missing, patient not registered - no
    transaction bundle is posted, and the gate entry of the slot id is
    gone when the handler is done. *)
Theorem failed_resolution_submits_nothing
  bookingLocks req slotId' answers reply locks' rqs rest :
  slotId req = Some slotId' -> slotId' <> "" -> bookingLocks !! slotId' = None ->
  play (book' bookingLocks req) answers = (reply, locks', rqs, rest) ->
  slot_not_found answers rqs \/ schedule_not_found answers rqs \/
  role_not_found answers rqs \/ organization_missing answers rqs \/
  patient_not_registered answers rqs ->
  submitted rqs = [] /\ locks' !! slotId' = None.
Proof.
  intros Hid Hne Hfree H Hfail. split.
  - apply book_inv in H as [(-> & _) | (id & o & _ & _ & _ & H & _ & _)];
      [reflexivity |].
    destruct (submitted rqs) as [| b bs] eqn:Hsub; [reflexivity | exfalso].
    apply book_try_submission in H as (? & newSlot & r & ? & ? & ? & ? & ? & ? & ? & ?
      & _ & Hr & _); [| by rewrite Hsub].
    eapply resolves_excludes_failure; eauto.
  - rewrite (book_gives_gate_back _ _ _ _ _ _ _ _ Hid Hne Hfree H).
    apply lookup_delete_eq.
Qed.

(** A run that reaches the backend either resolves the whole chain or
    ends where the chain ends. *)
Lemma book_try_chain slotId tok answers o rqs rest :
  play (book_try' slotId tok) answers = (o, rqs, rest) ->
  asked 0 rqs ->
  exists personId o1 rqs1 rest1,
    play (resolve FHIR_BASE slotId personId) answers = (o1, rqs1, rest1) /\
    match o1 with
    | Normal (newSlot, r) => resolves answers newSlot r rest1
    | Throw e => o = Throw e /\ rqs = rqs1
    | Return reply => o = Return reply /\ rqs = rqs1
    end.
Proof.
  intros H Hask.
  apply book_try_inv in H
    as [(reply & _ & _ & _ & ->) | (personId & o1 & rqs1 & rest1 & _ & Hr & H)].
  { unfold asked in Hask. cbn in Hask. lia. }
  exists personId, o1, rqs1, rest1. split; [exact Hr |].
  apply resolve_inv in Hr as (_ & _ & Hr).
  destruct o1 as [[newSlot r] | e | reply]; [exact (proj1 Hr) | exact H ..].
Qed.

Lemma book_chain bookingLocks req answers reply locks' rqs rest :
  play (book' bookingLocks req) answers = (reply, locks', rqs, rest) ->
  asked 0 rqs ->
  exists slotId' personId o1 rqs1 rest1,
    play (resolve FHIR_BASE slotId' personId) answers = (o1, rqs1, rest1) /\
    match o1 with
    | Normal (newSlot, r) => resolves answers newSlot r rest1
    | Throw e => reply = mkReply 500 (CaughtBody e) /\ rqs = rqs1
    | Return reply' => reply = reply' /\ rqs = rqs1
    end.
Proof.
  intros H Hask.
  apply book_inv in H as [(-> & _) | (id & o & _ & _ & _ & H & -> & _)].
  { unfold asked in Hask. cbn in Hask. lia. }
  apply book_try_chain in H as (personId & o1 & rqs1 & rest1 & Hr & H); [| exact Hask].
  exists id, personId, o1, rqs1, rest1. split; [exact Hr |].
  destruct o1 as [[newSlot r] | e | reply']; [exact H | |]; destruct H as [-> ->]; done.
Qed.

Lemma answer_drop n answers : answer n answers = mjoin (head (drop n answers)).
Proof.
  unfold answer. revert answers. induction n as [| n IH]; intros [| a answers]; try done.
  apply IH.
Qed.

(** The reply of a run that posted its bundle is read off the answer to
    the last request. *)
Lemma book_try_posted slotId tok answers o rqs rest :
  play (book_try' slotId tok) answers = (o, rqs, rest) ->
  submitted rqs <> [] ->
  exists message,
    o = match answer (length rqs - 1) answers with
        | Some txRes =>
            if ok txRes then obind (json txRes) (read_result message)
            else Throw (Error ("FHIR 交易失敗: " +:+ statusText txRes))
        | None => Throw FetchError
        end.
Proof.
  intros H Hsub.
  apply book_try_submission in H
    as (personId & newSlot & r & conflictRes & answers0 & existing & cancel & message
        & rqs_c & answers1 & booking & _ & Hr & _ & Hc & _ & _ & Hlen & He); [| exact Hsub].
  exists message. apply execute_inv in He as (_ & _ & ->).
  apply play_consumes in Hc. destruct Hr. subst answers.
  rewrite answer_drop, Hlen.
  replace (6 + length rqs_c - 1)%nat with (5 + length rqs_c)%nat by lia.
  cbn [drop Nat.add]. rewrite <- Hc.
  destruct answers1 as [| [txRes |] ?]; reflexivity.
Qed.


Lemma find_created_none entries :
  Forall (fun x => is_created x = Normal false) entries ->
  find_created entries = Normal Undefined.
Proof.
  induction 1 as [| x entries Hx _ IH]; cbn [find_created]; [reflexivity |].
  rewrite Hx. exact IH.
Qed.


(** C4 (amended): a missing slot, schedule or patient is reported as 404
    with its own message; an empty role-binding search result
    ([total === 0]) is thrown and reported as 500 with the message of the
    thrown error; a rejected transaction and a transaction response
    without a created entry are reported as 500. *)
Theorem resolution_failures_reported bookingLocks req answers reply locks' rqs rest :
  play (book' bookingLocks req) answers = (reply, locks', rqs, rest) ->
  (slot_not_found answers rqs ->
     reply = mkReply 404 (ErrorBody "找不到指定的時段 (Slot)")) /\
  (schedule_not_found answers rqs ->
     reply = mkReply 404 (ErrorBody "找不到活動排程 (Schedule)")) /\
  (patient_not_registered answers rqs ->
     reply = mkReply 404 (ErrorBody "在此組織中找不到對應的 Patient 記錄")) /\
  (role_not_found answers rqs ->
     exists actor,
       reply = mkReply 500
         (CaughtBody (Error ("Cannot find PractitionerRole for actor " +:+ actor)))) /\
  (forall txRes,
     submitted rqs <> [] -> answer (length rqs - 1) answers = Some txRes ->
     ok txRes = false ->
     reply = mkReply 500 (CaughtBody (Error ("FHIR 交易失敗: " +:+ statusText txRes)))) /\
  (forall txRes txResult entries,
     submitted rqs <> [] -> answer (length rqs - 1) answers = Some txRes ->
     ok txRes = true -> json txRes = Normal txResult ->
     get txResult "entry" = Normal (Arr entries) ->
     Forall (fun e => is_created e = Normal false) entries ->
     reply = mkReply 500
       (CaughtBody (Error "交易成功，但無法在回應中找到新建立的 Appointment。"))).
Proof.
  intros H.
  assert (Hchain : forall F : Prop,
    (F -> asked 0 rqs) ->
    (forall newSlot r rest1, resolves answers newSlot r rest1 -> F -> False) ->
    F ->
    exists slotId' personId o1 rest1,
      play (resolve FHIR_BASE slotId' personId) answers = (o1, rqs, rest1) /\
      reply = settle (match o1 with
                      | Normal _ => Throw TypeError
                      | Throw e => Throw e
                      | Return x => Return x
                      end) /\ F).
  { intros F Hask Hno HF.
    destruct (book_chain _ _ _ _ _ _ _ H (Hask HF))
      as (id & personId & o1 & rqs1 & rest1 & Hr & Ho).
    destruct o1 as [[newSlot r] | e | x].
    - destruct (Hno _ _ _ Ho HF).
    - destruct Ho as [-> ->]. exists id, personId, (Throw e), rest1. auto.
    - destruct Ho as [-> ->]. exists id, personId, (Return x), rest1. auto. }
  assert (Hask : forall k F, (k < 4)%nat -> asked k rqs /\ F -> asked 0 rqs)
    by (unfold asked; intros k F ? [? _]; lia).
  repeat split.
  - intros HF.
    destruct (Hchain (slot_not_found answers rqs)) as (id & personId & o1 & rest1 & Hr & -> & _);
      [eapply Hask; lia | intros; eapply resolves_excludes_failure; eauto | exact HF |].
    by rewrite (resolve_slot_not_found _ _ _ _ _ _ Hr HF).
  - intros HF.
    destruct (Hchain (schedule_not_found answers rqs)) as (id & personId & o1 & rest1 & Hr & -> & _);
      [eapply Hask; lia | intros; eapply resolves_excludes_failure; eauto | exact HF |].
    by rewrite (resolve_schedule_not_found _ _ _ _ _ _ Hr HF).
  - intros HF.
    destruct (Hchain (patient_not_registered answers rqs)) as (id & personId & o1 & rest1 & Hr & -> & _);
      [eapply Hask; lia | intros; eapply resolves_excludes_failure; eauto 6 | exact HF |].
    by rewrite (resolve_patient_not_registered _ _ _ _ _ _ Hr HF).
  - intros HF.
    destruct (Hchain (role_not_found answers rqs)) as (id & personId & o1 & rest1 & Hr & -> & _);
      [eapply Hask; lia | intros; eapply resolves_excludes_failure; eauto 6 | exact HF |].
    destruct (resolve_role_not_found _ _ _ _ _ _ Hr HF) as [actor ->]. eauto.
  - intros txRes Hsub Ha Hok.
    apply book_inv in H as [(-> & _) | (id & o & _ & _ & _ & H & -> & _)]; [done |].
    apply book_try_posted in H as [message ->]; [| exact Hsub].
    rewrite Ha, Hok. reflexivity.
  - intros txRes txResult entries Hsub Ha Hok Hj He Hnone.
    apply book_inv in H as [(-> & _) | (id & o & _ & _ & _ & H & -> & _)]; [done |].
    apply book_try_posted in H as [message ->]; [| exact Hsub].
    rewrite Ha, Hok, Hj. unfold read_result. cbn [obind]. rewrite He. cbn [obind array_find_created].
    rewrite (find_created_none _ Hnone). reflexivity.
Qed.

(** C9: when the first actor reference of the resolved schedule does not
    start with [Practitioner/] (or is not a string at all), the handler
    throws before the role search: the reply is 500 - with the message
    naming the actor when the reference is a string - and no transaction
    bundle is posted. *)
Theorem unsupported_actor_rejected
  bookingLocks req answers reply locks' rqs rest scheduleRes schedule actor :
  play (book' bookingLocks req) answers = (reply, locks', rqs, rest) ->
  asked 1 rqs -> answer 1 answers = Some scheduleRes -> ok scheduleRes = true ->
  json scheduleRes = Normal schedule ->
  first_reference schedule "actor" = Normal actor ->
  startsWith actor "Practitioner/" <> Normal true ->
  code reply = 500 /\ submitted rqs = [] /\ length rqs = 2%nat /\
  forall s, actor = Str s ->
    body reply = CaughtBody
      (Error ("Schedule actor is not a Practitioner as expected: " +:+ s)).
Proof.
  intros H Hask Ha Hok Hj Hact Hsw.
  destruct (book_chain _ _ _ _ _ _ _ H ltac:(unfold asked in *; lia))
    as (id & personId & o1 & rqs1 & rest1 & Hr & Ho).
  destruct o1 as [[newSlot r] | e | x].
  - exfalso. destruct Ho. subst answers. positions. same_reads; try absurd_path.
  - destruct Ho as [-> ->].
    pose proof (resolve_inv _ _ _ _ _ _ Hr) as (Hs & _).
    destruct (resolve_unsupported_actor _ _ _ _ _ _ _ _ _ Hr Hask Ha Hok Hj Hact Hsw)
      as (Hlen & e' & [= ->] & He).
    repeat split; try done. intros s Hs'. cbn. by rewrite (He s Hs').
  - destruct Ho as [-> ->].
    destruct (resolve_unsupported_actor _ _ _ _ _ _ _ _ _ Hr Hask Ha Hok Hj Hact Hsw)
      as (_ & e' & [=] & _).
Qed.

(** ** The transaction bundle *)

Lemma book_submission bookingLocks req answers reply locks' rqs rest :
  play (book' bookingLocks req) answers = (reply, locks', rqs, rest) ->
  submitted rqs <> [] ->
  exists slotId' o,
    slotId req = Some slotId' /\ reply = settle o /\
    play (book_try' slotId' (token req)) answers = (o, rqs, rest).
Proof.
  intros H Hsub.
  apply book_inv in H as [(-> & _) | (id & o & Hid & _ & _ & H & -> & _)]; [done |].
  eauto.
Qed.

(** [{ ...o, status: v }] as a map: [status] is [v], every other key
    reads as in [o]. *)
Lemma assoc_set_field_ne k k' v fs :
  k <> k' -> assoc k' (set_field k v fs) = assoc k' fs.
Proof.
  intros Hne. induction fs as [| [k0 v0] fs IH]; cbn [set_field assoc].
  - by rewrite (proj2 (String.eqb_neq k' k)).
  - destruct (String.eqb_spec k k0) as [-> | Hk]; cbn [assoc].
    + by rewrite (proj2 (String.eqb_neq k' k0)).
    + by rewrite IH.
Qed.

Lemma assoc_set_field k v fs : assoc k (set_field k v fs) = Some v.
Proof.
  induction fs as [| [k0 v0] fs IH]; cbn [set_field assoc].
  - by rewrite String.eqb_refl.
  - destruct (String.eqb_spec k k0) as [-> | Hk]; cbn [assoc].
    + by rewrite String.eqb_refl.
    + by rewrite (proj2 (String.eqb_neq k k0)).
Qed.

Lemma set_field_twice k v v' fs :
  set_field k v' (set_field k v fs) = set_field k v' fs.
Proof.
  induction fs as [| [k0 v0] fs IH]; cbn [set_field].
  - by rewrite String.eqb_refl.
  - destruct (String.eqb_spec k k0) as [-> | Hk]; cbn [set_field].
    + by rewrite String.eqb_refl.
    + by rewrite (proj2 (String.eqb_neq k k0)), IH.
Qed.

(** A slot whose [schedule.reference] was read is an object. *)
Lemma resolves_slot_object answers newSlot r rest :
  resolves answers newSlot r rest -> exists slotFields, newSlot = Obj slotFields.
Proof.
  intros [? ? ? ? ? ? ? ? ? ? ? _ _ _ Hschedule].
  destruct newSlot; cbn in Hschedule; try discriminate. eauto.
Qed.

(** The run that posts a bundle: every request before the last is a
    read, and the last posts, to the base URL of the backend, the
    cancellation planned at step 8 followed by the two operations of
    step 9. *)
Lemma book_posts_last bookingLocks req answers reply locks' rqs rest :
  play (book' bookingLocks req) answers = (reply, locks', rqs, rest) ->
  submitted rqs <> [] ->
  exists slotId' newSlot r conflictRes answers0 existing cancel message rqs_c
         answers1 start end_ reads,
    slotId req = Some slotId' /\
    resolves answers newSlot r (Some conflictRes :: answers0) /\
    json conflictRes = Normal existing /\
    play (cancel_existing FHIR_BASE positive_numeral existing) answers0
      = (Normal (cancel, message), rqs_c, answers1) /\
    get newSlot "start" = Normal start /\ get newSlot "end" = Normal end_ /\
    submitted reads = [] /\
    rqs = reads ++
      [PostBundle FHIR_BASE
         (transactionBundle
            (cancel ++
             [post_entry (new_appointment slotId' r start end_) "Appointment";
              put_entry (set_field "status" (Str "busy") (spread newSlot))
                (Str ("Slot/" +:+ slotId'))]))].
Proof.
  intros H Hsub.
  apply book_submission in H as (id & o & Hid & _ & H); [| exact Hsub].
  apply book_try_inv in H
    as [(reply' & _ & _ & _ & ->) | (personId & o1 & rqs1 & rest1 & _ & Hr & H)];
    [done |].
  apply resolve_inv in Hr as (Hs1 & _ & Hr).
  destruct o1 as [[newSlot r] | e | reply']; [| destruct H as [_ ->]; done ..].
  destruct Hr as [Hr _]. destruct H as (rqs2 & H & ->).
  apply book_resolved_inv in H
    as [Hs2 | (conflictRes & answers0 & existing & cancel & message & rqs_c
               & answers1 & booking & -> & Hj & Hc & Hb & -> & _)].
  { rewrite submitted_app, Hs1, Hs2 in Hsub. done. }
  unfold book_entries in Hb.
  destruct (get newSlot "start") as [start | |] eqn:Hstart; try discriminate.
  destruct (get newSlot "end") as [end_ | |] eqn:Hend; try discriminate.
  injection Hb as <-.
  pose proof (cancel_existing_reads _ _ _ _ _ Hc) as [Hsc _].
  exists id, newSlot, r, conflictRes, answers0, existing, cancel, message, rqs_c,
    answers1, start, end_, (rqs1 ++ Get (existingApptUrl FHIR_BASE r) :: rqs_c).
  repeat (split; [eassumption || reflexivity |]). split.
  - rewrite submitted_app, Hs1. cbn [app].
    change (submitted (Get ?u :: ?l)) with (submitted l). exact Hsc.
  - by rewrite <- app_assoc.
Qed.

Lemma submitted_last reads url bundle :
  submitted reads = [] -> submitted (reads ++ [PostBundle url bundle]) = [bundle].
Proof. intros Hs. by rewrite submitted_app, Hs. Qed.

(** C5: a bundle is posted once, as the last request of the run, to the
    base URL of the backend; it is a transaction whose entries end with
    the creation ([POST Appointment]) of an appointment with status
    booked, slot [Slot/<slotId>], supporting information the resolved
    schedule reference, start and end those of the fetched slot,
    participants the resolved patient and the schedule's actor, both
    accepted, followed by the update ([PUT Slot/<slotId>]) of the target
    slot: the fetched slot with status busy and every other field as
    fetched. *)
Theorem new_reservation_in_bundle bookingLocks req answers reply locks' rqs rest bundle :
  play (book' bookingLocks req) answers = (reply, locks', rqs, rest) ->
  bundle ∈ submitted rqs ->
  exists slotId' slotFields r rest4 reads cancel busySlot,
    slotId req = Some slotId' /\
    resolves answers (Obj slotFields) r rest4 /\
    rqs = reads ++ [PostBundle FHIR_BASE bundle] /\ submitted reads = [] /\
    bundle =
      Obj [("resourceType", Str "Bundle"); ("type", Str "transaction");
           ("entry", Arr (cancel ++
              [Obj [("resource",
                      Obj [("resourceType", Str "Appointment");
                           ("status", Str "booked");
                           ("slot", Arr [Obj [("reference", Str ("Slot/" +:+ slotId'))]]);
                           ("supportingInformation",
                             Arr [Obj [("reference", scheduleRef r)]]);
                           ("start", default Undefined (assoc "start" slotFields));
                           ("end", default Undefined (assoc "end" slotFields));
                           ("participant",
                             Arr [Obj [("actor", Obj [("reference", Str (patientRef r))]);
                                       ("status", Str "accepted")];
                                  Obj [("actor", Obj [("reference", actorRef r)]);
                                       ("status", Str "accepted")]])]);
                    ("request", Obj [("method", Str "POST"); ("url", Str "Appointment")])];
               Obj [("resource", Obj busySlot);
                    ("request", Obj [("method", Str "PUT");
                                     ("url", Str ("Slot/" +:+ slotId'))])]]))] /\
    assoc "status" busySlot = Some (Str "busy") /\
    (forall k, k <> "status" -> assoc k busySlot = assoc k slotFields).
Proof.
  intros H Hin.
  assert (Hsub : submitted rqs <> []) by (intros E; rewrite E in Hin; by apply elem_of_nil in Hin).
  apply book_posts_last in H
    as (id & newSlot & r & conflictRes & answers0 & existing & cancel & message & rqs_c
        & answers1 & start & end_ & reads & Hid & Hr & _ & _ & Hstart & Hend & Hreads & ->);
    [| exact Hsub].
  rewrite (submitted_last _ _ _ Hreads) in Hin. apply list_elem_of_singleton in Hin as ->.
  destruct (resolves_slot_object _ _ _ _ Hr) as [slotFields ->].
  cbn [get] in Hstart, Hend. injection Hstart as <-. injection Hend as <-.
  exists id, slotFields, r, (Some conflictRes :: answers0), reads, cancel,
    (set_field "status" (Str "busy") slotFields).
  repeat (split; [done |]). split; [apply assoc_set_field |].
  intros k Hk. apply assoc_set_field_ne. congruence.
Qed.

(** The update of a resource is an update to status free exactly when
    the resource it puts has that status; a deletion and a creation are
    not. *)
Lemma is_free_update_put resource url :
  is_free_update
    (Obj [("resource", Obj resource);
          ("request", Obj [("method", Str "PUT"); ("url", url)])])
  = str_is (default Undefined (assoc "status" resource)) "free".
Proof. reflexivity. Qed.

Lemma filter_all {A} (f : A -> bool) (l : list A) :
  Forall (fun x => f x = true) l -> List.filter f l = l.
Proof.
  induction 1 as [| x l Hx _ IH]; cbn [List.filter]; [reflexivity |].
  by rewrite Hx, IH.
Qed.

(** The updates to status free of a bundle that supersedes a booking are
    those of the cancellation. *)
Lemma free_updates_of_bundle freeOld oldRef appointment busySlot slotUrl :
  Forall (fun e => is_free_update e = true) freeOld ->
  assoc "status" busySlot = Some (Str "busy") ->
  List.filter is_free_update
    (items (field (transactionBundle
                     (freeOld ++ [delete_entry oldRef;
                                  post_entry appointment "Appointment";
                                  put_entry busySlot slotUrl])) "entry"))
  = freeOld.
Proof.
  intros Hfree Hbusy.
  change (items (field (transactionBundle ?l) "entry")) with l.
  rewrite List.filter_app, (filter_all _ _ Hfree).
  unfold put_entry. cbn [List.filter]. rewrite is_free_update_put, Hbusy.
  cbn. apply app_nil_r.
Qed.

(** C3 (amended): when the appointment search found a prior booking and a
    bundle is posted, the bundle - the transaction posted as the last
    request - holds, in this order, the deletion ([DELETE
    Appointment/<id>]) of the prior appointment, the creation ([POST
    Appointment]) of the new one with status booked, and the update of
    the target slot to status busy.  The update ([PUT <slot reference>])
    of the prior appointment's slot - the fetched slot with status free -
    comes immediately before the deletion when that appointment names a
    slot and the fetch of that slot succeeded; otherwise no entry of the
    bundle is an update to status free. *)
Theorem superseding_entries
  bookingLocks req answers reply locks' rqs rest bundle existing :
  play (book' bookingLocks req) answers = (reply, locks', rqs, rest) ->
  bundle ∈ submitted rqs ->
  conflict_found positive_numeral answers existing ->
  exists slotId' oldAppointment oldId oldSlotRef reads freeOld appointment busySlot,
    slotId req = Some slotId' /\
    entry0_resource existing = Normal oldAppointment /\
    get oldAppointment "id" = Normal oldId /\
    first_reference oldAppointment "slot" = Normal oldSlotRef /\
    rqs = reads ++ [PostBundle FHIR_BASE bundle] /\ submitted reads = [] /\
    bundle =
      Obj [("resourceType", Str "Bundle"); ("type", Str "transaction");
           ("entry", Arr (freeOld ++
              [Obj [("request", Obj [("method", Str "DELETE");
                                     ("url", Str ("Appointment/" +:+ to_string oldId))])];
               Obj [("resource", Obj appointment);
                    ("request", Obj [("method", Str "POST"); ("url", Str "Appointment")])];
               Obj [("resource", Obj busySlot);
                    ("request", Obj [("method", Str "PUT");
                                     ("url", Str ("Slot/" +:+ slotId'))])]]))] /\
    assoc "resourceType" appointment = Some (Str "Appointment") /\
    assoc "status" appointment = Some (Str "booked") /\
    assoc "status" busySlot = Some (Str "busy") /\
    List.filter is_free_update (items (field bundle "entry")) = freeOld /\
    (truthy oldSlotRef = false -> freeOld = []) /\
    (truthy oldSlotRef = true ->
       exists oldSlotRes,
         answer 5 answers = Some oldSlotRes /\
         if ok oldSlotRes
         then exists oldSlot freeSlot,
                json oldSlotRes = Normal oldSlot /\
                freeOld = [Obj [("resource", Obj freeSlot);
                                ("request", Obj [("method", Str "PUT");
                                                 ("url", oldSlotRef)])]] /\
                assoc "status" freeSlot = Some (Str "free") /\
                (forall oldFields k,
                   oldSlot = Obj oldFields -> k <> "status" ->
                   assoc k freeSlot = assoc k oldFields)
         else freeOld = []).
Proof.
  intros H Hin (conflictRes' & total & Ha & Hj' & Ht & Hgt).
  assert (Hsub : submitted rqs <> []) by (intros E; rewrite E in Hin; by apply elem_of_nil in Hin).
  apply book_posts_last in H
    as (id & newSlot & r & conflictRes & answers0 & existing' & cancel & message & rqs_c
        & answers1 & start & end_ & reads & Hid & Hr & Hj & Hc & _ & _ & Hreads & ->);
    [| exact Hsub].
  rewrite (submitted_last _ _ _ Hreads) in Hin. apply list_elem_of_singleton in Hin as ->.
  destruct Hr. subst answers. positions. same_reads.
  unfold cancel_existing in Hc. exec Hc; try discriminate; same_reads; try absurd_path.
  all: injection Hc as <- <- <- <-.
  all: lazymatch goal with
       | E1 : entry0_resource _ = Normal ?oa, E2 : get ?oa "id" = Normal ?oid,
         E3 : first_reference ?oa "slot" = Normal ?osr |- _ =>
           exists id, oa, oid, osr, reads
       end.
  all: cbn [app];
       lazymatch goal with
       | |- context [transactionBundle [?a; _; _; _]] => exists [a]
       | |- context [transactionBundle [_; _; _]] => exists []
       end.
  all: exists (new_appointment id r start end_),
         (set_field "status" (Str "busy") (spread newSlot)).
  all: do 7 (split; [first [assumption | reflexivity] |]).
  all: do 3 (split; [first [reflexivity | apply assoc_set_field] |]).
  all: split;
         [lazymatch goal with
          | |- _ = ?free => apply (free_updates_of_bundle free)
          end;
          [repeat constructor; unfold put_entry;
           by rewrite is_free_update_put, assoc_set_field
          | apply assoc_set_field] |].
  all: split; [intros ?; first [reflexivity | congruence] |].
  all: intros ?; try congruence.
  all: eexists; (split; [reflexivity |]).
  all: lazymatch goal with E : ok _ = _ |- _ => rewrite E end; try reflexivity.
  eexists _, (set_field "status" (Str "free") (spread _)).
  split; [eassumption |]. split; [reflexivity |]. split; [apply assoc_set_field |].
  intros oldFields k -> Hk. apply assoc_set_field_ne. congruence.
Qed.

(** ** The transaction response *)


(** ** The status of the target slot *)

(** The chain reads the slot's [schedule] only, the bundle its [start],
    its [end] and every field but [status]. *)
Lemma resolve_from_slot_status personId st fs :
  resolve_from_slot FHIR_BASE personId (Obj (set_field "status" st fs))
  = resolve_from_slot FHIR_BASE personId (Obj fs).
Proof.
  unfold resolve_from_slot. cbn [obind get].
  by rewrite assoc_set_field_ne.
Qed.

Lemma book_entries_status slotId st fs r :
  book_entries slotId (Obj (set_field "status" st fs)) r
  = book_entries slotId (Obj fs) r.
Proof.
  unfold book_entries. cbn [get spread].
  by rewrite !assoc_set_field_ne, set_field_twice.
Qed.

Lemma book_resolved_status slotId st fs r :
  book_resolved FHIR_BASE positive_numeral slotId (Obj (set_field "status" st fs)) r
  = book_resolved FHIR_BASE positive_numeral slotId (Obj fs) r.
Proof.
  unfold book_resolved. by rewrite book_entries_status.
Qed.

Lemma book_try_status slotId tok st slotRes answers :
  (play (book_try' slotId tok) (Some (with_status st slotRes) :: answers)).1
  = (play (book_try' slotId tok) (Some slotRes :: answers)).1.
Proof.
  unfold book_try. rewrite !play_lift.
  destruct (authenticate JWT_SECRET jwt_verify tok) as [personId | |]; try reflexivity.
  unfold resolve. rewrite !play_bind_assoc, !play_fetch_some. do 2 f_equal.
  change (ok (with_status st slotRes)) with (ok slotRes).
  destruct (ok slotRes); cbn [negb]; [| reflexivity].
  unfold json, with_status. cbn [payload].
  destruct (payload slotRes) as [[| | | | | | fs] |]; try reflexivity.
  rewrite !play_bind_assoc, !play_lift, !play_bind_assoc.
  rewrite resolve_from_slot_status.
  rewrite (play_bind (resolve_from_slot _ _ (Obj fs))).
  rewrite (play_bind (resolve_from_slot _ _ (Obj fs)) (fun x => bind (unit (Obj fs, x)) _)).
  destruct (play (resolve_from_slot FHIR_BASE personId (Obj fs)) answers)
    as [[[r | e | reply] rqs] rest]; try reflexivity.
  rewrite !play_unit. cbv beta iota. by rewrite book_resolved_status.
Qed.

(** C10: the handler does not look at the status of the target slot: with
    any other status in the slot answer the run gives the same reply, the
    same gate and the same requests, the posted bundle included; and
    whatever the slot answer says, the last entry of the transaction
    posted as the last request is the update ([PUT Slot/<slotId>]) of the
    target slot with a resource whose status is busy. *)
Theorem slot_status_not_consulted bookingLocks req :
  (forall st slotRes answers,
     (play (book' bookingLocks req) (Some (with_status st slotRes) :: answers)).1
     = (play (book' bookingLocks req) (Some slotRes :: answers)).1) /\
  (forall answers reply locks' rqs rest bundle,
     play (book' bookingLocks req) answers = (reply, locks', rqs, rest) ->
     bundle ∈ submitted rqs ->
     exists slotId' reads entries busySlot,
       slotId req = Some slotId' /\
       rqs = reads ++ [PostBundle FHIR_BASE bundle] /\ submitted reads = [] /\
       bundle =
         Obj [("resourceType", Str "Bundle"); ("type", Str "transaction");
              ("entry", Arr (entries ++
                 [Obj [("resource", Obj busySlot);
                       ("request", Obj [("method", Str "PUT");
                                        ("url", Str ("Slot/" +:+ slotId'))])]]))] /\
       assoc "status" busySlot = Some (Str "busy")).
Proof.
  split.
  - intros st slotRes answers. unfold book.
    destruct (slotId req) as [id |]; [| reflexivity].
    destruct (String.eqb id ""); [reflexivity |].
    destruct (bool_decide _); [reflexivity |].
    rewrite !play_io_bind.
    pose proof (book_try_status id (token req) st slotRes answers) as Hsame.
    destruct (play (book_try' id (token req)) (Some (with_status st slotRes) :: answers))
      as [[o1 rqs1] rest1].
    destruct (play (book_try' id (token req)) (Some slotRes :: answers))
      as [[o2 rqs2] rest2].
    injection Hsame as -> ->. reflexivity.
  - intros answers reply locks' rqs rest bundle H Hin.
    assert (Hsub : submitted rqs <> [])
      by (intros E; rewrite E in Hin; by apply elem_of_nil in Hin).
    apply book_posts_last in H
      as (id & newSlot & r & conflictRes & answers0 & existing & cancel & message & rqs_c
          & answers1 & start & end_ & reads & Hid & _ & _ & _ & _ & _ & Hreads & ->);
      [| exact Hsub].
    rewrite (submitted_last _ _ _ Hreads) in Hin. apply list_elem_of_singleton in Hin as ->.
    exists id, reads, (cancel ++ [post_entry (new_appointment id r start end_) "Appointment"]),
      (set_field "status" (Str "busy") (spread newSlot)).
    split; [exact Hid |]. split; [reflexivity |]. split; [exact Hreads |].
    split; [| apply assoc_set_field].
    unfold transactionBundle, put_entry. by rewrite <- app_assoc.
Qed.

End Properties.

(** ** The transaction on the model backend *)

Lemma singleton_list {A} (l : list A) (x : A) :
  NoDup l -> (forall y, y ∈ l <-> y = x) -> l = [x].
Proof.
  intros Hnd Hall. destruct l as [| a l].
  - assert (Hx : x ∈ @nil A) by (by apply Hall). by apply elem_of_nil in Hx.
  - assert (a = x) as -> by (apply Hall; left).
    destruct l as [| b l]; [reflexivity |].
    assert (b = x) as -> by (apply Hall; right; left).
    apply NoDup_cons in Hnd as [Hnd _]. destruct Hnd. left.
Qed.

Lemma booked_for_singleton patient schedule (st : gmap string val) k v :
  (forall k' v', st !! k' = Some v' /\ is_booked_for patient schedule v' = true
                 <-> k' = k /\ v' = v) ->
  booked_for patient schedule st = [(k, v)].
Proof.
  intros Hall. unfold booked_for. apply singleton_list.
  - apply NoDup_ListNoDup, List.NoDup_filter, NoDup_ListNoDup, NoDup_map_to_list.
  - intros [k' v'].
    rewrite list_elem_of_In, List.filter_In, <- list_elem_of_In, elem_of_map_to_list.
    cbn. rewrite Hall.
    split; [intros [-> ->]; reflexivity | intros [= -> ->]; done].
Qed.

Lemma slot_key_not_appointment a b : "Slot/" +:+ a <> "Appointment/" +:+ b.
Proof. discriminate. Qed.

Lemma not_booked_with_status patient schedule st fs :
  st <> "booked" ->
  is_booked_for patient schedule (Obj (set_field "status" (Str st) fs)) = false.
Proof.
  intros Hst. unfold is_booked_for.
  replace (str_is (field (Obj (set_field "status" (Str st) fs)) "status") "booked")
    with false.
  - by rewrite andb_false_r.
  - cbn [field]. rewrite assoc_set_field. cbn. symmetry. by apply String.eqb_neq.
Qed.

Section Store.

Variables (patient schedule : string).

(** On a store without a booked appointment for (patient, schedule), the
    two booking entries leave the appointment they create as the only
    one. *)
Lemma booking_applied (st : gmap string val) next results slotId r start end_ slot st' next' results' :
  patientRef r = patient -> scheduleRef r = Str schedule ->
  (forall k v, st !! k = Some v -> is_booked_for patient schedule v = false) ->
  apply_entries (st, next, results)
    [post_entry (new_appointment slotId r start end_) "Appointment";
     put_entry (set_field "status" (Str "busy") slot) (Str ("Slot/" +:+ slotId))]
    = Some (st', next', results') ->
  exists v, booked_for patient schedule st'
            = [("Appointment/" +:+ to_string (Num next), v)].
Proof.
  intros Hp Hs Hnone H. cbn in H. injection H as <- <- <-.
  eexists. apply booked_for_singleton. intros k' v'.
  rewrite lookup_insert. case_decide as Hk.
  - subst k'. split.
    + intros [[= <-] Hb]. by rewrite not_booked_with_status in Hb.
    + intros [Hk _]. by destruct (slot_key_not_appointment _ _ Hk).
  - rewrite lookup_insert. case_decide as Hk2.
    + subst k'. split; [intros [[= <-] _]; done |].
      intros [_ ->]. split; [done |].
      unfold is_booked_for. cbn. rewrite Hp, Hs. cbn. by rewrite !String.eqb_refl.
    + split; [| intros [-> _]; done].
      intros [Hl Hb]. by rewrite (Hnone _ _ Hl) in Hb.
Qed.

(** On a store whose only booked appointment for (patient, schedule), if
    any, is the one the bundle deletes, the bundle leaves the appointment
    it creates as the only one. *)
Lemma supersession_applied (st : gmap string val) next slotId r start end_ slot
    key freeOld st' next' results' :
  patientRef r = patient -> scheduleRef r = Str schedule ->
  (forall k v, st !! k = Some v -> is_booked_for patient schedule v = true -> k = key) ->
  (freeOld = [] \/
   exists fs url, freeOld = [put_entry (set_field "status" (Str "free") fs) (Str url)]) ->
  apply_entries (st, next, [])
    (freeOld ++
     [delete_entry key;
      post_entry (new_appointment slotId r start end_) "Appointment";
      put_entry (set_field "status" (Str "busy") slot) (Str ("Slot/" +:+ slotId))])
    = Some (st', next', results') ->
  exists v, booked_for patient schedule st'
            = [("Appointment/" +:+ to_string (Num next), v)].
Proof.
  intros Hp Hs Hone Hfree H.
  assert (Hdel : forall st0 : gmap string val,
    (forall k v, st0 !! k = Some v -> is_booked_for patient schedule v = true -> k = key) ->
    forall k v, delete key st0 !! k = Some v -> is_booked_for patient schedule v = false).
  { intros st0 H0 k v. rewrite lookup_delete. case_decide as Hk; [done |].
    intros Hl. destruct (is_booked_for patient schedule v) eqn:Hb; [| done].
    destruct Hk. symmetry. eauto. }
  destruct Hfree as [-> | (fs & url & ->)]; cbn [app] in H.
  - change (apply_entries (st, next, []) (delete_entry key :: ?l))
      with (apply_entries (delete key st, next, [result_entry "204 No Content" Undefined]) l) in H.
    refine (booking_applied _ _ _ _ _ _ _ _ _ _ _ Hp Hs _ H). by apply Hdel.
  - change (apply_entries (st, next, []) (?p :: delete_entry key :: ?l))
      with (apply_entries
              (delete key (<[url := Obj (set_field "status" (Str "free") fs)]> st), next,
               [result_entry "200 OK" (Str (url +:+ "/_history/2"));
                result_entry "204 No Content" Undefined]) l) in H.
    refine (booking_applied _ _ _ _ _ _ _ _ _ _ _ Hp Hs _ H). apply Hdel.
    intros k v. rewrite lookup_insert. case_decide as Hk; [| by apply Hone].
    intros [= <-]. by rewrite not_booked_with_status.
Qed.
End Store.

Lemma elem_of_booked_for patient schedule (st : gmap string val) k v :
  (k, v) ∈ booked_for patient schedule st
  <-> st !! k = Some v /\ is_booked_for patient schedule v = true.
Proof.
  unfold booked_for.
  by rewrite list_elem_of_In, List.filter_In, <- list_elem_of_In, elem_of_map_to_list.
Qed.

Lemma booked_is_object patient schedule a :
  is_booked_for patient schedule a = true -> exists fs, a = Obj fs.
Proof. destruct a; try discriminate. eauto. Qed.

Section Supersession.

Variable FHIR_BASE : string.
Variable JWT_SECRET : string.
Variable jwt_verify : val -> string -> option val.
Variable positive_numeral : string -> bool.

Lemma resolves_unique answers newSlot r rest newSlot' r' rest' :
  resolves answers newSlot r rest -> resolves answers newSlot' r' rest' ->
  newSlot' = newSlot /\ r' = r /\ rest' = rest.
Proof.
  intros [] []. subst answers. simplify_eq. same_reads.
  destruct r, r'. cbn in *. simplify_eq. done.
Qed.

(** C1 (amended): when the appointment search answered with the booked
    appointments that a store holds for the resolved patient and schedule
    - at most one - applying the posted bundle to that store leaves
    exactly one booked appointment for them, the one the bundle creates:
    a prior one is deleted by the same bundle. *)
Theorem answered_search_keeps_one_booking
  bookingLocks req answers reply locks' rqs rest bundle
  newSlot r rest4 schedule (st : gmap string val) next conflictRes st' next' results :
  play (book FHIR_BASE JWT_SECRET jwt_verify positive_numeral bookingLocks req) answers
    = (reply, locks', rqs, rest) ->
  bundle ∈ submitted rqs ->
  resolves answers newSlot r rest4 ->
  scheduleRef r = Str schedule ->
  answer 4 answers = Some conflictRes ->
  json conflictRes
    = Normal (searchset (map snd (booked_for (patientRef r) schedule st))) ->
  (length (booked_for (patientRef r) schedule st) <= 1)%nat ->
  appointment_keys (patientRef r) schedule st ->
  apply_entries (st, next, []) (items (field bundle "entry"))
    = Some (st', next', results) ->
  exists v, booked_for (patientRef r) schedule st'
            = [("Appointment/" +:+ to_string (Num next), v)].
Proof.
  intros H Hin Hr0 Hsched Ha Hj' Hlen Hkeys Happly.
  assert (Hsub : submitted rqs <> []) by (intros E; rewrite E in Hin; by apply elem_of_nil in Hin).
  apply book_submission in H as (id & o & Hid & _ & H); [| exact Hsub].
  apply book_try_submission in H
    as (personId & newSlot' & r' & conflictRes' & answers0 & existing & cancel & message
        & rqs_c & answers1 & booking & _ & Hr & Hj & Hc & Hb & Hs & _); [| exact Hsub].
  rewrite Hs in Hin. apply list_elem_of_singleton in Hin as ->. clear Hs.
  destruct (resolves_unique _ _ _ _ _ _ _ Hr0 Hr) as (-> & -> & <-). clear Hr0.
  destruct Hr. subst answers. positions. same_reads.
  unfold book_entries in Hb.
  destruct (get newSlot "start") as [start | |]; try discriminate.
  destruct (get newSlot "end") as [end_ | |]; try discriminate.
  injection Hb as <-.
  change (items (field (transactionBundle ?l) "entry")) with l in Happly.
  destruct (booked_for (patientRef r) schedule st) as [| [k a] [| ? ?]] eqn:Hfound;
    [| | cbn in Hlen; lia].
  - (* no prior booking *)
    assert (Hnone : forall k v, st !! k = Some v ->
              is_booked_for (patientRef r) schedule v = false).
    { intros k v Hl. destruct (is_booked_for _ _ v) eqn:Hb; [| done].
      assert (Hin : (k, v) ∈ booked_for (patientRef r) schedule st)
        by by apply elem_of_booked_for.
      rewrite Hfound in Hin. by apply elem_of_nil in Hin. }
    unfold cancel_existing in Hc. exec Hc; try discriminate.
    all: cbn in *; simplify_eq.
    eapply (booking_applied _ _ _ _ _ _ _ _ _ _ _ _ _ eq_refl Hsched Hnone Happly).
  - (* one prior booking, which the search lists *)
    assert (Hin : (k, a) ∈ booked_for (patientRef r) schedule st)
      by (rewrite Hfound; left).
    apply elem_of_booked_for in Hin as [Hl Hb].
    destruct (Hkeys _ _ Hl Hb) as (oldId & HoldId & ->).
    destruct (booked_is_object _ _ _ Hb) as [fs ->].
    assert (Hone : forall k' v', st !! k' = Some v' ->
              is_booked_for (patientRef r) schedule v' = true ->
              k' = "Appointment/" +:+ oldId).
    { intros k' v' Hl' Hb'.
      assert (Hin : (k', v') ∈ booked_for (patientRef r) schedule st)
        by by apply elem_of_booked_for.
      rewrite Hfound in Hin. apply list_elem_of_singleton in Hin. congruence. }
    unfold cancel_existing in Hc. exec Hc; try discriminate.
    all: cbn in E; injection E as <-; try (cbn in E0; discriminate).
    all: cbn in E1; injection E1 as <-.
    all: cbn [get] in E2;
         change (default Undefined (assoc "id" fs)) with (field (Obj fs) "id") in E2;
         rewrite HoldId in E2; injection E2 as <-.
    all: injection Hc as <- <- <- <-; cbn [app] in Happly;
         change (to_string (Str oldId)) with oldId in Happly.
    + destruct a2 as [| | | | url | |]; try (cbn in Happly; discriminate).
      refine (supersession_applied _ _ _ _ _ _ _ _ _ _
                [put_entry (set_field "status" (Str "free") (spread a3)) (Str url)]
                _ _ _ eq_refl Hsched Hone _ Happly).
      right. eauto.
    + refine (supersession_applied _ _ _ _ _ _ _ _ _ _ [] _ _ _ eq_refl Hsched Hone _ Happly).
      by left.
    + refine (supersession_applied _ _ _ _ _ _ _ _ _ _ [] _ _ _ eq_refl Hsched Hone _ Happly).
      by left.
Qed.
End Supersession.

(** ** Scenarios on the model backend *)

Lemma quadruple_eta {A B C D} (x : A * B * C * D) : x = (x.1.1.1, x.1.1.2, x.1.2, x.2).
Proof. by destruct x as [[[? ?] ?] ?]. Defined.

(** Scenario B of the booking flow: Alice moves from slot [s1] to slot
    [s2]; one booked appointment is left for her on the schedule. *)
Example healthy_rebooking :
  let '(reply, _, _, backend') := Clinic.book_on Clinic.healthy (Clinic.alice_books "s2") in
  reply = mkReply 200 (BookedBody "預約已更新！" (Str "100")) /\
  map fst (booked_for "Patient/p1" "Schedule/sch1" (store backend')) = ["Appointment/100"].
Proof. vm_compute. split; reflexivity. Qed.

(** The answer to the appointment search is read without a look at its
    [ok]: Alice holds one booked appointment on the schedule, the search
    answers 500 with an OperationOutcome, whose [total] is undefined, the
    handler goes on, the transaction succeeds, and two booked appointments
    are left for (Alice, schedule). *)
Lemma failed_search_leaves_two_bookings :
  let '(reply, _, rqs, backend') :=
    Clinic.book_on Clinic.search_down (Clinic.alice_books "s2") in
  map fst (booked_for "Patient/p1" "Schedule/sch1" (store Clinic.search_down))
    = ["Appointment/a1"] /\
  reply = mkReply 200 (BookedBody "預約成功！" (Str "100")) /\
  map fst (booked_for "Patient/p1" "Schedule/sch1" (store backend'))
    = ["Appointment/100"; "Appointment/a1"].
Proof. vm_compute. repeat split; reflexivity. Qed.

(** C1, as stated, fails: the gate is keyed by slot id.  Alice has no
    appointment and asks for [s1] and for [s2] at the same time: the gate
    lets both requests in, both read the chain and search for a prior
    booking before either posts, then both post.  Neither search saw a
    prior booking, both replies are successes, and two booked appointments
    are left for (Alice, schedule). *)
Lemma racing_bookings_leave_two :
  let '(first, _, b1) :=
    run_reads (serve Clinic.base) (Clinic.handler ∅ (Clinic.alice_books "s1"))
      Clinic.first_visit in
  let '(second, _, b2) :=
    run_reads (serve Clinic.base)
      (Clinic.handler {["s1" := true]} (Clinic.alice_books "s2")) b1 in
  let '(reply1, _, _, b3) := run (serve Clinic.base) first b2 in
  let '(reply2, _, _, b4) := run (serve Clinic.base) second b3 in
  booked_for "Patient/p1" "Schedule/sch1" (store Clinic.first_visit) = [] /\
  code reply1 = 200 /\ code reply2 = 200 /\
  map fst (booked_for "Patient/p1" "Schedule/sch1" (store b3)) = ["Appointment/100"] /\
  map fst (booked_for "Patient/p1" "Schedule/sch1" (store b4))
    = ["Appointment/101"; "Appointment/100"].
Proof. vm_compute. repeat split; reflexivity. Qed.

(** C3, as stated, fails: the prior appointment is found and deleted, but
    its slot no longer exists, its fetch answers 404, and the posted
    bundle holds no update to status free. *)
Lemma old_slot_gone_not_freed :
  let rq := Clinic.alice_books "s2" in
  let '(reply, _, rqs, _) := Clinic.replay Clinic.old_slot_gone rq in
  (exists existing,
     conflict_found Clinic.numeral (Clinic.answers_on Clinic.old_slot_gone rq) existing) /\
  code reply = 200 /\
  exists entries,
    submitted rqs
    = [Obj [("resourceType", Str "Bundle"); ("type", Str "transaction");
            ("entry", Arr entries)]] /\
    existsb is_free_update entries = false /\
    head entries
    = Some (Obj [("request", Obj [("method", Str "DELETE");
                                  ("url", Str "Appointment/a1")])]).
Proof.
  cbv zeta.
  destruct (Clinic.replay _ _) as [[[reply locks] rqs] rest] eqn:E.
  vm_compute in E. injection E as <- <- <- <-.
  split; [| split; [reflexivity |]].
  - exists (searchset [Clinic.appointment "a1" "Slot/s1" "Patient/p1"]).
    exists (mkResponse 200 "OK"
              (Some (searchset [Clinic.appointment "a1" "Slot/s1" "Patient/p1"]))),
      (Num 1).
    repeat split; vm_compute; reflexivity.
  - eexists. split; [reflexivity |]. split; vm_compute; reflexivity.
Qed.


(** C4, as stated, fails: an empty role-binding search result is reported
    as 500, not as a client-class failure. *)
Lemma missing_role_reported_500 :
  let rq := Clinic.alice_books "s2" in
  let '(reply, _, rqs, _) := Clinic.replay Clinic.no_role rq in
  role_not_found (Clinic.answers_on Clinic.no_role rq) rqs /\
  reply = mkReply 500
    (CaughtBody (Error "Cannot find PractitionerRole for actor Practitioner/dr1")).
Proof.
  cbv zeta.
  destruct (Clinic.replay _ _) as [[[reply locks] rqs] rest] eqn:E.
  vm_compute in E. injection E as <- <- <- <-.
  split; [| reflexivity]. split; [unfold asked; cbn; lia |].
  exists (mkResponse 200 "OK" (Some (searchset []))), (searchset []).
  repeat split; vm_compute; reflexivity.
Qed.

(** The open question of the booking flow: slot [s2] is busy with Bob's
    appointment, and Alice books it all the same. *)
Example busy_slot_rebooked :
  let '(reply, _, _, backend') :=
    Clinic.book_on Clinic.taken_by_bob (Clinic.alice_books "s2") in
  code reply = 200 /\
  map fst (booked_for "Patient/p2" "Schedule/sch1" (store backend')) = ["Appointment/b1"] /\
  map fst (booked_for "Patient/p1" "Schedule/sch1" (store backend')) = ["Appointment/100"].
Proof. vm_compute. repeat split; reflexivity. Qed.

(** ** The theorems at work on the clinic *)

(** Alice rebooks on the healthy clinic: the gate entry of [s2] is gone. *)
Lemma gate_released_witness :
  let res := Clinic.replay Clinic.healthy (Clinic.alice_books "s2") in
  res.1.1.2 !! "s2" = None /\ res.1.1.2 = ∅.
Proof.
  eapply (gate_released_on_every_exit Clinic.base Clinic.secret Clinic.verify
           Clinic.numeral ∅ (Clinic.alice_books "s2") "s2"
           (Clinic.answers_on Clinic.healthy (Clinic.alice_books "s2")) _ _ _ _).
  - reflexivity.
  - discriminate.
  - reflexivity.
  - apply quadruple_eta.
Defined.

(** A second attempt on [s2] while the first holds the gate. *)
Lemma held_slot_witness :
  play (Clinic.handler {["s2" := true]} (Clinic.alice_books "s2")) []
  = ((mkReply 409 (ErrorBody "此時段正在處理中，請稍候"), {["s2" := true]}), [], []).
Proof.
  apply (held_slot_rejected_busy Clinic.base Clinic.secret Clinic.verify
           Clinic.numeral {["s2" := true]} (Clinic.alice_books "s2") "s2" []).
  - vm_compute. reflexivity.
  - reflexivity.
  - exists true. vm_compute. reflexivity.
Defined.

(** Alice asks for slot [s9], which the clinic does not have. *)
Lemma failed_resolution_witness :
  let res := Clinic.replay Clinic.healthy (Clinic.alice_books "s9") in
  submitted res.1.2 = [] /\ res.1.1.2 !! "s9" = None.
Proof.
  eapply (failed_resolution_submits_nothing Clinic.base Clinic.secret Clinic.verify
           Clinic.numeral ∅ (Clinic.alice_books "s9") "s9"
           (Clinic.answers_on Clinic.healthy (Clinic.alice_books "s9")) _ _ _ _).
  - reflexivity.
  - discriminate.
  - reflexivity.
  - apply quadruple_eta.
  - left. split; [vm_compute; lia |].
    exists (mkResponse 404 "Not Found" (Some outcome_body)).
    split; vm_compute; reflexivity.
Defined.

(** The missing slot is a 404, the missing role binding a 500. *)
Lemma resolution_failures_witness :
  (Clinic.replay Clinic.healthy (Clinic.alice_books "s9")).1.1.1
    = mkReply 404 (ErrorBody "找不到指定的時段 (Slot)") /\
  exists actor,
    (Clinic.replay Clinic.no_role (Clinic.alice_books "s2")).1.1.1
      = mkReply 500
          (CaughtBody (Error ("Cannot find PractitionerRole for actor " +:+ actor))).
Proof.
  split.
  - apply (resolution_failures_reported Clinic.base Clinic.secret Clinic.verify
             Clinic.numeral ∅ (Clinic.alice_books "s9")
             (Clinic.answers_on Clinic.healthy (Clinic.alice_books "s9")) _ _ _ _
             (quadruple_eta _)).
    split; [vm_compute; lia |].
    exists (mkResponse 404 "Not Found" (Some outcome_body)).
    split; vm_compute; reflexivity.
  - apply (resolution_failures_reported Clinic.base Clinic.secret Clinic.verify
             Clinic.numeral ∅ (Clinic.alice_books "s2")
             (Clinic.answers_on Clinic.no_role (Clinic.alice_books "s2")) _ _ _ _
             (quadruple_eta _)).
    split; [vm_compute; lia |].
    exists (mkResponse 200 "OK" (Some (searchset []))), (searchset []).
    repeat split; vm_compute; reflexivity.
Defined.

(** The schedule of the clinic is attached to a room. *)
Lemma unsupported_actor_witness :
  let res := Clinic.replay Clinic.room_schedule (Clinic.alice_books "s2") in
  code res.1.1.1 = 500 /\ submitted res.1.2 = [] /\
  body res.1.1.1
    = CaughtBody (Error ("Schedule actor is not a Practitioner as expected: "
                           +:+ "Location/room1")).
Proof.
  pose (schedule := Obj [("resourceType", Str "Schedule"); ("id", Str "sch1");
                         ("actor", Arr [Obj [("reference", Str "Location/room1")]])]).
  destruct (unsupported_actor_rejected Clinic.base Clinic.secret Clinic.verify
              Clinic.numeral ∅ (Clinic.alice_books "s2")
              (Clinic.answers_on Clinic.room_schedule (Clinic.alice_books "s2")) _ _ _ _
              (mkResponse 200 "OK" (Some schedule)) schedule (Str "Location/room1")
              (quadruple_eta _))
    as (Hcode & Hnone & _ & Hbody).
  - vm_compute. lia.
  - vm_compute. reflexivity.
  - reflexivity.
  - reflexivity.
  - reflexivity.
  - vm_compute. discriminate.
  - split; [exact Hcode | split; [exact Hnone | apply Hbody; reflexivity]].
Defined.

(** Alice rebooks on the healthy clinic: what is posted last. *)
Lemma new_reservation_witness :
  let res := Clinic.replay Clinic.healthy (Clinic.alice_books "s2") in
  exists reads bundle busySlot,
    res.1.2 = reads ++ [PostBundle Clinic.base bundle] /\
    last (items (field bundle "entry"))
    = Some (Obj [("resource", Obj busySlot);
                 ("request", Obj [("method", Str "PUT"); ("url", Str "Slot/s2")])]) /\
    assoc "status" busySlot = Some (Str "busy") /\
    assoc "start" busySlot = Some (Str "2025-08-05T09:30:00Z").
Proof.
  cbv zeta.
  pose (res := Clinic.replay Clinic.healthy (Clinic.alice_books "s2")).
  pose (bundle := default Undefined (head (submitted res.1.2))).
  destruct (new_reservation_in_bundle Clinic.base Clinic.secret Clinic.verify
              Clinic.numeral ∅ (Clinic.alice_books "s2")
              (Clinic.answers_on Clinic.healthy (Clinic.alice_books "s2")) _ _ _ _
              bundle (quadruple_eta _))
    as (id & slotFields & r & rest4 & reads & cancel & busySlot
        & Hid & Hr & Hrqs & _ & Hb & Hbusy & Hother).
  - vm_compute. apply list_elem_of_here.
  - injection Hid as <-. destruct Hr as [? ? ? ? ? ? ? ? ? ? ? Hanswers _ Hslot].
    vm_compute in Hanswers. injection Hanswers as <- _ _ _ _.
    vm_compute in Hslot. injection Hslot as <-.
    exists reads, bundle, busySlot. split; [exact Hrqs |].
    split; [| split; [exact Hbusy | by rewrite Hother]].
    rewrite Hb.
    lazymatch goal with
    | |- last (items (field (Obj [_; _; (_, Arr (cancel ++ [?create; ?busy]))]) _)) = _ =>
        change (last (cancel ++ [create] ++ [busy]) = Some busy)
    end.
    rewrite app_assoc.
    apply last_snoc.
Defined.

(** Alice rebooks on the healthy clinic: slot [s1] is set free and the
    prior appointment deleted before the new one is created. *)
Lemma superseding_entries_witness :
  let res := Clinic.replay Clinic.healthy (Clinic.alice_books "s2") in
  exists reads bundle freeSlot appointment busySlot,
    res.1.2 = reads ++ [PostBundle Clinic.base bundle] /\
    items (field bundle "entry")
    = [Obj [("resource", Obj freeSlot);
            ("request", Obj [("method", Str "PUT"); ("url", Str "Slot/s1")])];
       Obj [("request", Obj [("method", Str "DELETE"); ("url", Str "Appointment/a1")])];
       Obj [("resource", Obj appointment);
            ("request", Obj [("method", Str "POST"); ("url", Str "Appointment")])];
       Obj [("resource", Obj busySlot);
            ("request", Obj [("method", Str "PUT"); ("url", Str "Slot/s2")])]] /\
    assoc "status" freeSlot = Some (Str "free") /\
    assoc "status" appointment = Some (Str "booked") /\
    assoc "status" busySlot = Some (Str "busy").
Proof.
  cbv zeta.
  pose (res := Clinic.replay Clinic.healthy (Clinic.alice_books "s2")).
  pose (bundle := default Undefined (head (submitted res.1.2))).
  pose (existing := searchset [Clinic.appointment "a1" "Slot/s1" "Patient/p1"]).
  destruct (superseding_entries Clinic.base Clinic.secret Clinic.verify
              Clinic.numeral ∅ (Clinic.alice_books "s2")
              (Clinic.answers_on Clinic.healthy (Clinic.alice_books "s2")) _ _ _ _
              bundle existing (quadruple_eta _))
    as (id & oldAppointment & oldId & oldSlotRef & reads & freeOld & appointment & busySlot
        & Hid & Hold & Hoid & Href & Hrqs & _ & Hb & _ & Hbooked & Hbusy & _ & _ & Hfree).
  - vm_compute. apply list_elem_of_here.
  - exists (mkResponse 200 "OK" (Some existing)), (Num 1).
    repeat split; vm_compute; reflexivity.
  - injection Hid as <-.
    vm_compute in Hold. injection Hold as <-.
    vm_compute in Hoid. injection Hoid as <-.
    vm_compute in Href. injection Href as <-.
    destruct (Hfree eq_refl) as (oldSlotRes & Hanswer & Hput).
    vm_compute in Hanswer. injection Hanswer as <-.
    change (ok _) with true in Hput. cbv iota in Hput.
    destruct Hput as (oldSlot & freeSlot & _ & -> & Hst & _).
    exists reads, bundle, freeSlot, appointment, busySlot.
    split; [exact Hrqs |]. split; [| by repeat split].
    rewrite Hb. reflexivity.
Defined.


(** Whether the clinic reports [s2] as free or as busy, the run is the
    same, and the posted bundle ends by putting [s2] with status busy. *)
Lemma slot_status_witness :
  let rq := Clinic.alice_books "s2" in
  let answers := Clinic.answers_on Clinic.healthy rq in
  let slotRes := default (mkResponse 0 "" None) (answer 0 answers) in
  (play (Clinic.handler ∅ rq) (Some (with_status (Str "busy") slotRes) :: tail answers)).1
  = (play (Clinic.handler ∅ rq) (Some slotRes :: tail answers)).1 /\
  exists reads bundle busySlot,
    (Clinic.replay Clinic.healthy rq).1.2 = reads ++ [PostBundle Clinic.base bundle] /\
    last (items (field bundle "entry"))
    = Some (Obj [("resource", Obj busySlot);
                 ("request", Obj [("method", Str "PUT"); ("url", Str "Slot/s2")])]) /\
    assoc "status" busySlot = Some (Str "busy").
Proof.
  cbv zeta.
  pose (res := Clinic.replay Clinic.healthy (Clinic.alice_books "s2")).
  pose (bundle := default Undefined (head (submitted res.1.2))).
  destruct (slot_status_not_consulted Clinic.base Clinic.secret Clinic.verify
              Clinic.numeral ∅ (Clinic.alice_books "s2")) as [Hsame Hlast].
  split; [apply Hsame |].
  destruct (Hlast (Clinic.answers_on Clinic.healthy (Clinic.alice_books "s2")) _ _ _ _
              bundle (quadruple_eta _))
    as (id & reads & entries & busySlot & Hid & Hrqs & _ & Hb & Hst).
  - vm_compute. apply list_elem_of_here.
  - injection Hid as <-. exists reads, bundle, busySlot.
    split; [exact Hrqs |]. split; [| exact Hst].
    rewrite Hb. apply last_snoc.
Defined.

(** Alice rebooks on the healthy clinic: one booked appointment is left. *)
Lemma answered_search_witness :
  let res := Clinic.replay Clinic.healthy (Clinic.alice_books "s2") in
  exists st' next' results v,
    apply_entries (Clinic.resources, 100, [])
      (items (field (default Undefined (head (submitted res.1.2))) "entry"))
      = Some (st', next', results) /\
    booked_for "Patient/p1" "Schedule/sch1" st' = [("Appointment/100", v)].
Proof.
  cbv zeta.
  pose (rq := Clinic.alice_books "s2").
  pose (res := Clinic.replay Clinic.healthy rq).
  pose (bundle := default Undefined (head (submitted res.1.2))).
  pose (r := mkResolved (Str "Schedule/sch1") (Str "Practitioner/dr1") "Patient/p1").
  pose (applied := apply_entries (Clinic.resources, 100, []) (items (field bundle "entry"))).
  pose (st' := (default (∅, 0, []) applied).1.1).
  pose (next' := (default (∅, 0, []) applied).1.2).
  pose (results := (default (∅, 0, []) applied).2).
  assert (Happlied : applied = Some (st', next', results)) by (vm_compute; reflexivity).
  destruct (answered_search_keeps_one_booking Clinic.base Clinic.secret Clinic.verify
              Clinic.numeral ∅ rq (Clinic.answers_on Clinic.healthy rq) _ _ _ _ bundle
              (Clinic.slot "s2" "free" "2025-08-05T09:30:00Z" "2025-08-05T10:00:00Z")
              r (drop 4 (Clinic.answers_on Clinic.healthy rq)) "Schedule/sch1"
              Clinic.resources 100
              (mkResponse 200 "OK"
                 (Some (searchset [Clinic.appointment "a1" "Slot/s1" "Patient/p1"])))
              st' next' results (quadruple_eta _)) as [v Hv].
  - vm_compute. apply list_elem_of_here.
  - econstructor; vm_compute; reflexivity.
  - reflexivity.
  - vm_compute. reflexivity.
  - vm_compute. reflexivity.
  - vm_compute. lia.
  - intros k v Hl Hb.
    assert (Hin : (k, v) ∈ booked_for "Patient/p1" "Schedule/sch1" Clinic.resources)
      by (apply elem_of_booked_for; split; assumption).
    vm_compute in Hin. apply list_elem_of_singleton in Hin. injection Hin as -> ->.
    exists "a1". split; reflexivity.
  - exact Happlied.
  - exists st', next', results, v. split; [exact Happlied | exact Hv].
Defined.

(** * More of the booking handler *)

(** The primitives and the library calls end normally or throw. *)
Ltac pure_outcome E :=
  exfalso; clear -E;
  unfold settled, array_find_system, array_or_empty, registered_org_ids,
    is_created, book_entries, first_reference,
    organization_reference, entry0_resource, json,
    split_slash_1, startsWith, get_opt, get0, get, obind in E;
  repeat match type of E with
  | context [match ?x with _ => _ end] =>
      lazymatch x with
      | context [match _ with _ => _ end] => fail
      | _ => destruct x; cbn beta iota in E
      end
  end;
  discriminate.

Lemma find_created_no_return entries r : find_created entries <> Return r.
Proof.
  induction entries as [| e entries IH]; cbn [find_created]; [discriminate |].
  destruct (is_created e) as [[|] | |] eqn:E; cbn [obind]; try discriminate; [exact IH |].
  pure_outcome E.
Qed.

Lemma read_result_no_return message txResult r : read_result message txResult <> Return r.
Proof.
  unfold read_result. intros E.
  destruct (get txResult "entry") as [v | |] eqn:Ee; cbn [obind] in E;
    [| discriminate | pure_outcome Ee].
  destruct v as [| | | | | entries |]; cbn [array_find_created] in E; try discriminate.
  destruct (find_created entries) as [e | |] eqn:Ef; cbn [obind] in E;
    [| discriminate | by apply find_created_no_return in Ef].
  destruct (truthy e); cbn [negb] in E; [| discriminate].
  pure_outcome E.
Qed.

Section MoreOfBook.

Variable FHIR_BASE : string.
Variable JWT_SECRET : string.
Variable jwt_verify : val -> string -> option val.
Variable positive_numeral : string -> bool.

Local Abbreviation book_try' := (book_try FHIR_BASE JWT_SECRET jwt_verify positive_numeral).
Local Abbreviation book' := (book FHIR_BASE JWT_SECRET jwt_verify positive_numeral).

(** X1: whatever the request and whatever the backend answers, the gate
    is the same when the handler is done as when it began: the handler
    leaves no key behind, and it releases no key that it did not take
    itself. *)
Theorem gate_unchanged_by_completed_request bookingLocks req answers :
  (play (book' bookingLocks req) answers).1.1.2 = bookingLocks.
Proof.
  destruct (play (book' bookingLocks req) answers) as [[[reply locks'] rqs] rest] eqn:H.
  cbn. apply book_inv in H as [(_ & _ & -> & _) | (id & o & _ & _ & Hfree & _ & _ & ->)];
    [reflexivity |].
  rewrite delete_insert_eq. by apply delete_id.
Qed.

(** X2: a booking request without a token, or with a token that
    [jwt.verify] rejects, is answered 401 - [未登入] or [Token 驗證失敗] -
    before any request is made to the backend, and the gate is as it was
    before. *)
Theorem unauthenticated_booking_rejected bookingLocks req slotId' answers :
  slotId req = Some slotId' -> slotId' <> "" -> bookingLocks !! slotId' = None ->
  truthy (token req) = false \/ jwt_verify (token req) JWT_SECRET = None ->
  play (book' bookingLocks req) answers =
  ((mkReply 401 (ErrorBody (if truthy (token req) then "Token 驗證失敗" else "未登入")),
    bookingLocks), [], answers).
Proof.
  intros Hid Hne Hfree Hbad.
  rewrite (play_book_gate FHIR_BASE JWT_SECRET jwt_verify positive_numeral _ _ slotId') by done.
  unfold book_try. rewrite play_lift. unfold authenticate.
  rewrite delete_insert_eq, delete_id by done.
  destruct (truthy (token req)); cbn [negb]; [| reflexivity].
  destruct Hbad as [? | ->]; [done | reflexivity].
Qed.

Lemma reads_only rqs : submitted rqs = [] -> exists urls, rqs = map Get urls.
Proof.
  induction rqs as [| [url | url b] rqs IH]; cbn; intros H.
  - by exists [].
  - destruct (IH H) as [urls ->]. by exists (url :: urls).
  - discriminate.
Qed.

Lemma book_resolved_length slotId newSlot r answers o rqs rest :
  play (book_resolved FHIR_BASE positive_numeral slotId newSlot r) answers
    = (o, rqs, rest) ->
  (length rqs <= 3)%nat.
Proof.
  unfold book_resolved, find_existing. intros H. exec H.
  all: try (injection H as <- <- <-; cbn; lia).
  rewrite play_bind in H.
  destruct (play (cancel_existing _ _ a) answers)
    as [[[[cancel message] | e | reply] rqs_c] answers1] eqn:Hc;
    pose proof (cancel_existing_reads _ _ _ _ _ _ _ Hc) as [_ Hl].
  2,3: injection H as <- <- <-; cbn; lia.
  rewrite play_lift in H.
  destruct (book_entries slotId newSlot r) as [booking | e | reply] eqn:Hb.
  2,3: injection H as <- <- <-; cbn; rewrite length_app; cbn; lia.
  destruct (play (execute _ _ _) answers1) as [[o2 rqs2] rest2] eqn:He.
  injection H as <- <- <-.
  pose proof (execute_inv _ _ _ _ _ _ _ He) as (-> & _ & _).
  cbn. rewrite length_app. cbn. lia.
Qed.

(** X3: a run of the booking handler makes at most seven requests; they
    are all reads, except that the last one may be the post of the
    transaction bundle to [FHIR_BASE]: nothing is read after the post, and
    nothing is posted twice. *)
Theorem book_reads_then_posts_once bookingLocks req answers reply locks' rqs rest :
  play (book' bookingLocks req) answers = (reply, locks', rqs, rest) ->
  (length rqs <= 7)%nat /\
  exists urls, (rqs = map Get urls \/
                exists bundle, rqs = map Get urls ++ [PostBundle FHIR_BASE bundle]).
Proof.
  intros H.
  apply book_inv in H as [(-> & _) | (id & o & _ & _ & _ & H & _ & _)].
  { split; [cbn; lia |]. exists []. by left. }
  apply book_try_inv in H
    as [(r & _ & _ & _ & ->) | (personId & o1 & rqs1 & rest1 & _ & Hr & H)].
  { split; [cbn; lia |]. exists []. by left. }
  apply resolve_inv in Hr as (Hs1 & Hlen & Hr).
  destruct (reads_only _ Hs1) as [urls1 ->].
  destruct o1 as [[newSlot r] | e | r];
    [| destruct H as [_ ->]; split; [lia | exists urls1; by left] ..].
  destruct H as (rqs2 & H & ->).
  pose proof (book_resolved_length _ _ _ _ _ _ _ H) as Hl2.
  split; [rewrite length_app; lia |].
  apply book_resolved_inv in H
    as [Hs2 | (conflictRes & answers0 & existing & cancel & message & rqs_c
               & answers1 & booking & -> & Hj & Hc & Hb & -> & He)].
  - destruct (reads_only _ Hs2) as [urls2 ->].
    exists (urls1 ++ urls2); left; by rewrite map_app.
  - pose proof (cancel_existing_reads _ _ _ _ _ _ _ Hc) as [Hsc _].
    destruct (reads_only _ Hsc) as [urls_c ->].
    exists (urls1 ++ existingApptUrl FHIR_BASE r :: urls_c). right.
    eexists. rewrite map_app. cbn [map]. rewrite <- app_assoc. reflexivity.
Qed.

Lemma resolve_returns_404 slotId personId answers reply rqs rest :
  play (resolve FHIR_BASE slotId personId) answers = (Return reply, rqs, rest) ->
  code reply = 404.
Proof.
  unfold resolve, resolve_from_slot. intros H. exec H.
  all: try discriminate.
  all: try (injection H as <- <- <-; reflexivity).
  all: lazymatch goal with E : _ = Return _ |- _ => pure_outcome E end.
Qed.

Lemma book_resolved_outcome slotId newSlot r answers o rqs rest :
  play (book_resolved FHIR_BASE positive_numeral slotId newSlot r) answers
    = (o, rqs, rest) ->
  (exists e, o = Throw e) \/
  (exists reply, o = Normal reply /\ submitted rqs <> []).
Proof.
  intros H. pose proof H as H'.
  apply book_resolved_inv in H'
    as [Hs | (conflictRes & answers0 & existing & cancel & message & rqs_c
               & answers1 & booking & -> & Hj & Hc & Hb & -> & He)].
  - unfold book_resolved, find_existing in H. exec H.
    all: try (injection H as <- <- <-; left; eauto; fail).
    all: try match goal with E : _ = Return _ |- _ => pure_outcome E end.
    rewrite play_bind in H.
    destruct (play (cancel_existing _ _ a) answers)
      as [[[[cancel message] | e | reply] rqs_c] answers1] eqn:Hc.
    + rewrite play_lift in H.
      destruct (book_entries slotId newSlot r) as [booking | e | reply] eqn:Hb.
      * destruct (play (execute _ _ _) answers1) as [[o2 rqs2] rest2] eqn:He.
        injection H as <- <- <-.
        pose proof (execute_inv _ _ _ _ _ _ _ He) as (-> & _ & _).
        rewrite app_comm_cons, submitted_app in Hs.
        by apply app_eq_nil in Hs as [_ ?].
      * injection H as <- <- <-. left; eauto.
      * pure_outcome Hb.
    + injection H as <- <- <-. left; eauto.
    + unfold cancel_existing in Hc. exec Hc; try discriminate.
      all: match goal with E : _ = Return _ |- _ => pure_outcome E end.
  - apply execute_inv in He as (_ & _ & ->).
    assert (Hsub : submitted (Get (existingApptUrl FHIR_BASE r) :: rqs_c
              ++ [PostBundle FHIR_BASE (transactionBundle (cancel ++ booking))]) <> []).
    { rewrite app_comm_cons, submitted_app. cbn. intros E. by apply app_eq_nil in E as [_ ?]. }
    destruct answers1 as [| [txRes |] ?]; [left; eauto | | left; eauto].
    destruct (ok txRes); [| left; eauto].
    destruct (json txRes) as [txResult | e | reply] eqn:Ej; cbn [obind]; [| left; eauto |].
    + destruct (read_result message txResult) as [reply | e | reply] eqn:Er;
        [right; eauto | left; eauto |].
      by apply read_result_no_return in Er.
    + pure_outcome Ej.
Qed.

Lemma cancel_existing_message existing answers cancel message rqs rest :
  play (cancel_existing FHIR_BASE positive_numeral existing) answers
    = (Normal (cancel, message), rqs, rest) ->
  exists total, get existing "total" = Normal total /\
    message = (if gt0 positive_numeral total then "預約已更新！" else "預約成功！") /\
    (cancel = [] <-> gt0 positive_numeral total = false).
Proof.
  unfold cancel_existing. intros H. exec H; try discriminate.
  all: injection H as <- <- <- <-; eexists; split; [reflexivity |].
  all: lazymatch goal with E : gt0 _ _ = _ |- _ => rewrite E end.
  all: split; [reflexivity |]; split; try done.
  all: cbn [app]; discriminate.
Qed.

Lemma read_result_booked message txResult reply :
  read_result message txResult = Normal reply ->
  exists id, reply = mkReply 200 (BookedBody message id).
Proof.
  unfold read_result. intros H.
  repeat match type of H with
  | obind ?x _ = _ => destruct x; cbn [obind] in H; try discriminate
  | (if ?b then _ else _) = _ => destruct b; try discriminate
  end.
  injection H as <-. eauto.
Qed.

(** X4: the message of a success reply tells whether a prior booking was
    superseded: it is [預約已更新！] when the appointment search answered
    with [total > 0], and [預約成功！] otherwise. *)
Theorem booked_message_tells_supersession
  bookingLocks req answers reply locks' rqs rest message id :
  play (book' bookingLocks req) answers = (reply, locks', rqs, rest) ->
  reply = mkReply 200 (BookedBody message id) ->
  exists conflictRes existing total,
    answer 4 answers = Some conflictRes /\ json conflictRes = Normal existing /\
    get existing "total" = Normal total /\
    message = (if gt0 positive_numeral total then "預約已更新！" else "預約成功！").
Proof.
  intros H Hreply.
  apply book_inv in H as [(_ & _ & _ & Hc) | (sid & o & _ & _ & _ & H & Hs & _)].
  { subst reply. cbn in Hc. lia. }
  assert (Hsub : submitted rqs <> []).
  { pose proof H as H'.
    apply book_try_inv in H'
      as [(r & _ & Hc & -> & _) | (personId & o1 & rqs1 & rest1 & _ & Hr & H')].
    { cbn in Hs. subst. cbn in Hc. lia. }
    destruct o1 as [[newSlot r] | e | r].
    - destruct H' as (rqs2 & H' & ->).
      apply book_resolved_outcome in H' as [[e ->] | (r' & -> & Hsub)].
      + subst reply. discriminate.
      + rewrite submitted_app. intros E. by apply app_eq_nil in E as [_ ?].
    - destruct H' as [-> _]. subst reply. discriminate.
    - destruct H' as [-> _]. apply resolve_returns_404 in Hr. cbn in Hs. subst.
      cbn in Hr. lia. }
  apply book_try_submission in H
    as (personId & newSlot & r & conflictRes & answers0 & existing & cancel & message'
        & rqs_c & answers1 & booking & _ & Hr & Hj & Hc & _ & _ & _ & He); [| exact Hsub].
  apply cancel_existing_message in Hc as (total & Ht & Hm & _).
  exists conflictRes, existing, total.
  split; [destruct Hr; subst answers; reflexivity |].
  split; [exact Hj |]. split; [exact Ht |].
  apply execute_inv in He as (_ & _ & ->). rewrite <- Hm.
  destruct answers1 as [| [txRes |] ?]; [subst; discriminate | | subst; discriminate].
  destruct (ok txRes); [| subst; discriminate].
  destruct (json txRes) as [txResult | e | r'] eqn:Ej; cbn [obind] in Hs.
  - destruct (read_result message' txResult) as [r' | e | r'] eqn:Er.
    + apply read_result_booked in Er as [id' ->]. cbn in Hs. congruence.
    + subst; discriminate.
    + by apply read_result_no_return in Er.
  - subst; discriminate.
  - pure_outcome Ej.
Qed.

(** X5: when the backend applies the posted bundle, the target slot is
    stored with status busy - whatever its status was, and also when it is
    the very slot that the bundle first frees - and the new appointment is
    stored under the next id, booked, on that slot. *)
Theorem transaction_busies_target_slot
  bookingLocks req answers reply locks' rqs rest bundle slotId'
  (st : gmap string val) next results st' next' results' :
  play (book' bookingLocks req) answers = (reply, locks', rqs, rest) ->
  slotId req = Some slotId' ->
  bundle ∈ submitted rqs ->
  apply_entries (st, next, results) (items (field bundle "entry"))
    = Some (st', next', results') ->
  (exists fs, st' !! ("Slot/" +:+ slotId') = Some (Obj fs) /\
              assoc "status" fs = Some (Str "busy")) /\
  (exists a, st' !! ("Appointment/" +:+ to_string (Num next)) = Some a /\
             field a "status" = Str "booked" /\
             field a "slot" = Arr [Obj [("reference", Str ("Slot/" +:+ slotId'))]]) /\
  next' = next + 1.
Proof.
  intros H Hid Hin Happly.
  assert (Hsub : submitted rqs <> []) by (intros E; rewrite E in Hin; by apply elem_of_nil in Hin).
  apply book_submission in H as (id & o & Hid' & _ & H); [| exact Hsub].
  rewrite Hid in Hid'. injection Hid' as <-.
  apply book_try_submission in H
    as (personId & newSlot & r & conflictRes & answers0 & existing & cancel & message
        & rqs_c & answers1 & booking & _ & _ & _ & Hc & Hb & Hs & _); [| exact Hsub].
  rewrite Hs in Hin. apply list_elem_of_singleton in Hin as ->. clear Hs.
  unfold book_entries in Hb.
  destruct (get newSlot "start") as [start | |]; try discriminate.
  destruct (get newSlot "end") as [end_ | |]; try discriminate.
  injection Hb as <-.
  change (items (field (transactionBundle ?l) "entry")) with l in Happly.
  assert (Hbook : forall st0 results0,
    apply_entries (st0, next, results0)
      [post_entry (new_appointment slotId' r start end_) "Appointment";
       put_entry (set_field "status" (Str "busy") (spread newSlot))
         (Str ("Slot/" +:+ slotId'))] = Some (st', next', results') ->
    (exists fs, st' !! ("Slot/" +:+ slotId') = Some (Obj fs) /\
                assoc "status" fs = Some (Str "busy")) /\
    (exists a, st' !! ("Appointment/" +:+ to_string (Num next)) = Some a /\
               field a "status" = Str "booked" /\
               field a "slot" = Arr [Obj [("reference", Str ("Slot/" +:+ slotId'))]]) /\
    next' = next + 1).
  { intros st0 results0 Hb. cbn in Hb. injection Hb as <- <- <-.
    split; [| split; [| reflexivity]].
    - eexists. rewrite lookup_insert_eq. split; [reflexivity |]. apply assoc_set_field.
    - eexists. rewrite lookup_insert_ne by apply slot_key_not_appointment.
      rewrite lookup_insert_eq. split; [reflexivity |]. split; reflexivity. }
  unfold cancel_existing in Hc. exec Hc; try discriminate.
  all: injection Hc as <- <- <- <-; cbn [app] in Happly.
  - destruct a2 as [| | | | url | |]; try (cbn in Happly; discriminate).
    exact (Hbook _ _ Happly).
  - exact (Hbook _ _ Happly).
  - exact (Hbook _ _ Happly).
  - exact (Hbook _ _ Happly).
Qed.

End MoreOfBook.

(** * The other handlers *)

Lemma play_try_fetch_nil {A} rq (k : option Response -> M A) :
  play (bind (try_fetch rq) k) [] = sent rq (play (k None) []).
Proof. reflexivity. Qed.

Lemma play_try_fetch_cons {A} rq (k : option Response -> M A) a t :
  play (bind (try_fetch rq) k) (a :: t) = sent rq (play (k a) t).
Proof. reflexivity. Qed.

(** One step of a handler, as [exec1], with the statements of the other
    handlers. *)
Ltac step1 H :=
  first
    [ exec1 H
    | lazymatch type of H with
      | play (bind (try_fetch _) _) ?answers = _ =>
          let r := fresh "r" in
          let rqs := fresh "rqs" in
          destruct answers as [| [r |] answers];
          [ rewrite play_try_fetch_nil in H | rewrite play_try_fetch_cons in H .. ];
          apply sent_inv in H as (rqs & -> & H); cbv beta iota in H
      | play (match ?x with _ => _ end) _ = _ =>
          let E := fresh "E" in destruct x eqn:E
      | play (bind (match ?x with _ => _ end) _) _ = _ =>
          let E := fresh "E" in destruct x eqn:E
      end ].

Ltac steps H := repeat step1 H; cbn [play throw return_ unit lift] in H.

Lemma find_system_no_return system l r : find_system system l <> Return r.
Proof.
  induction l as [| i l IH]; cbn [find_system]; [discriminate |].
  destruct (get i "system") as [s | |] eqn:E; cbn [obind]; [| discriminate |].
  - destruct (str_is s system); [discriminate | exact IH].
  - pure_outcome E.
Qed.

Lemma find_hash_no_return person r :
  obind (get person "identifier") (array_find_system PASSWORD_SYSTEM) <> Return r.
Proof.
  intros E.
  destruct (get person "identifier") as [v | |] eqn:Eg; cbn [obind] in E;
    [| discriminate | pure_outcome Eg].
  destruct v; cbn [array_find_system] in E; try discriminate.
  by apply find_system_no_return in E.
Qed.

Lemma map_array_returns {A} (f : val -> Outcome A) l r :
  map_array f l = Return r -> exists x r', f x = Return r'.
Proof.
  revert r. induction l as [| x l IH]; intros r; cbn [map_array]; [discriminate |].
  destruct (f x) as [y | |] eqn:Hx; cbn [obind]; [| discriminate | intros _; eauto].
  destruct (map_array f l) as [ys | | r0]; cbn [obind]; try discriminate.
  intros _. by apply (IH r0).
Qed.

(** No expression of the handlers evaluates to a [return]. *)
Ltac no_return_in E :=
  cbv beta zeta in E;
  lazymatch type of E with
  | Normal _ = Return _ => discriminate E
  | Throw _ = Return _ => discriminate E
  | obind ?o _ = Return _ =>
      let a := fresh "a" in
      let E' := fresh "E" in
      destruct o as [a | |] eqn:E'; cbn [obind] in E;
      [ no_return_in E | discriminate E | no_return_in E' ]
  | map_array _ _ = Return _ =>
      let x := fresh "x" in
      let r := fresh "r" in
      apply map_array_returns in E as (x & r & E); no_return_in E
  | find_system _ _ = Return _ => by apply find_system_no_return in E
  | (if ?b then _ else _) = Return _ => destruct b; no_return_in E
  | (match ?v with _ => _ end) = Return _ =>
      destruct v; try discriminate E; no_return_in E
  | _ =>
      first
        [ pure_outcome E
        | progress unfold appointment_item, schedule_name, schedule_reference,
            patient_reference, slot_item, practitioner_reference, registered_org,
            registered_org_ids, schedule_resources, array_find_system, array_of,
            array_or_empty, get0_opt in E;
          no_return_in E ]
  end.

Ltac no_return :=
  match goal with
  | E : _ = Return _ |- _ => exfalso; no_return_in E
  end.

Lemma encodeURIComponent_plain s :
  all_unreserved s = true -> encodeURIComponent s = s.
Proof.
  induction s as [| c s IH]; [reflexivity |].
  cbn [all_unreserved]. intros [Hc Hs]%andb_true_iff.
  change (encodeURIComponent (String c s))
    with (if unreserved c then String c (encodeURIComponent s)
          else String "%" (String (hex_digit (N_of_ascii c / 16))
                 (String (hex_digit (N_of_ascii c mod 16)) (encodeURIComponent s)))).
  rewrite Hc, (IH Hs). reflexivity.
Qed.

Lemma split_go_plain cur s :
  all_unreserved s = true -> split_go "/" cur s = [String.rev_app cur s].
Proof.
  revert cur. induction s as [| c s IH]; intros cur; [reflexivity |].
  cbn [all_unreserved split_go]. intros [Hc Hs]%andb_true_iff.
  destruct (Ascii.eqb_spec c "/") as [-> | _]; [discriminate |].
  rewrite (IH _ Hs). reflexivity.
Qed.

Lemma organization_reference_id org :
  all_unreserved org = true ->
  split_slash_1 (Str ("Organization/" +:+ org)) = Normal (Str org).
Proof.
  intros Hs. unfold split_slash_1, split. cbv [String.append].
  cbn [split_go Ascii.eqb Bool.eqb].
  rewrite (split_go_plain _ _ Hs). reflexivity.
Qed.

Lemma schedule_reference_id sch :
  all_unreserved sch = true ->
  split_slash_1 (Str ("Schedule/" +:+ sch)) = Normal (Str sch).
Proof.
  intros Hs. unfold split_slash_1, split. cbv [String.append].
  cbn [split_go Ascii.eqb Bool.eqb].
  rewrite (split_go_plain _ _ Hs). reflexivity.
Qed.

Lemma map_array_item {A} (f : val -> Outcome A) l ys x :
  map_array f l = Normal ys -> x ∈ l -> exists y, y ∈ ys /\ f x = Normal y.
Proof.
  revert ys. induction l as [| x0 l IH]; intros ys; cbn [map_array].
  - intros _ Hin. by apply elem_of_nil in Hin.
  - destruct (f x0) as [y0 | |] eqn:Hx; cbn [obind]; try discriminate.
    destruct (map_array f l) as [ys0 | |]; cbn [obind]; try discriminate.
    intros [= <-] [-> | Hin]%elem_of_cons.
    + exists y0. split; [left | exact Hx].
    + destruct (IH ys0 eq_refl Hin) as (y & Hin' & Hy). exists y. split; [by right | exact Hy].
Qed.

(** What the list of appointments shows of an appointment as the booking
    handler creates it, once the backend gave it an id. *)
Lemma booked_appointment_item scheduleNames e slotId r start end_ id sch :
  get e "resource"
    = Normal (Obj (set_field "id" (Str id) (new_appointment slotId r start end_))) ->
  scheduleRef r = Str ("Schedule/" +:+ sch) -> all_unreserved sch = true ->
  appointment_item scheduleNames e
  = Normal (Obj [("appointmentId", Str id); ("scheduleId", Str sch);
                 ("scheduleName",
                   or_else (map_get scheduleNames (Str sch)) (Str "（無法載入名稱）"));
                 ("start", start); ("end", end_); ("status", Str "booked")]).
Proof.
  intros He Hr Hs. unfold appointment_item. rewrite He. cbn [obind].
  cbn [new_appointment set_field String.eqb Ascii.eqb Bool.eqb get assoc default
       from_option Datatypes.id obind get0_opt get0 head get_opt].
  rewrite Hr. rewrite (schedule_reference_id _ Hs). cbn [obind]. cbv zeta.
  assert (Hor : or_else (Str sch) (Str "") = Str sch).
  { unfold or_else. cbn [truthy]. destruct (String.eqb_spec sch "") as [-> | _]; reflexivity. }
  rewrite !Hor. reflexivity.
Qed.

Section AccountProperties.

Variable FHIR_BASE : string.
Variable JWT_SECRET : string.
Variable jwt_verify : val -> string -> option val.
Variable positive_numeral : string -> bool.
Variable jwt_sign : val -> string -> string -> Exn + string.
Variable bcrypt_hash : val -> Exn + string.
Variable bcrypt_compare : val -> val -> Exn + bool.
Variable sendResetEmail : val -> string -> Exn + ().
Variable response_text : Response -> string.

Local Abbreviation login' := (login FHIR_BASE JWT_SECRET jwt_verify jwt_sign bcrypt_compare).

(** ** Login *)

(** X6: a login with a post-registration token that [jwt.verify] rejects,
    or whose purpose is not [post-registration] - a login token, a
    password-reset token - is answered 401, sets no cookie and makes no
    request to the backend. *)
Theorem login_token_needs_purpose email password postRegistrationToken answers :
  truthy postRegistrationToken = true ->
  (forall payload,
     jwt_verify postRegistrationToken JWT_SECRET = Some payload ->
     get payload "purpose" <> Normal (Str "post-registration")) ->
  exists reply,
    play (login' email password postRegistrationToken) answers = (reply, [], answers) /\
    http_status reply = 401 /\ http_cookie reply = None.
Proof.
  intros Ht Hp. unfold login. rewrite Ht. cbn [play]. eexists. split; [reflexivity |].
  unfold login_by_token.
  destruct (jwt_verify postRegistrationToken JWT_SECRET) as [payload |] eqn:Hv;
    [| split; reflexivity].
  specialize (Hp payload eq_refl).
  destruct (get payload "purpose") as [purpose | e | r] eqn:Hg; cbn [obind respond];
    [| split; reflexivity | pure_outcome Hg].
  destruct (str_is purpose "post-registration") eqn:Hs; cbn [negb];
    [| split; reflexivity].
  destruct purpose; try discriminate. cbn in Hs. apply String.eqb_eq in Hs. subst.
  by destruct Hp.
Qed.

Lemma login_by_password_inv email password answers o rqs rest :
  play (login_by_password FHIR_BASE JWT_SECRET jwt_sign bcrypt_compare email password)
    answers = (o, rqs, rest) ->
  match o with
  | Normal reply =>
      reply = error_reply 400 "請提供 Email 和密碼" /\ rqs = [] \/
      reply = error_reply 401 "Email 或密碼錯誤" \/
      reply = error_reply 500 "使用者帳號設定不完整，缺少密碼資訊" \/
      exists searchRes searchData person hashEntry hash id loginToken,
        answers = Some searchRes :: rest /\
        rqs = [Get (person_search_url FHIR_BASE email)] /\
        json searchRes = Normal searchData /\
        entry0_resource searchData = Normal person /\
        obind (get person "identifier") (array_find_system PASSWORD_SYSTEM)
          = Normal hashEntry /\
        get hashEntry "value" = Normal hash /\
        bcrypt_compare password hash = inr true /\
        get person "id" = Normal id /\
        jwt_sign (Obj [("id", id)]) JWT_SECRET "1h" = inr loginToken /\
        reply = logged_in loginToken "登入成功"
  | Throw _ => True
  | Return _ => False
  end.
Proof.
  unfold login_by_password. intros H. steps H.
  all: injection H as <- <- <-; try exact I; eauto 10.
  all: try no_return.
  right. right. right.
  repeat match goal with
  | E : settled ?x = Normal _ |- _ =>
      destruct x eqn:?; cbn [settled] in E; [discriminate | injection E as ->]
  end.
  subst. exists r, a, a1, a2, a3, a5, a6. repeat split; assumption.
Qed.

(** X7: a login reply sets the [token] cookie only with status 200, and
    only in two cases: the post-registration token verified with purpose
    [post-registration], and then no request was made; or the person
    search was answered and [bcrypt.compare] accepted the password against
    the value of the person's password identifier.  The cookie is signed
    for the id of that token, or of that person. *)
Theorem login_cookie_needs_proof
  email password postRegistrationToken answers reply rqs rest loginToken :
  play (login' email password postRegistrationToken) answers = (reply, rqs, rest) ->
  http_cookie reply = Some loginToken ->
  http_status reply = 200 /\
  ((exists payload id,
      truthy postRegistrationToken = true /\
      jwt_verify postRegistrationToken JWT_SECRET = Some payload /\
      get payload "purpose" = Normal (Str "post-registration") /\
      get payload "id" = Normal id /\
      jwt_sign (Obj [("id", id)]) JWT_SECRET "1h" = inr loginToken /\
      rqs = []) \/
   (exists searchRes searchData person hashEntry hash id,
      truthy postRegistrationToken = false /\
      answers = Some searchRes :: rest /\
      rqs = [Get (person_search_url FHIR_BASE email)] /\
      json searchRes = Normal searchData /\
      entry0_resource searchData = Normal person /\
      obind (get person "identifier") (array_find_system PASSWORD_SYSTEM)
        = Normal hashEntry /\
      get hashEntry "value" = Normal hash /\
      bcrypt_compare password hash = inr true /\
      get person "id" = Normal id /\
      jwt_sign (Obj [("id", id)]) JWT_SECRET "1h" = inr loginToken)).
Proof.
  unfold login. intros H Hc.
  destruct (truthy postRegistrationToken) eqn:Ht.
  - cbn [play] in H. injection H as <- <- <-. unfold login_by_token in *.
    destruct (jwt_verify postRegistrationToken JWT_SECRET) as [payload |] eqn:Hv;
      [| discriminate].
    destruct (get payload "purpose") as [purpose | e | r] eqn:Hg; cbn [obind respond] in *;
      [| discriminate | pure_outcome Hg].
    destruct (str_is purpose "post-registration") eqn:Hs; cbn [negb] in *; [| discriminate].
    destruct purpose; try discriminate. cbn in Hs. apply String.eqb_eq in Hs. subst s.
    destruct (get payload "id") as [id | e | r] eqn:Hi; cbn [obind respond] in *;
      [| discriminate | pure_outcome Hi].
    destruct (jwt_sign (Obj [("id", id)]) JWT_SECRET "1h") as [e | t] eqn:Hsign;
      cbn [settled obind respond] in *; [discriminate |].
    injection Hc as ->. split; [reflexivity |]. left. exists payload, id. done.
  - rewrite play_io_bind in H.
    destruct (play (login_by_password _ _ _ _ email password) answers)
      as [[o rqs0] rest0] eqn:Hp.
    cbn [play] in H. rewrite app_nil_r in H. injection H as <- <- <-.
    apply login_by_password_inv in Hp.
    destruct o as [r | e | r]; [| discriminate | done].
    cbn [respond] in Hc.
    destruct Hp as [[-> _] | [-> | [-> | (searchRes & searchData & person & hashEntry
      & hash & id & t & -> & -> & Hj & He & Hf & Hv & Hcmp & Hid & Hsign & ->)]]];
      try discriminate.
    injection Hc as ->. split; [reflexivity |]. right.
    exists searchRes, searchData, person, hashEntry, hash, id. done.
Qed.

Lemma password_login_401 email password postRegistrationToken answers reply rqs rest :
  truthy postRegistrationToken = false ->
  play (login' email password postRegistrationToken) answers = (reply, rqs, rest) ->
  http_status reply = 401 ->
  reply = error_reply 401 "Email 或密碼錯誤".
Proof.
  unfold login. intros -> H Hs. rewrite play_io_bind in H.
  destruct (play (login_by_password _ _ _ _ email password) answers)
    as [[o rqs0] rest0] eqn:Hp.
  cbn [play] in H. injection H as <- _ _.
  apply login_by_password_inv in Hp.
  destruct o as [r | e | r]; [| discriminate | done].
  cbn [respond] in *.
  destruct Hp as [[-> _] | [-> | [-> | (? & ? & ? & ? & ? & ? & ? & _ & _ & _ & _ & _
    & _ & _ & _ & _ & ->)]]]; try discriminate.
  reflexivity.
Qed.

(** X8: on the password path every 401 reply is the same one: the reply
    does not tell an unknown email from a wrong password. *)
Theorem login_failures_alike
  email password tok answers reply rqs rest
  email' password' tok' answers' reply' rqs' rest' :
  truthy tok = false -> truthy tok' = false ->
  play (login' email password tok) answers = (reply, rqs, rest) ->
  play (login' email' password' tok') answers' = (reply', rqs', rest') ->
  http_status reply = 401 -> http_status reply' = 401 ->
  reply = reply'.
Proof.
  intros Ht Ht' H H' Hs Hs'.
  rewrite (password_login_401 _ _ _ _ _ _ _ Ht H Hs).
  rewrite (password_login_401 _ _ _ _ _ _ _ Ht' H' Hs'). reflexivity.
Qed.

(** ** Password reset *)

Lemma request_reset_200 email answers reply rqs rest :
  play (request_reset FHIR_BASE JWT_SECRET jwt_sign sendResetEmail email) answers
    = (reply, rqs, rest) ->
  http_status reply = 200 ->
  reply = reset_requested.
Proof.
  unfold request_reset. intros H Hs.
  destruct (truthy email); cbn [negb] in H.
  2: { injection H as <- _ _. discriminate. }
  rewrite play_io_bind in H.
  destruct (play (request_reset_try _ _ _ _ email) answers) as [[o rqs0] rest0] eqn:Hp.
  cbn [play] in H. injection H as <- _ _.
  unfold request_reset_try in Hp. steps Hp.
  all: injection Hp as <- _ _; cbn [respond] in *; try discriminate; try reflexivity.
  all: no_return.
Qed.

(** X9: every 200 reply of [POST /api/request-reset] is the same one,
    whether the email is registered or not. *)
Theorem reset_request_hides_registration
  email answers reply rqs rest email' answers' reply' rqs' rest' :
  play (request_reset FHIR_BASE JWT_SECRET jwt_sign sendResetEmail email) answers
    = (reply, rqs, rest) ->
  play (request_reset FHIR_BASE JWT_SECRET jwt_sign sendResetEmail email') answers'
    = (reply', rqs', rest') ->
  http_status reply = 200 -> http_status reply' = 200 ->
  reply = reply'.
Proof.
  intros H H' Hs Hs'.
  rewrite (request_reset_200 _ _ _ _ _ H Hs), (request_reset_200 _ _ _ _ _ H' Hs').
  reflexivity.
Qed.

(** ** The caller's patient record *)

(** X12: with a valid token, [GET /api/patient] makes exactly one
    request, the patient search, and answers 502 exactly when that fetch
    rejected or was answered with a status outside 200-299. *)
Theorem patient_lookup_backend_failure
  tok queryOrganizationId queryManagingOrganization payload personId answers o rqs rest :
  truthy tok = true -> jwt_verify tok JWT_SECRET = Some payload ->
  get payload "id" = Normal personId ->
  play (get_patient FHIR_BASE JWT_SECRET jwt_verify tok queryOrganizationId
          queryManagingOrganization) answers = (o, rqs, rest) ->
  rqs = [Get (patient_url FHIR_BASE personId
                (or_else queryOrganizationId queryManagingOrganization))] /\
  ((exists reply, o = Normal reply /\ http_status reply = 502) <->
   (forall fhirRes, answer 0 answers = Some fhirRes -> ok fhirRes = false)).
Proof.
  unfold get_patient. intros Ht Hv Hid H. rewrite Ht, Hv in H. cbn [negb] in H.
  rewrite play_lift, Hid in H. cbv zeta in H. steps H.
  all: injection H as <- <- <-; (split; [reflexivity |]); positions.
  all: split;
    [ intros (reply & Hr & Hs); try discriminate;
      try (injection Hr as <-; cbn in Hs; try destruct (truthy _); discriminate);
      intros fhirRes Ha; positions; try discriminate; try assumption
    | intros Hall; try (eexists; split; reflexivity);
      try (specialize (Hall _ eq_refl); congruence) ].
Qed.

(** X13: [POST /api/patient] answers 409 and posts nothing when the
    duplicate check finds a record ([total > 0]); a Patient is posted only
    for an authenticated caller, after the check found none, once, and it
    is the record built from the caller's person id, the organization and
    the email. *)
Theorem patient_created_after_check tok organizationId email answers o rqs rest :
  play (post_patient FHIR_BASE JWT_SECRET jwt_verify positive_numeral
          tok organizationId email) answers = (o, rqs, rest) ->
  (forall chkRes chk total,
     answer 0 answers = Some chkRes -> json chkRes = Normal chk ->
     get chk "total" = Normal total -> gt0 positive_numeral total = true ->
     asked 0 rqs ->
     o = Normal (error_reply 409 "已在此組織註冊") /\ submitted rqs = []) /\
  (forall resource,
     resource ∈ submitted rqs ->
     exists pid chkRes chk total,
       authenticate JWT_SECRET jwt_verify tok = Normal pid /\
       answer 0 answers = Some chkRes /\ json chkRes = Normal chk /\
       get chk "total" = Normal total /\ gt0 positive_numeral total = false /\
       resource = new_patient pid organizationId email /\
       submitted rqs = [resource]).
Proof.
  unfold post_patient. intros H. steps H.
  all: injection H as <- <- <-.
  all: split;
    [ intros chkRes chk total Ha Hj Hg Hgt Hask; positions; same_reads;
      try absurd_path; try (split; reflexivity)
    | intros resource Hin; cbn in Hin;
      try (by apply elem_of_nil in Hin);
      apply list_elem_of_singleton in Hin as -> ].
  all: eexists _, _, _, _; repeat (split; [eassumption || reflexivity |]); reflexivity.
Qed.

(** The fourth request of the booking chain is the search of the
    caller's patient record in the organization of the role binding. *)
Lemma resolve_patient_search slotId personId answers o rqs rest :
  play (resolve FHIR_BASE slotId personId) answers = (o, rqs, rest) ->
  asked 3 rqs ->
  exists prRoleRes prRoleBundle orgRef organizationId,
    answer 2 answers = Some prRoleRes /\ json prRoleRes = Normal prRoleBundle /\
    organization_reference prRoleBundle = Normal orgRef /\
    split_slash_1 orgRef = Normal organizationId /\
    rqs !! 3%nat = Some (Get
      (FHIR_BASE +:+ "/Patient?identifier=http://example.org/fhir/person|"
         +:+ encodeURIComponent (to_string personId)
         +:+ "&organization=Organization/" +:+ to_string organizationId)).
Proof.
  unfold resolve, resolve_from_slot. intros H Hask. exec H.
  all: injection H as <- <- <-; unfold asked in Hask; cbn [length] in Hask; try lia.
  all: eexists _, _, _, _; repeat (split; [eassumption || reflexivity |]); reflexivity.
Qed.

Lemma authenticate_normal tok personId :
  authenticate JWT_SECRET jwt_verify tok = Normal personId ->
  truthy tok = true /\
  exists claims, jwt_verify tok JWT_SECRET = Some claims /\ get claims "id" = Normal personId.
Proof.
  unfold authenticate. destruct (truthy tok); cbn [negb]; [| discriminate].
  destruct (jwt_verify tok JWT_SECRET) as [claims |]; [| discriminate].
  destruct (get claims "id") eqn:Hg; try discriminate.
  intros [= <-]. eauto.
Qed.

(** X14: the booking handler looks the caller's patient record up with
    the very request by which [POST /api/patient] checks for a duplicate
    and by which [GET /api/patient?organizationId=] reads the record, when
    the role binding names the organization as [Organization/<org>] and
    [org] is made of unreserved characters. *)
Theorem booking_searches_registered_patient
  bookingLocks req answers reply locks' rqs rest prRoleRes prRoleBundle org email answers' :
  play (book FHIR_BASE JWT_SECRET jwt_verify positive_numeral bookingLocks req) answers
    = (reply, locks', rqs, rest) ->
  asked 3 rqs ->
  answer 2 answers = Some prRoleRes -> json prRoleRes = Normal prRoleBundle ->
  organization_reference prRoleBundle = Normal (Str ("Organization/" +:+ org)) ->
  all_unreserved org = true -> org <> "" -> truthy email = true ->
  head (play (post_patient FHIR_BASE JWT_SECRET jwt_verify positive_numeral
                (token req) (Str org) email) answers').1.2
  = rqs !! 3%nat /\
  head (play (get_patient FHIR_BASE JWT_SECRET jwt_verify
                (token req) (Str org) Undefined) answers').1.2
  = rqs !! 3%nat.
Proof.
  intros H Hask Ha Hj Ho Hplain Hne Hemail.
  apply book_inv in H as [(-> & _) | (id & o & _ & _ & _ & H & _ & _)].
  { unfold asked in Hask. cbn in Hask. lia. }
  apply book_try_inv in H
    as [(r & _ & _ & _ & ->) | (personId & o1 & rqs1 & rest1 & Hauth & Hr & H)].
  { unfold asked in Hask. cbn in Hask. lia. }
  pose proof (resolve_inv _ _ _ _ _ _ _ Hr) as (_ & Hlen & Hn).
  assert (Hask1 : asked 3 rqs1 /\ rqs !! 3%nat = rqs1 !! 3%nat).
  { destruct o1 as [[newSlot r] | e | r].
    - destruct H as (rqs2 & _ & ->). destruct Hn as [_ Hl].
      split; [unfold asked; lia |]. apply lookup_app_l. lia.
    - destruct H as [_ ->]. done.
    - destruct H as [_ ->]. done. }
  destruct Hask1 as [Hask1 ->].
  apply resolve_patient_search in Hr
    as (prRoleRes' & prRoleBundle' & orgRef & organizationId & Ha' & Hj' & Ho' & Hs & ->);
    [| exact Hask1].
  same_reads. rewrite organization_reference_id in Hs by exact Hplain.
  injection Hs as <-.
  assert (Htr : truthy (Str org) = true).
  { cbn. destruct (String.eqb_spec org ""); done. }
  split.
  - unfold post_patient. rewrite play_lift, Hauth.
    rewrite Htr, Hemail. cbn [negb orb]. cbv zeta.
    change (to_string (Str org)) with org. rewrite (encodeURIComponent_plain _ Hplain).
    destruct answers' as [| [r |] answers'];
      [ rewrite play_fetch_nil | rewrite play_fetch_some | rewrite play_fetch_none ];
      try reflexivity.
    destruct (play _ answers') as [[o' rqs'] rest']. reflexivity.
  - apply authenticate_normal in Hauth as (Htok & claims & Hv & Hid).
    unfold get_patient. rewrite Htok, Hv. cbn [negb].
    rewrite play_lift, Hid. cbv zeta.
    unfold patient_url, or_else. rewrite Htr. cbv beta iota. rewrite Htr.
    change (to_string (Str org)) with org. rewrite (encodeURIComponent_plain _ Hplain).
    destruct answers' as [| a answers'];
      [ rewrite play_try_fetch_nil | rewrite play_try_fetch_cons ].
    + destruct (play _ []) as [[o' rqs'] rest']. reflexivity.
    + destruct (play _ answers') as [[o' rqs'] rest']. reflexivity.
Qed.

(** ** The schedules of an organization *)

Lemma map_array_elem {A} (f : val -> Outcome A) l ys y :
  map_array f l = Normal ys -> y ∈ ys -> exists x, x ∈ l /\ f x = Normal y.
Proof.
  revert ys. induction l as [| x l IH]; intros ys; cbn [map_array].
  - intros [= <-] Hin. by apply elem_of_nil in Hin.
  - destruct (f x) as [y0 | |] eqn:Hx; cbn [obind]; try discriminate.
    destruct (map_array f l) as [ys0 | |]; cbn [obind]; try discriminate.
    intros [= <-] [-> | Hin]%elem_of_cons.
    + exists x. split; [left | exact Hx].
    + destruct (IH ys0 eq_refl Hin) as (x' & Hin' & Hx'). exists x'. split; [by right | exact Hx'].
Qed.

Lemma registered_org_shape e id :
  registered_org e = Normal id -> id = Null \/ id = Undefined \/ exists s, id = Str s.
Proof.
  unfold registered_org. intros H.
  destruct (get e "resource") as [resource | |]; cbn [obind] in H; try discriminate.
  destruct (get_opt resource "managingOrganization") as [mo | |]; cbn [obind] in H;
    try discriminate.
  destruct (get_opt mo "reference") as [orgRef | |]; cbn [obind] in H; try discriminate.
  destruct (truthy orgRef); [| injection H as <-; by left].
  destruct orgRef; try discriminate. cbn in H. injection H as <-.
  destruct (split "/" s !! 1%nat); cbn; eauto.
Qed.

Lemma includes_registered entries ids selectedOrgId :
  registered_org_ids entries = Normal ids ->
  truthy selectedOrgId = true -> includes ids selectedOrgId = true ->
  exists e org, e ∈ entries /\ registered_org e = Normal (Str org) /\ selectedOrgId = Str org.
Proof.
  unfold registered_org_ids, includes. intros Hids Ht Hin.
  destruct (map_array registered_org entries) as [all | |] eqn:Hall; cbn [obind] in Hids;
    try discriminate.
  injection Hids as <-.
  apply existsb_exists in Hin as (id & Hid & Heq).
  apply List.filter_In in Hid as [Hid _]. apply list_elem_of_In in Hid.
  destruct (map_array_elem _ _ _ _ Hall Hid) as (e & He & Hr).
  exists e. destruct (registered_org_shape _ _ Hr) as [-> | [-> | [s ->]]].
  - destruct selectedOrgId; discriminate.
  - destruct selectedOrgId; discriminate.
  - destruct selectedOrgId; try discriminate. cbn in Heq. apply String.eqb_eq in Heq as ->.
    eauto.
Qed.

(** X15: [GET /api/schedules] goes on to the role and schedule searches
    only when the patient search was answered ok and lists a patient of
    the caller whose [managingOrganization.reference] has the selected
    organization id as its second segment. *)
Theorem schedules_need_registration selectedOrgId tok answers o rqs rest :
  play (schedules_of_organization FHIR_BASE JWT_SECRET jwt_verify selectedOrgId tok)
    answers = (o, rqs, rest) ->
  asked 1 rqs ->
  exists patientRes patientBundle entries e org,
    answer 0 answers = Some patientRes /\ ok patientRes = true /\
    json patientRes = Normal patientBundle /\
    get patientBundle "entry" = Normal (Arr entries) /\
    e ∈ entries /\ registered_org e = Normal (Str org) /\
    selectedOrgId = Str org.
Proof.
  unfold schedules_of_organization. intros H Hask.
  do 8 (try step1 H); cbn [play throw return_ unit lift] in H.
  all: try (injection H as <- <- <-; unfold asked in Hask; cbn in Hask; lia).
  all: clear H Hask.
  all: lazymatch goal with
  | E : obind (obind (get ?b "entry") array_or_empty) registered_org_ids = Normal ?ids,
    Ei : includes ?ids ?sel = true, Et : truthy ?sel = true |- _ =>
      destruct (get b "entry") as [entry | |] eqn:He; cbn [obind] in E; try discriminate;
      destruct (array_or_empty entry) as [entries | |] eqn:Ha; cbn [obind] in E;
        try discriminate;
      destruct (includes_registered _ _ _ E Et Ei) as (e & org & Hin & Hr & ->);
      lazymatch goal with
      | Ej : json ?res = Normal b |- _ => exists res, b, entries, e, org
      end
  end.
  all: assert (entry = Arr entries) as ->
    by (unfold array_or_empty in Ha; destruct (truthy entry) eqn:Ht;
        [ destruct entry; try discriminate; by injection Ha as ->
        | injection Ha as <-; by apply elem_of_nil in Hin ]).
  all: repeat split; assumption || reflexivity.
Qed.

Lemma includes_of_registered entries ids e org :
  registered_org_ids entries = Normal ids -> e ∈ entries ->
  registered_org e = Normal (Str org) ->
  includes ids (Str org) = true.
Proof.
  unfold registered_org_ids, includes. intros Hids Hin Hr.
  destruct (map_array registered_org entries) as [all | |] eqn:Hall; cbn [obind] in Hids;
    try discriminate.
  injection Hids as <-.
  destruct (map_array_item _ _ _ _ Hall Hin) as (y & Hy & Hr'). rewrite Hr in Hr'.
  injection Hr' as <-.
  apply existsb_exists. exists (Str org). split.
  - apply List.filter_In. split; [by apply list_elem_of_In | reflexivity].
  - cbn. apply String.eqb_refl.
Qed.

(** The patient record that [POST /api/patient] posts names its
    organization the way the authorization of [GET /api/schedules] reads
    it, also after the backend added fields of its own. *)
Lemma new_patient_registered pid org email extra :
  all_unreserved org = true ->
  registered_org
    (Obj [("resource",
           Obj (spread (new_patient pid (Str org) email) ++ extra))])
  = Normal (Str org).
Proof.
  intros Hplain. unfold registered_org, new_patient.
  cbn [get assoc String.eqb Ascii.eqb Bool.eqb default from_option Datatypes.id obind
       spread app get_opt].
  change (to_string (Str org)) with org.
  cbn [truthy]. change (String.eqb ("Organization/" +:+ org) "") with false.
  cbn [negb]. apply organization_reference_id, Hplain.
Qed.

(** X20: a patient record as [POST /api/patient] creates it for an
    organization opens the schedules of that organization to its person:
    when the patient search of [GET /api/schedules] lists it, the handler
    goes on to the role search of that organization. *)
Theorem registered_patient_sees_schedules
  tok org answers o rqs rest personId patientRes patientBundle entries ids pid email extra :
  play (schedules_of_organization FHIR_BASE JWT_SECRET jwt_verify (Str org) tok)
    answers = (o, rqs, rest) ->
  authenticate JWT_SECRET jwt_verify tok = Normal personId ->
  answer 0 answers = Some patientRes -> ok patientRes = true ->
  json patientRes = Normal patientBundle ->
  get patientBundle "entry" = Normal (Arr entries) ->
  registered_org_ids entries = Normal ids ->
  Obj [("resource", Obj (spread (new_patient pid (Str org) email) ++ extra))] ∈ entries ->
  all_unreserved org = true -> org <> "" ->
  rqs !! 1%nat
  = Some (Get (FHIR_BASE +:+ "/PractitionerRole?organization=Organization/" +:+ org)).
Proof.
  unfold schedules_of_organization.
  intros H Hauth Ha Hok Hj Hentry Hids Hin Hplain Hne.
  assert (Hinc : includes ids (Str org) = true).
  { eapply includes_of_registered; [exact Hids | exact Hin |].
    by apply new_patient_registered. }
  assert (Htr : truthy (Str org) = true).
  { cbn. destruct (String.eqb_spec org ""); done. }
  rewrite Htr in H. cbn [negb] in H. rewrite play_lift, Hauth in H. cbv zeta in H.
  destruct answers as [| [r |] answers]; try discriminate Ha.
  rewrite answer_0 in Ha. injection Ha as ->.
  rewrite play_fetch_some in H. apply sent_inv in H as (rqs1 & -> & H).
  rewrite Hok in H. cbn [negb] in H. rewrite play_lift, Hj in H.
  rewrite play_lift, Hentry in H. cbn [obind array_or_empty truthy] in H.
  rewrite Hids, Hinc in H. cbn [negb] in H.
  change (to_string (Str org)) with org in H.
  destruct answers as [| [r |] answers];
    [ rewrite play_fetch_nil in H | rewrite play_fetch_some in H
    | rewrite play_fetch_none in H ].
  - by injection H as <- <- <-.
  - by apply sent_inv in H as (rqs2 & -> & H).
  - by injection H as <- <- <-.
Qed.

(** ** Registration *)

Local Abbreviation register' :=
  (register FHIR_BASE JWT_SECRET positive_numeral jwt_sign bcrypt_hash response_text).

Lemma register_inv name email password answers reply rqs rest :
  play (register' name email password) answers = (reply, rqs, rest) ->
  (reply = error_reply 400 "姓名、Email 和密碼皆為必填" /\ rqs = []) \/
  exists o,
    play (register_try FHIR_BASE JWT_SECRET positive_numeral jwt_sign bcrypt_hash
            response_text name email password) answers = (o, rqs, rest) /\
    reply = respond
      (fun e => mkHttp 500 None (Failure "註冊過程中發生內部錯誤" (MessageOf e))) o.
Proof.
  unfold register. intros H.
  destruct (negb (truthy name) || negb (truthy email) || negb (truthy password)).
  - injection H as <- <- <-. by left.
  - rewrite play_io_bind in H.
    destruct (play (register_try _ _ _ _ _ _ name email password) answers)
      as [[o rqs0] rest0] eqn:Hp.
    cbn [play] in H. rewrite app_nil_r in H. injection H as <- <- <-. right. eauto.
Qed.

(** X16: [POST /api/register] answers 409 and posts nothing when the
    email search finds a person ([total > 0]); a Person is posted only
    after the search found none, once, and its password entry holds what
    [bcrypt.hash] returned. *)
Theorem person_created_after_check name email password answers reply rqs rest :
  play (register' name email password) answers = (reply, rqs, rest) ->
  (forall checkRes checkData total,
     answer 0 answers = Some checkRes -> json checkRes = Normal checkData ->
     get checkData "total" = Normal total -> gt0 positive_numeral total = true ->
     asked 0 rqs ->
     reply = error_reply 409 "此 Email 已被註冊" /\ submitted rqs = []) /\
  (forall resource,
     resource ∈ submitted rqs ->
     exists checkRes checkData total hashedPassword,
       answer 0 answers = Some checkRes /\ json checkRes = Normal checkData /\
       get checkData "total" = Normal total /\ gt0 positive_numeral total = false /\
       bcrypt_hash password = inr hashedPassword /\
       resource = new_person name email hashedPassword /\
       submitted rqs = [resource]).
Proof.
  intros H. apply register_inv in H as [[-> ->] | (o & H & ->)].
  { split; [intros ? ? ? _ _ _ _ Hask; unfold asked in Hask; cbn in Hask; lia |].
    intros resource Hin. by apply elem_of_nil in Hin. }
  unfold register_try in H. steps H.
  all: injection H as <- <- <-.
  all: split;
    [ intros checkRes checkData total Ha Hj Hg Hgt Hask; positions; same_reads;
      try absurd_path; try (split; reflexivity)
    | intros resource Hin; cbn in Hin;
      try (by apply elem_of_nil in Hin);
      apply list_elem_of_singleton in Hin as -> ].
  all: repeat match goal with
       | E : settled ?x = Normal _ |- _ =>
           destruct x eqn:?; cbn [settled] in E; [discriminate | injection E as ->]
       | E : settled ?x = Throw _ |- _ =>
           destruct x eqn:?; cbn [settled] in E; [injection E as -> | discriminate]
       | E : settled ?x = Return _ |- _ => destruct x; discriminate
       end.
  all: eexists _, _, _, _; repeat (split; [eassumption || reflexivity |]); reflexivity.
Qed.

(** X17: the token in a 201 reply of the registration is signed for the
    id of the new person with purpose [post-registration]; presented to
    the login, where [jwt.verify] gives that id and purpose back, it sets
    the login cookie for the same id without a request to the backend. *)
Theorem registration_token_logs_in name email password answers reply rqs rest :
  play (register' name email password) answers = (reply, rqs, rest) ->
  http_status reply = 201 ->
  exists id postRegistrationToken,
    http_body reply
      = Json (Obj [("message", Str "註冊成功"); ("personId", id);
                   ("postRegistrationToken", Str postRegistrationToken)]) /\
    jwt_sign (Obj [("id", id); ("purpose", Str "post-registration")]) JWT_SECRET "5m"
      = inr postRegistrationToken /\
    forall claims loginToken email' password' answers',
      postRegistrationToken <> "" ->
      jwt_verify (Str postRegistrationToken) JWT_SECRET = Some claims ->
      get claims "purpose" = Normal (Str "post-registration") ->
      get claims "id" = Normal id ->
      jwt_sign (Obj [("id", id)]) JWT_SECRET "1h" = inr loginToken ->
      play (login' email' password' (Str postRegistrationToken)) answers'
      = (logged_in loginToken "註冊後自動登入成功", [], answers').
Proof.
  intros H Hs. apply register_inv in H as [[-> ->] | (o & H & ->)]; [discriminate |].
  unfold register_try in H. steps H.
  all: injection H as <- <- <-; cbn [respond] in Hs; try discriminate.
  all: try no_return.
  lazymatch goal with
  | E : settled (jwt_sign (Obj [("id", ?id); _]) _ _) = Normal ?t |- _ =>
      exists id, t; destruct (jwt_sign (Obj [("id", id); ("purpose", Str "post-registration")])
                                JWT_SECRET "5m") eqn:Hsign;
      cbn [settled] in E; [discriminate | injection E as ->]
  end.
  split; [reflexivity |]. split; [reflexivity |].
  intros claims loginToken email' password' answers' Hne Hv Hp Hid Hl.
  unfold login. cbn [truthy]. rewrite (proj2 (String.eqb_neq _ _) Hne). cbn [negb play].
  unfold login_by_token. rewrite Hv, Hp. cbn [obind str_is].
  rewrite String.eqb_refl. cbn [negb]. rewrite Hid. cbn [obind]. rewrite Hl. reflexivity.
Qed.

(** X21: the login reads the password hash where the registration put
    it: on the person record that [POST /api/register] posted, as the
    search gives it back, [bcrypt.compare] is asked about the password
    and the hash that [bcrypt.hash] returned at registration, and the
    cookie is set exactly when it accepts. *)
Theorem login_compares_registered_hash
  email password searchRes searchData total name email0 hashedPassword extra rest :
  truthy email = true -> truthy password = true ->
  json searchRes = Normal searchData ->
  get searchData "total" = Normal total -> is0 total = false ->
  entry0_resource searchData
    = Normal (Obj (spread (new_person name email0 hashedPassword) ++ extra)) ->
  play (login' email password Undefined) (Some searchRes :: rest)
  = (match bcrypt_compare password (Str hashedPassword) with
     | inr true =>
         match jwt_sign (Obj [("id", default Undefined (assoc "id" extra))])
                 JWT_SECRET "1h" with
         | inr loginToken => logged_in loginToken "登入成功"
         | inl e => mkHttp 500 None (Failure "登入過程中發生內部錯誤" (MessageOf e))
         end
     | inr false => error_reply 401 "Email 或密碼錯誤"
     | inl e => mkHttp 500 None (Failure "登入過程中發生內部錯誤" (MessageOf e))
     end,
     [Get (person_search_url FHIR_BASE email)], rest).
Proof.
  intros Hemail Hpassword Hj Ht H0 Hperson.
  unfold login. cbn [truthy]. rewrite play_io_bind. unfold login_by_password.
  rewrite Hemail, Hpassword. cbn [negb orb].
  rewrite play_fetch_some, play_lift, Hj, play_lift, Ht, H0, play_lift, Hperson.
  rewrite play_lift. unfold new_person.
  cbn [get assoc String.eqb Ascii.eqb Bool.eqb default from_option Datatypes.id obind
       spread app array_find_system find_system str_is].
  change (String.eqb EMAIL_SYSTEM PASSWORD_SYSTEM) with false.
  change (String.eqb PASSWORD_SYSTEM PASSWORD_SYSTEM) with true.
  cbv iota. cbn [truthy negb].
  rewrite play_lift. cbn [get assoc String.eqb Ascii.eqb Bool.eqb default from_option
                          Datatypes.id].
  rewrite play_lift.
  destruct (bcrypt_compare password (Str hashedPassword)) as [e | [|]];
    cbn [settled negb]; try reflexivity.
  rewrite play_lift. cbn [get]. rewrite play_lift.
  destruct (jwt_sign _ _ _) as [e | t]; reflexivity.
Qed.

(** ** The slots of a schedule *)

(** X18: [GET /api/slots] does not depend on who asks: two callers with
    valid tokens get the same run for the same schedule id; the handler
    makes at most one request and posts nothing. *)
Theorem slots_regardless_of_caller tok tok' scheduleId answers :
  truthy tok = true -> truthy tok' = true ->
  is_Some (jwt_verify tok JWT_SECRET) -> is_Some (jwt_verify tok' JWT_SECRET) ->
  play (get_slots FHIR_BASE JWT_SECRET jwt_verify tok scheduleId) answers
  = play (get_slots FHIR_BASE JWT_SECRET jwt_verify tok' scheduleId) answers /\
  (length (play (get_slots FHIR_BASE JWT_SECRET jwt_verify tok scheduleId) answers).1.2
     <= 1)%nat /\
  submitted (play (get_slots FHIR_BASE JWT_SECRET jwt_verify tok scheduleId) answers).1.2
    = [].
Proof.
  intros Ht Ht' [p Hv] [p' Hv'].
  assert (Heq : get_slots FHIR_BASE JWT_SECRET jwt_verify tok scheduleId
                = get_slots FHIR_BASE JWT_SECRET jwt_verify tok' scheduleId).
  { unfold get_slots, get_slots_try. by rewrite Ht, Ht', Hv, Hv'. }
  split; [by rewrite Heq |].
  destruct (play (get_slots _ _ _ tok scheduleId) answers) as [[reply rqs] rest] eqn:H.
  cbn [fst snd]. unfold get_slots in H. rewrite play_io_bind in H.
  destruct (play (get_slots_try _ _ _ tok scheduleId) answers) as [[o rqs0] rest0] eqn:Hp.
  cbn [play] in H. rewrite app_nil_r in H. injection H as <- <- <-.
  unfold get_slots_try in Hp. steps Hp.
  all: injection Hp as <- <- <-; cbn; split; (lia || reflexivity).
Qed.

(** ** The caller's appointments *)

(** X19: an appointment as the booking handler creates it, returned by
    the appointment search with the id the backend gave it, is listed by
    [GET /api/appointments] with that id, the id of its schedule, the
    start and end of the booked slot and status booked. *)
Theorem booked_appointment_listed
  tok answers reply rqs rest aRes aBundle entries e slotId r start end_ id sch :
  play (get_appointments FHIR_BASE JWT_SECRET jwt_verify tok) answers = (reply, rqs, rest) ->
  http_status reply = 200 -> asked 1 rqs ->
  answer 1 answers = Some aRes -> json aRes = Normal aBundle ->
  get aBundle "entry" = Normal (Arr entries) -> e ∈ entries ->
  get e "resource"
    = Normal (Obj (set_field "id" (Str id) (new_appointment slotId r start end_))) ->
  scheduleRef r = Str ("Schedule/" +:+ sch) -> all_unreserved sch = true ->
  exists items name,
    http_body reply = Json (Arr items) /\
    Obj [("appointmentId", Str id); ("scheduleId", Str sch); ("scheduleName", name);
         ("start", start); ("end", end_); ("status", Str "booked")] ∈ items.
Proof.
  unfold get_appointments. intros H Hs Hask Ha Hj Hentry Hin He Hr Hplain.
  rewrite play_io_bind in H.
  destruct (play (get_appointments_try _ _ _ tok) answers) as [[o rqs0] rest0] eqn:Hp.
  cbn [play] in H. rewrite app_nil_r in H. injection H as <- <- <-.
  unfold get_appointments_try in Hp. steps Hp.
  all: injection Hp as <- <- <-; cbn [respond] in Hs; try discriminate.
  all: try (unfold asked in Hask; cbn in Hask; lia).
  all: positions; same_reads.
  all: try lazymatch goal with
       | E : authenticate _ _ _ = Return ?r |- _ =>
           exfalso; clear -E Hs; unfold authenticate in E;
           repeat match type of E with
           | context [match ?x with _ => _ end] => destruct x
           | context [if ?x then _ else _] => destruct x
           end; try discriminate; injection E as <-; discriminate
       end.
  all: try no_return.
  all: try match goal with
           | E : length_is_0 _ = true |- _ =>
               destruct entries; [by apply elem_of_nil in Hin | cbn in E; discriminate]
           end.
  all: lazymatch goal with
       | Ea : array_of (or_else (Arr _) _) = Normal ?l,
         El : map_array (appointment_item ?names) ?l = Normal ?items |- _ =>
           cbn in Ea; injection Ea as <-;
           destruct (map_array_item _ _ _ _ El Hin) as (item & Hitem & Hi);
           rewrite (booked_appointment_item _ _ _ _ _ _ _ _ He Hr Hplain) in Hi;
           injection Hi as <-;
           exists items; eexists; split; [reflexivity | exact Hitem]
       end.
Qed.

End AccountProperties.

(** ** The password entry of a person *)

Lemma filter_other_systems_spec system l kept :
  filter_other_systems system l = Normal kept ->
  kept = List.filter (fun i => negb (str_is (field i "system") system)) l /\
  Forall (fun i => exists s, get i "system" = Normal s /\ str_is s system = false) kept.
Proof.
  revert kept. induction l as [| i l IH]; intros kept; cbn [filter_other_systems].
  - intros [= <-]. split; [reflexivity | constructor].
  - destruct (get i "system") as [s | |] eqn:Hg; cbn [obind]; try discriminate.
    destruct (filter_other_systems system l) as [kept' | |]; cbn [obind]; try discriminate.
    destruct (IH kept' eq_refl) as [-> Hall].
    assert (Hf : field i "system" = s).
    { destruct i; cbn in Hg |- *; congruence. }
    intros [= <-]. cbn [List.filter]. rewrite Hf.
    destruct (str_is s system) eqn:Hs; cbn [negb]; split; try done.
    constructor; [eauto | exact Hall].
Qed.

Lemma find_system_app system kept e :
  Forall (fun i => exists s, get i "system" = Normal s /\ str_is s system = false) kept ->
  find_system system (kept ++ [e]) = find_system system [e].
Proof.
  induction 1 as [| i kept (s & Hg & Hs) _ IH]; [reflexivity |].
  cbn [app find_system]. rewrite Hg. cbn [obind]. rewrite Hs. exact IH.
Qed.

(** X10: step 3 of [POST /api/reset-password] keeps the identifiers of
    the other systems as they were, in order, and puts one password entry
    after them, with the new hash: exactly one password entry is left,
    however many there were. *)
Theorem reset_leaves_one_password person hash identifier :
  reset_identifier person hash = Normal identifier ->
  exists entries kept,
    obind (get person "identifier") array_or_empty = Normal entries /\
    kept = List.filter (fun i => negb (str_is (field i "system") PASSWORD_SYSTEM)) entries /\
    identifier = kept ++ [Obj [("system", Str PASSWORD_SYSTEM); ("value", hash)]] /\
    List.filter (fun i => str_is (field i "system") PASSWORD_SYSTEM) identifier
      = [Obj [("system", Str PASSWORD_SYSTEM); ("value", hash)]].
Proof.
  unfold reset_identifier. intros H.
  destruct (get person "identifier") as [v | |]; cbn [obind] in *; try discriminate.
  destruct (array_or_empty v) as [entries | |]; cbn [obind] in *; try discriminate.
  destruct (filter_other_systems PASSWORD_SYSTEM entries) as [kept | |] eqn:Hk;
    cbn [obind] in *; try discriminate.
  injection H as <-. exists entries, kept.
  apply filter_other_systems_spec in Hk as [Hk Hall].
  split; [reflexivity |]. split; [exact Hk |]. split; [reflexivity |].
  rewrite List.filter_app. cbn [List.filter field assoc default].
  change (String.eqb "system" "system") with true. cbv iota.
  change (str_is (Str PASSWORD_SYSTEM) PASSWORD_SYSTEM) with true. cbv iota.
  replace (List.filter _ kept) with (@nil val); [reflexivity |].
  symmetry. clear Hk. induction Hall as [| i kept' (s & Hg & Hs) _ IH]; [reflexivity |].
  cbn [List.filter].
  replace (field i "system") with s by (destruct i; cbn in Hg |- *; congruence).
  rewrite Hs. exact IH.
Qed.

(** X11: after that step, the lookup that login makes - the first
    identifier of the password system - finds the new entry, whose value
    is the new hash. *)
Theorem login_finds_reset_password person hash identifier :
  reset_identifier person hash = Normal identifier ->
  exists hashEntry,
    array_find_system PASSWORD_SYSTEM (Arr identifier) = Normal hashEntry /\
    get hashEntry "value" = Normal hash.
Proof.
  unfold reset_identifier. intros H.
  destruct (get person "identifier") as [v | |]; cbn [obind] in *; try discriminate.
  destruct (array_or_empty v) as [entries | |]; cbn [obind] in *; try discriminate.
  destruct (filter_other_systems PASSWORD_SYSTEM entries) as [kept | |] eqn:Hk;
    cbn [obind] in *; try discriminate.
  injection H as <-.
  apply filter_other_systems_spec in Hk as [_ Hall].
  eexists. cbn [array_find_system]. rewrite (find_system_app _ _ _ Hall).
  split; reflexivity.
Qed.

(** ** The further theorems at work *)

Lemma triple_eta {A B C} (x : A * B * C) : x = (x.1.1, x.1.2, x.2).
Proof. by destruct x as [[? ?] ?]. Defined.

(** A forged token is turned away before the clinic is asked anything. *)
Lemma unauthenticated_booking_witness :
  play (Clinic.handler ∅ (mkBookRequest (Some "s2") (Str "forged.jwt"))) []
  = ((mkReply 401 (ErrorBody "Token 驗證失敗"), ∅), [], []).
Proof.
  apply (unauthenticated_booking_rejected Clinic.base Clinic.secret Clinic.verify
           Clinic.numeral ∅ (mkBookRequest (Some "s2") (Str "forged.jwt")) "s2" []).
  - reflexivity.
  - discriminate.
  - reflexivity.
  - right. reflexivity.
Defined.

(** Alice rebooks on the healthy clinic: six reads, then one post. *)
Lemma book_reads_then_posts_witness :
  let res := Clinic.replay Clinic.healthy (Clinic.alice_books "s2") in
  (length res.1.2 <= 7)%nat /\
  exists urls,
    res.1.2 = map Get urls \/
    exists bundle, res.1.2 = map Get urls ++ [PostBundle Clinic.base bundle].
Proof.
  eapply (book_reads_then_posts_once Clinic.base Clinic.secret Clinic.verify
            Clinic.numeral ∅ (Clinic.alice_books "s2")
            (Clinic.answers_on Clinic.healthy (Clinic.alice_books "s2")) _ _ _ _).
  apply quadruple_eta.
Defined.

(** Alice rebooks on the healthy clinic: she is told that her booking was
    updated, and the appointment search had found one. *)
Lemma booked_message_witness :
  exists conflictRes existing total,
    answer 4 (Clinic.answers_on Clinic.healthy (Clinic.alice_books "s2")) = Some conflictRes /\
    json conflictRes = Normal existing /\
    get existing "total" = Normal total /\
    "預約已更新！" = (if gt0 Clinic.numeral total then "預約已更新！" else "預約成功！").
Proof.
  eapply (booked_message_tells_supersession Clinic.base Clinic.secret Clinic.verify
            Clinic.numeral ∅ (Clinic.alice_books "s2")
            (Clinic.answers_on Clinic.healthy (Clinic.alice_books "s2")) _ _ _ _
            "預約已更新！" (Str "100") (quadruple_eta _)).
  vm_compute. reflexivity.
Defined.

(** Alice rebooks on the healthy clinic: applied to the clinic's store,
    what she posted leaves [s2] busy and the new appointment on it. *)
Lemma transaction_busies_witness :
  let res := Clinic.replay Clinic.healthy (Clinic.alice_books "s2") in
  exists st' fs a,
    (default (∅, 0, [])
       (apply_entries (Clinic.resources, 100, [])
          (items (field (default Undefined (head (submitted res.1.2))) "entry")))).1.1 = st' /\
    st' !! "Slot/s2" = Some (Obj fs) /\ assoc "status" fs = Some (Str "busy") /\
    st' !! "Appointment/100" = Some a /\ field a "status" = Str "booked".
Proof.
  cbv zeta.
  pose (rq := Clinic.alice_books "s2").
  pose (res := Clinic.replay Clinic.healthy rq).
  pose (bundle := default Undefined (head (submitted res.1.2))).
  pose (applied := apply_entries (Clinic.resources, 100, []) (items (field bundle "entry"))).
  pose (st' := (default (∅, 0, []) applied).1.1).
  pose (next' := (default (∅, 0, []) applied).1.2).
  pose (results := (default (∅, 0, []) applied).2).
  assert (Happlied : applied = Some (st', next', results)) by (vm_compute; reflexivity).
  destruct (transaction_busies_target_slot Clinic.base Clinic.secret Clinic.verify
              Clinic.numeral ∅ rq (Clinic.answers_on Clinic.healthy rq) _ _ _ _ bundle "s2"
              Clinic.resources 100 [] st' next' results (quadruple_eta _))
    as ((fs & Hs & Hfs) & (a & Ha & Hst & _) & _).
  - reflexivity.
  - vm_compute. apply list_elem_of_here.
  - exact Happlied.
  - exists st', fs, a. split; [reflexivity |].
    split; [exact Hs |]. split; [exact Hfs |]. split; [exact Ha | exact Hst].
Defined.

(** A password-reset token does not log in. *)
Lemma login_token_witness :
  exists reply,
    play (Portal.login_handler Undefined Undefined (Str "person-1.password-reset.15m")) []
      = (reply, [], []) /\
    http_status reply = 401 /\ http_cookie reply = None.
Proof.
  apply (login_token_needs_purpose Clinic.base Clinic.secret Portal.verify Portal.sign
           Portal.compare Undefined Undefined (Str "person-1.password-reset.15m") []).
  - reflexivity.
  - intros payload Hv. vm_compute in Hv. injection Hv as <-. discriminate.
Defined.

(** Alice logs in with her password: the cookie is signed for her person
    id after the hash of the backend compared equal. *)
Lemma login_cookie_witness :
  let res := play (Portal.login_handler (Str "alice@example.org") (Str "correct horse")
                     Undefined) [Portal.found [Portal.alice]] in
  http_cookie res.1.1 = Some "person-1.undefined.1h" /\ http_status res.1.1 = 200.
Proof.
  cbv zeta. split; [reflexivity |].
  eapply (login_cookie_needs_proof Clinic.base Clinic.secret Portal.verify Portal.sign
            Portal.compare (Str "alice@example.org") (Str "correct horse") Undefined
            [Portal.found [Portal.alice]] _ _ _ "person-1.undefined.1h" (triple_eta _)).
  reflexivity.
Defined.

(** An unknown email and a wrong password get the same reply. *)
Lemma login_failures_witness :
  (play (Portal.login_handler (Str "nobody@example.org") (Str "x") Undefined)
     [Portal.found []]).1.1
  = (play (Portal.login_handler (Str "alice@example.org") (Str "wrong") Undefined)
       [Portal.found [Portal.alice]]).1.1.
Proof.
  eapply (login_failures_alike Clinic.base Clinic.secret Portal.verify Portal.sign
            Portal.compare
            (Str "nobody@example.org") (Str "x") Undefined [Portal.found []] _ _ _
            (Str "alice@example.org") (Str "wrong") Undefined
            [Portal.found [Portal.alice]] _ _ _ eq_refl eq_refl
            (triple_eta _) (triple_eta _)).
  - reflexivity.
  - reflexivity.
Defined.

(** A reset asked for an unknown email and for Alice's get the same reply. *)
Lemma reset_request_witness :
  (play (Portal.reset_handler (Str "nobody@example.org")) [Portal.found []]).1.1
  = (play (Portal.reset_handler (Str "alice@example.org")) [Portal.found [Portal.alice]]).1.1.
Proof.
  eapply (reset_request_hides_registration Clinic.base Clinic.secret Portal.sign
            Portal.send_mail
            (Str "nobody@example.org") [Portal.found []] _ _ _
            (Str "alice@example.org") [Portal.found [Portal.alice]] _ _ _
            (triple_eta _) (triple_eta _)).
  - reflexivity.
  - reflexivity.
Defined.

(** Alice resets her password: her email entry stays, the old hash goes. *)
Lemma reset_leaves_one_witness :
  exists entries kept,
    obind (get Portal.alice "identifier") array_or_empty = Normal entries /\
    kept = List.filter (fun i => negb (str_is (field i "system") PASSWORD_SYSTEM)) entries /\
    [Obj [("system", Str EMAIL_SYSTEM); ("value", Str "alice@example.org")];
     Obj [("system", Str PASSWORD_SYSTEM); ("value", Str "$2a$10$new")]]
    = kept ++ [Obj [("system", Str PASSWORD_SYSTEM); ("value", Str "$2a$10$new")]] /\
    List.filter (fun i => str_is (field i "system") PASSWORD_SYSTEM)
      [Obj [("system", Str EMAIL_SYSTEM); ("value", Str "alice@example.org")];
       Obj [("system", Str PASSWORD_SYSTEM); ("value", Str "$2a$10$new")]]
    = [Obj [("system", Str PASSWORD_SYSTEM); ("value", Str "$2a$10$new")]].
Proof.
  apply (reset_leaves_one_password Portal.alice (Str "$2a$10$new")).
  reflexivity.
Defined.

(** After the reset, login finds the new hash. *)
Lemma login_finds_reset_witness :
  exists hashEntry,
    array_find_system PASSWORD_SYSTEM
      (Arr [Obj [("system", Str EMAIL_SYSTEM); ("value", Str "alice@example.org")];
            Obj [("system", Str PASSWORD_SYSTEM); ("value", Str "$2a$10$new")]])
      = Normal hashEntry /\
    get hashEntry "value" = Normal (Str "$2a$10$new").
Proof.
  apply (login_finds_reset_password Portal.alice (Str "$2a$10$new")).
  reflexivity.
Defined.

(** The backend is down when Alice asks for her patient record. *)
Lemma patient_lookup_witness :
  let res := play (get_patient Clinic.base Clinic.secret Clinic.verify
                     (Str "alice.jwt") (Str "org1") Undefined) [None] in
  res.1.2 = [Get Clinic.patient_url] /\
  exists reply, res.1.1 = Normal reply /\ http_status reply = 502.
Proof.
  cbv zeta.
  destruct (patient_lookup_backend_failure Clinic.base Clinic.secret Clinic.verify
              (Str "alice.jwt") (Str "org1") Undefined
              (Obj [("id", Str "person-1")]) (Str "person-1") [None] _ _ _
              eq_refl eq_refl eq_refl (triple_eta _)) as [Hrqs [_ Hfail]].
  split; [exact Hrqs |]. apply Hfail. intros fhirRes Ha. discriminate Ha.
Defined.

(** Alice is already a patient of the organization: nothing is created. *)
Lemma patient_created_witness :
  let res := play (post_patient Clinic.base Clinic.secret Clinic.verify Clinic.numeral
                     (Str "alice.jwt") (Str "org1") (Str "alice@example.org"))
               [Portal.found [Portal.alice_patient]] in
  res.1.1 = Normal (error_reply 409 "已在此組織註冊") /\ submitted res.1.2 = [].
Proof.
  cbv zeta.
  destruct (patient_created_after_check Clinic.base Clinic.secret Clinic.verify
              Clinic.numeral (Str "alice.jwt") (Str "org1") (Str "alice@example.org")
              [Portal.found [Portal.alice_patient]] _ _ _ (triple_eta _)) as [Htaken _].
  eapply Htaken.
  - reflexivity.
  - reflexivity.
  - reflexivity.
  - reflexivity.
  - vm_compute. lia.
Defined.

(** The booking on the healthy clinic looks Alice's patient record up
    where her registration with [org1] checked for one. *)
Lemma booking_searches_witness :
  let res := Clinic.replay Clinic.healthy (Clinic.alice_books "s2") in
  head (play (post_patient Clinic.base Clinic.secret Clinic.verify Clinic.numeral
                (Str "alice.jwt") (Str "org1") (Str "alice@example.org")) []).1.2
  = res.1.2 !! 3%nat /\
  head (play (get_patient Clinic.base Clinic.secret Clinic.verify
                (Str "alice.jwt") (Str "org1") Undefined) []).1.2
  = res.1.2 !! 3%nat.
Proof.
  cbv zeta.
  eapply (booking_searches_registered_patient Clinic.base Clinic.secret Clinic.verify
            Clinic.numeral ∅ (Clinic.alice_books "s2")
            (Clinic.answers_on Clinic.healthy (Clinic.alice_books "s2")) _ _ _ _
            Clinic.role_answer _ "org1" (Str "alice@example.org") [] (quadruple_eta _)).
  - vm_compute. lia.
  - vm_compute. reflexivity.
  - reflexivity.
  - reflexivity.
  - reflexivity.
  - discriminate.
  - reflexivity.
Defined.

(** Alice asks for the schedules of [org1], where she is a patient. *)
Lemma schedules_registration_witness :
  exists patientRes patientBundle entries e org,
    answer 0 [Portal.found [Portal.alice_patient]; None] = Some patientRes /\
    ok patientRes = true /\ json patientRes = Normal patientBundle /\
    get patientBundle "entry" = Normal (Arr entries) /\
    e ∈ entries /\ registered_org e = Normal (Str org) /\ Str "org1" = Str org.
Proof.
  eapply (schedules_need_registration Clinic.base Clinic.secret Clinic.verify
            (Str "org1") (Str "alice.jwt") [Portal.found [Portal.alice_patient]; None]
            _ _ _ (triple_eta _)).
  vm_compute. lia.
Defined.

(** Carol registers: her person record goes out with the hash. *)
Lemma person_created_witness :
  let res := play (Portal.register_handler (Str "Carol") (Str "carol@example.org")
                     (Str "tr0ub4dor"))
               [Portal.found []; Portal.created (Obj [("id", Str "person-9")])] in
  exists checkRes checkData total hashedPassword,
    answer 0 [Portal.found []; Portal.created (Obj [("id", Str "person-9")])]
      = Some checkRes /\
    json checkRes = Normal checkData /\ get checkData "total" = Normal total /\
    gt0 Clinic.numeral total = false /\
    Portal.hash (Str "tr0ub4dor") = inr hashedPassword /\
    default Undefined (head (submitted res.1.2))
      = new_person (Str "Carol") (Str "carol@example.org") hashedPassword /\
    submitted res.1.2 = [default Undefined (head (submitted res.1.2))].
Proof.
  cbv zeta.
  destruct (person_created_after_check Clinic.base Clinic.secret Clinic.numeral
              Portal.sign Portal.hash Portal.text
              (Str "Carol") (Str "carol@example.org") (Str "tr0ub4dor")
              [Portal.found []; Portal.created (Obj [("id", Str "person-9")])] _ _ _
              (triple_eta _)) as [_ Hposted].
  apply Hposted. vm_compute. apply list_elem_of_here.
Defined.

(** Carol registers and logs in with the token she got. *)
Lemma registration_token_witness :
  play (Portal.login_handler Undefined Undefined (Str "person-9.post-registration.5m")) []
  = (logged_in "person-9.undefined.1h" "註冊後自動登入成功", [], []).
Proof.
  destruct (registration_token_logs_in Clinic.base Clinic.secret Portal.verify
              Clinic.numeral Portal.sign Portal.hash Portal.compare Portal.text
              (Str "Carol") (Str "carol@example.org") (Str "tr0ub4dor")
              [Portal.found []; Portal.created (Obj [("id", Str "person-9")])] _ _ _
              (triple_eta _) eq_refl) as (id & t & Hbody & Hsign & Hlogin).
  vm_compute in Hsign. injection Hsign as <-.
  vm_compute in Hbody. injection Hbody as <-.
  eapply (Hlogin _ _ Undefined Undefined []).
  - discriminate.
  - reflexivity.
  - reflexivity.
  - reflexivity.
  - reflexivity.
Defined.

(** Alice and Bob get the same slots of schedule [sch1]. *)
Lemma slots_caller_witness :
  let slots := [Some (mkResponse 200 "OK" (Some (searchset
                  [Clinic.slot "s1" "busy" "2025-08-05T09:00:00Z" "2025-08-05T09:30:00Z"])))] in
  play (get_slots Clinic.base Clinic.secret Portal.verify (Str "alice.jwt") (Str "sch1")) slots
  = play (get_slots Clinic.base Clinic.secret Portal.verify (Str "person-2.undefined.1h")
            (Str "sch1")) slots.
Proof.
  cbv zeta.
  apply (slots_regardless_of_caller Clinic.base Clinic.secret Portal.verify
           (Str "alice.jwt") (Str "person-2.undefined.1h") (Str "sch1")).
  - reflexivity.
  - reflexivity.
  - vm_compute. eauto.
  - vm_compute. eauto.
Defined.

(** Alice lists her appointments after she booked [s2]. *)
Lemma booked_appointment_witness :
  let res := play (get_appointments Clinic.base Clinic.secret Clinic.verify (Str "alice.jwt"))
               [Portal.found [Portal.alice_patient]; Portal.found [Portal.alice_appointment];
                Portal.found [Portal.morning_clinic]] in
  exists items name,
    http_body res.1.1 = Json (Arr items) /\
    Obj [("appointmentId", Str "100"); ("scheduleId", Str "sch1"); ("scheduleName", name);
         ("start", Str "2025-08-05T09:30:00Z"); ("end", Str "2025-08-05T10:00:00Z");
         ("status", Str "booked")] ∈ items.
Proof.
  cbv zeta.
  eapply (booked_appointment_listed Clinic.base Clinic.secret Clinic.verify (Str "alice.jwt")
            [Portal.found [Portal.alice_patient]; Portal.found [Portal.alice_appointment];
             Portal.found [Portal.morning_clinic]] _ _ _
            (mkResponse 200 "OK" (Some (searchset [Portal.alice_appointment])))
            (searchset [Portal.alice_appointment])
            [Obj [("resource", Portal.alice_appointment)]]
            (Obj [("resource", Portal.alice_appointment)])
            "s2" Portal.alice_booking _ _ "100" "sch1" (triple_eta _)).
  - reflexivity.
  - vm_compute. lia.
  - reflexivity.
  - reflexivity.
  - reflexivity.
  - apply list_elem_of_here.
  - reflexivity.
  - reflexivity.
  - reflexivity.
Defined.

(** Alice, registered with [org1] through [POST /api/patient], asks for
    its schedules: the role bindings of [org1] are searched. *)
Lemma registered_patient_witness :
  (play (schedules_of_organization Clinic.base Clinic.secret Clinic.verify
           (Str "org1") (Str "alice.jwt"))
     [Portal.found [Portal.alice_registration]]).1.2 !! 1%nat
  = Some (Get (Clinic.base +:+ "/PractitionerRole?organization=Organization/" +:+ "org1")).
Proof.
  eapply (registered_patient_sees_schedules Clinic.base Clinic.secret Clinic.verify
            (Str "alice.jwt") "org1" [Portal.found [Portal.alice_registration]] _ _ _
            (Str "person-1")
            (mkResponse 200 "OK" (Some (searchset [Portal.alice_registration])))
            (searchset [Portal.alice_registration])
            [Obj [("resource", Portal.alice_registration)]] [Str "org1"]
            (Str "person-1") (Str "alice@example.org") [("id", Str "p1")]
            (triple_eta _)).
  - reflexivity.
  - reflexivity.
  - reflexivity.
  - reflexivity.
  - reflexivity.
  - reflexivity.
  - apply list_elem_of_here.
  - reflexivity.
  - discriminate.
Defined.

(** Carol logs in with the password she registered with. *)
Lemma login_registered_witness :
  play (Portal.login_handler (Str "carol@example.org") (Str "tr0ub4dor") Undefined)
    [Portal.found [Portal.carol]]
  = (logged_in "person-9.undefined.1h" "登入成功",
     [Get (person_search_url Clinic.base (Str "carol@example.org"))], []).
Proof.
  apply (login_compares_registered_hash Clinic.base Clinic.secret Portal.verify Portal.sign
           Portal.compare (Str "carol@example.org") (Str "tr0ub4dor")
           (mkResponse 200 "OK" (Some (searchset [Portal.carol])))
           (searchset [Portal.carol]) (Num 1)
           (Str "Carol") (Str "carol@example.org") "$2a$10$tr0ub4dor"
           [("id", Str "person-9")] []).
  - reflexivity.
  - reflexivity.
  - reflexivity.
  - reflexivity.
  - reflexivity.
  - reflexivity.
Defined.
